(** * Resumable PPO training orchestrator: checkpoint and metrics accounting

    A shallow embedding of [backend/python-rl/ppo_trainer.py] (the
    [CheckpointManager], [validate_checkpoint_config] and [train]) and of the
    persistence half of [backend/python-rl/metrics_tracker.py]
    ([MetricsTracker]), together with the properties of the iteration and
    episode accounting, of checkpoint validation and of resume.

    Conventions.
    - Python integers are [Z]; [//] and [%] are [Z.div] and [Z.modulo]
      (both round towards minus infinity and take the sign of the divisor),
      with the [ZeroDivisionError] of a zero divisor written out.
    - Values that come out of [json.load] are dynamically typed: they are
      [pyval]s, and every operation the code applies to them ([.get],
      [.append], [len], truthiness, [==], [+=]) is partial the way Python
      makes it partial.
    - Python floats are binary64, carried by the primitive [float] type.
    - Paths are strings; the file store is a finite map from path to file
      content.  [pathlib]'s normalisation is modelled for [Path.name] only.
    - Console output is a list of structured events carrying the values the
      f-strings interpolate.
    - The configuration is the record of the keys [train] reads, the integer
      ones as [Z]; what a step of the learner returns is the record of the
      statistics the trainer reads from it.  The learner and the user are
      outside the process: a [Script] says what each step of the learner does
      and when Ctrl-C arrives (while a step runs, at the end of an iteration's
      body, or once the final checkpoint is written).
    - [json.dump] and [json.load] are the interface [JsonCodec]. *)

Set Warnings "-register-all,-inexact-float".
From Stdlib Require Import ZArith String Ascii List Sorted Floats QArith Qround Lia.
From stdpp Require Import base option list gmap strings.
Import ListNotations.
Local Open Scope string_scope.
Local Open Scope Z_scope.
Local Open Scope list_scope.

(** ** Python values *)

Inductive pyval : Type :=
| PNone
| PBool (b : bool)
| PInt (z : Z)
| PFloat (f : float)
| PStr (s : string)
| PList (l : list pyval)
| PDict (d : gmap string pyval).

Inductive exn : Type :=
| JSONDecodeError
| AttributeError
| TypeError
| ZeroDivisionError
| OverflowError
| UnboundLocalError
| KeyboardInterrupt
| LearnerError.

(** What a call ends in: a value, a raised exception, or [sys.exit]. *)
Inductive result (A : Type) : Type :=
| Ok (a : A)
| Raise (e : exn)
| Exit (code : Z).
Arguments Ok {A} a.
Arguments Raise {A} e.
Arguments Exit {A} code.

Module Py.

(** [float(z)]: the nearest binary64, ties to even. *)
Definition float_of_Z (z : Z) : float :=
  SF2Prim (binary_normalize prec emax z 0 false).

(** [f == z] for a float and an int compares the exact values. *)
Definition float_eq_Z (f : float) (z : Z) : bool :=
  match Prim2SF f with
  | S754_zero _ => z =? 0
  | S754_finite s m e =>
      let v := if s then Z.neg m else Z.pos m in
      if 0 <=? e then z =? v * 2 ^ e
      else (v mod 2 ^ (- e) =? 0) && (z =? v / 2 ^ (- e))
  | S754_infinity _ | S754_nan => false
  end.

(** [bool(v)]. *)
Definition truthy (v : pyval) : bool :=
  match v with
  | PNone => false
  | PBool b => b
  | PInt z => negb (z =? 0)
  | PFloat f => negb (PrimFloat.eqb f 0%float)
  | PStr s => negb (String.eqb s "")
  | PList l => negb (Nat.eqb (length l) 0)
  | PDict d => negb (Nat.eqb (size d) 0)
  end.

(** [v == z] where [z] is an int. *)
Definition eq_int (v : pyval) (z : Z) : bool :=
  match v with
  | PInt a => a =? z
  | PBool b => Z.b2z b =? z
  | PFloat f => float_eq_Z f z
  | PNone | PStr _ | PList _ | PDict _ => false
  end.

(** [d.get(k, dflt)]. *)
Definition get (d : gmap string pyval) (k : string) (dflt : pyval) : pyval :=
  default dflt (d !! k).

(** [len(v)]; [None] stands for the [TypeError] of an unsized value. *)
Definition len (v : pyval) : option nat :=
  match v with
  | PStr s => Some (String.length s)
  | PList l => Some (length l)
  | PDict d => Some (size d)
  | PNone | PBool _ | PInt _ | PFloat _ => None
  end.

(** [v.append(x)]; only lists have the method. *)
Definition append (v x : pyval) : result pyval :=
  match v with
  | PList l => Ok (PList (l ++ [x]))
  | _ => Raise AttributeError
  end.

(** [v + z] for an int [z] (the [+=] of the episode counter). *)
Definition add_int (v : pyval) (z : Z) : result pyval :=
  match v with
  | PInt a => Ok (PInt (a + z))
  | PBool b => Ok (PInt (Z.b2z b + z))
  | PFloat f =>
      match Prim2SF (float_of_Z z) with
      | S754_infinity _ => Raise OverflowError
      | _ => Ok (PFloat (PrimFloat.add f (float_of_Z z)))
      end
  | PNone | PStr _ | PList _ | PDict _ => Raise TypeError
  end.

(** *** Strings *)

(** [sub in s]. *)
Fixpoint contains (sub s : string) : bool :=
  String.prefix sub s ||
  match s with
  | EmptyString => false
  | String _ s' => contains sub s'
  end.

(** [s.split(c)] for a one-character separator. *)
Fixpoint split (c : ascii) (s : string) : list string :=
  match s with
  | EmptyString => [EmptyString]
  | String a s' =>
      if Ascii.eqb a c then EmptyString :: split c s'
      else match split c s' with
           | [] => [String a EmptyString]
           | x :: xs => String a x :: xs
           end
  end.

(** [str.isspace] on one ASCII character. *)
Definition is_space (a : ascii) : bool :=
  let n := nat_of_ascii a in
  ((9 <=? n) && (n <=? 13) || (28 <=? n) && (n <=? 32))%nat.

Definition is_digit (a : ascii) : bool :=
  let n := nat_of_ascii a in ((48 <=? n) && (n <=? 57))%nat.

Definition digit_val (a : ascii) : Z := Z.of_nat (nat_of_ascii a) - 48.

Fixpoint lstrip (s : string) : string :=
  match s with
  | String a s' => if is_space a then lstrip s' else s
  | EmptyString => s
  end.

(** Drop the trailing white space: keeps a character when it is not a space
    or when something is kept after it. *)
Fixpoint rstrip (s : string) : string :=
  match s with
  | EmptyString => EmptyString
  | String a s' =>
      match rstrip s' with
      | EmptyString => if is_space a then EmptyString else String a EmptyString
      | r => String a r
      end
  end.

(** The digits of a non-empty all-digit string, most significant first. *)
Fixpoint digits_value (acc : Z) (s : string) : option Z :=
  match s with
  | EmptyString => Some acc
  | String a s' =>
      if is_digit a then digits_value (10 * acc + digit_val a) s' else None
  end.

Definition unsigned_of_string (s : string) : option Z :=
  match s with
  | EmptyString => None
  | _ => digits_value 0 s
  end.

(** [int(s)] on a string without ['_']: surrounding white space, one optional
    sign, then at least one decimal digit.  [None] is the [ValueError].
    (The only caller passes a piece of [split('_')], so the digit-group
    underscores of Python's integer syntax cannot occur; characters are
    ASCII.) *)
Definition int_of_string (s : string) : option Z :=
  match rstrip (lstrip s) with
  | String "-" r => Z.opp <$> unsigned_of_string r
  | String "+" r => unsigned_of_string r
  | r => unsigned_of_string r
  end.

Definition digit_char (d : Z) : ascii := ascii_of_nat (Z.to_nat (48 + d)).

(** Decimal digits of [n >= 0], prepended to [acc]; [fuel] bounds the number
    of digits. *)
Fixpoint dec_digits (fuel : nat) (n : Z) (acc : string) : string :=
  match fuel with
  | O => acc
  | S fuel' =>
      let acc' := String (digit_char (n mod 10)) acc in
      if n / 10 =? 0 then acc' else dec_digits fuel' (n / 10) acc'
  end.

(** [str(n)] for [n >= 0]. *)
Definition str_of_nonneg (n : Z) : string :=
  dec_digits (S (Z.to_nat (Z.log2 n))) n EmptyString.

Fixpoint zeros (k : nat) : string :=
  match k with
  | O => EmptyString
  | S k' => String "0" (zeros k')
  end.

(** Left-pad with ['0'] up to [width] characters. *)
Definition zfill (width : nat) (s : string) : string :=
  (zeros (width - String.length s) ++ s)%string.

(** [f"{n:06d}"]: at least six characters, zero padded after the sign. *)
Definition format_06d (n : Z) : string :=
  if n <? 0 then String "-" (zfill 5 (str_of_nonneg (- n)))
  else zfill 6 (str_of_nonneg n).

(** *** Paths *)

(** [Path(d) / n] rendered as a string. *)
Definition path_join (d n : string) : string := (d ++ "/" ++ n)%string.

Definition real_part (s : string) : bool :=
  negb (String.eqb s "") && negb (String.eqb s ".").

(** [Path(p).name]: the last component once empty and ["."] components are
    dropped, or the empty string if none is left. *)
Definition path_name (p : string) : string :=
  List.last (List.filter real_part (split "/" p)) EmptyString.

(** Every character of [s] satisfies [p]. *)
Fixpoint all_chars (p : ascii -> bool) (s : string) : bool :=
  match s with
  | EmptyString => true
  | String a s' => p a && all_chars p s'
  end.

Definition sign_or_digit (a : ascii) : bool := is_digit a || Ascii.eqb a "-".

End Py.


(** [a // b] and [a % b] on ints. *)
Definition floordiv (a b : Z) : result Z :=
  if b =? 0 then Raise ZeroDivisionError else Ok (a / b).

Definition pymod (a b : Z) : result Z :=
  if b =? 0 then Raise ZeroDivisionError else Ok (a mod b).

(** ** The [json] module

    [json.dump] and [json.load] belong to the Python standard library, not to
    this repository: they are an interface here.  [text] is what a file holds.
    The one law is the library's: a JSON document that was dumped loads back
    as the same document. *)
Class JsonCodec (text : Type) : Type := {
  json_dump : pyval -> text;
  json_load : text -> option pyval;   (* [None]: [JSONDecodeError] *)
  json_load_dump : forall v, json_load (json_dump v) = Some v
}.

(** ** Console output and calls into the learner *)

Inductive issue : Type :=
| ObservationSizeMismatch (saved : pyval) (current : Z)
| ActionSpaceChanged (saved : pyval).

Inductive event : Type :=
| LoadedIndex (n : nat)
| LoadedMetrics (n : nat)
| MetricsLoadFailed (e : exn)
| NoMetadataWarning
| MaxStepsChangedWarning (saved : pyval) (current : Z)
| BatchSizeChangedInfo (saved : pyval) (current : Z)
| RestoringBanner
| Incompatible (issues : list issue)
| OffsetEstimatedWarning (offset : Z)
| OffsetFromMetadata (offset : pyval)
| IterationParseFailed
| LearnerRestored (path : string)
| TrainingConfiguration (training_iterations start_iteration episodes_per_iteration : Z)
                        (completed : pyval)
| Progress (iteration : Z)
| SnapshotSaved (path : string)
| CheckpointSaved (name : string)
| PlotsGenerated (iteration : Z)
| SummaryPrinted
| TrainingComplete
| TrainingInterrupted
| ResumeHint (path : string)
| TrainingError (e : exn)
| LearnerStopped.

(** ** The world outside the process: files, console, clock

    [fs] holds the JSON files the trainer reads back: the checkpoint index,
    each checkpoint's [metadata.json] and the metrics history.  What is only
    ever written (the learner's snapshot, the plots, [training_summary.json]) is
    recorded as an event on the console list. *)

Section World.
Context {text : Type}.

Record world : Type := {
  fs : gmap string text;
  console : list event;
  clock : nat -> string;     (* successive readings of [datetime.now().isoformat()] *)
  ticks : nat
}.

Definition emit (e : event) (w : world) : world :=
  {| fs := fs w; console := console w ++ [e]; clock := clock w; ticks := ticks w |}.

Definition write_file (p : string) (t : text) (w : world) : world :=
  {| fs := <[p := t]> (fs w); console := console w; clock := clock w; ticks := ticks w |}.

Definition now (w : world) : string := clock w (ticks w).

Definition tick (w : world) : world :=
  {| fs := fs w; console := console w; clock := clock w; ticks := S (ticks w) |}.
End World.
Arguments world text : clear implicits.

(** ** The configuration (config.yaml), the keys the trainer reads *)

Record Config : Type := {
  observation_size : Z;             (* environment.observation_size *)
  max_steps : Z;                    (* environment.max_steps *)
  train_batch_size : Z;             (* ppo.train_batch_size *)
  checkpoint_freq : Z;              (* ppo.checkpoint_freq *)
  checkpoint_dir : string;          (* ppo.checkpoint_dir *)
  lr_seeker : pyval;                (* ppo.lr_seeker *)
  lr_hider : pyval;                 (* ppo.lr_hider *)
  gamma : pyval;                    (* ppo.gamma *)
  entropy_coeff_seeker : option pyval;
  entropy_coeff_hider : option pyval;
  entropy_coeff : option pyval;
  total_episodes : Z;               (* training.total_episodes *)
  log_frequency : option Z          (* training.log_frequency *)
}.

(** ** Stateful calls: a state, and a value, an exception or an exit *)

Definition M (S A : Type) : Type := S -> result A * S.

Definition ret {S A} (a : A) : M S A := fun s => (Ok a, s).

Definition bind {S A B} (m : M S A) (k : A -> M S B) : M S B :=
  fun s =>
    match m s with
    | (Ok a, s') => k a s'
    | (Raise e, s') => (Raise e, s')
    | (Exit c, s') => (Exit c, s')
    end.

Definition raise {S A} (e : exn) : M S A := fun s => (Raise e, s).

Definition lift_result {S A} (r : result A) : M S A := fun s => (r, s).

Notation "'do' x <- m ; k" := (bind m (fun x => k))
  (at level 10, x pattern, m at level 100, k at level 200).
Notation "'do_' m ; k" := (bind m (fun _ => k))
  (at level 10, m at level 100, k at level 200).

(** ** CheckpointManager *)

Record CheckpointManager : Type := {
  cm_checkpoint_dir : string;
  checkpoint_history : pyval
}.

Module CM.
Section CM.
Context {text : Type} `{!JsonCodec text}.
Abbreviation St := (CheckpointManager * world text)%type.

Definition index_file (dir : string) : string :=
  Py.path_join dir "checkpoint_index.json".

Definition checkpoint_name (iteration : Z) : string :=
  ("checkpoint_" ++ Py.format_06d iteration)%string.

Definition metadata_file (checkpoint_path : string) : string :=
  Py.path_join checkpoint_path "metadata.json".

(** [_load_checkpoint_index]: no handler around [json.load]. *)
Definition _load_checkpoint_index : M St unit :=
  fun '(self, w) =>
    match fs w !! index_file (cm_checkpoint_dir self) with
    | None => (Ok tt, (self, w))
    | Some content =>
        match json_load content with
        | None => (Raise JSONDecodeError, (self, w))
        | Some (PDict data) =>
            let self' := {| cm_checkpoint_dir := cm_checkpoint_dir self;
                            checkpoint_history := Py.get data "checkpoints" (PList []) |} in
            match Py.len (checkpoint_history self') with
            | Some n => (Ok tt, (self', emit (LoadedIndex n) w))
            | None => (Raise TypeError, (self', w))
            end
        | Some _ => (Raise AttributeError, (self, w))
        end
    end.

(** [CheckpointManager(checkpoint_dir)]. *)
Definition init (dir : string) (w : world text) : result CheckpointManager * world text :=
  let self := {| cm_checkpoint_dir := dir; checkpoint_history := PList [] |} in
  match _load_checkpoint_index (self, w) with
  | (Ok _, (self', w')) => (Ok self', w')
  | (Raise e, (_, w')) => (Raise e, w')
  | (Exit c, (_, w')) => (Exit c, w')
  end.

(** [_save_checkpoint_index]. *)
Definition _save_checkpoint_index : M St unit :=
  fun '(self, w) =>
    let doc := PDict (<["checkpoints" := checkpoint_history self]>
                      (<["last_updated" := PStr (now w)]> ∅)) in
    (Ok tt, (self, write_file (index_file (cm_checkpoint_dir self)) (json_dump doc) (tick w))).

Definition entropy_default (specific general : option pyval) : pyval :=
  default (default (PFloat 0.001%float) general) specific.

(** The metadata document of [save_checkpoint], before [metrics] are merged
    in. *)
Definition base_metadata (iteration : Z) (timestamp saved_path : string) (config : Config)
  : gmap string pyval :=
  list_to_map
    [ ("iteration", PInt iteration);
      ("timestamp", PStr timestamp);
      ("checkpoint_path", PStr saved_path);
      ("observation_size", PInt (observation_size config));
      ("action_size", PInt 7);
      ("max_steps", PInt (max_steps config));
      ("train_batch_size", PInt (train_batch_size config));
      ("lr_seeker", lr_seeker config);
      ("lr_hider", lr_hider config);
      ("entropy_coeff_seeker",
        entropy_default (entropy_coeff_seeker config) (entropy_coeff config));
      ("entropy_coeff_hider",
        entropy_default (entropy_coeff_hider config) (entropy_coeff config));
      ("gamma", gamma config) ].

(** [if metrics:] on the optional dict argument. *)
Definition given (metrics : option (gmap string pyval)) : bool :=
  match metrics with
  | Some m => Py.truthy (PDict m)
  | None => false
  end.

Definition index_record (iteration : Z) (name : string) (timestamp : pyval)
    (metrics : option (gmap string pyval)) : pyval :=
  PDict (list_to_map
    [ ("iteration", PInt iteration);
      ("path", PStr name);
      ("timestamp", timestamp);
      ("total_episodes",
        match metrics with
        | Some m => if given metrics then Py.get m "total_episodes" (PInt 0) else PInt 0
        | None => PInt 0
        end) ]).

(** [save_checkpoint(trainer, iteration, config, metrics)].  The learner
    writes its snapshot under the path it is given and reports that path. *)
Definition save_checkpoint (iteration : Z) (config : Config)
    (metrics : option (gmap string pyval)) : M St string :=
  fun '(self, w) =>
    let name := checkpoint_name iteration in
    let checkpoint_path := Py.path_join (cm_checkpoint_dir self) name in
    let w := emit (SnapshotSaved checkpoint_path) w in
    let saved_path := checkpoint_path in
    let timestamp := now w in
    let w := tick w in
    let metadata := base_metadata iteration timestamp saved_path config in
    let metadata :=
      match metrics with
      | Some m => if given metrics then m ∪ metadata else metadata
      | None => metadata
      end in
    let w := write_file (metadata_file checkpoint_path) (json_dump (PDict metadata)) w in
    match Py.append (checkpoint_history self)
                    (index_record iteration name (Py.get metadata "timestamp" PNone)
                                  metrics) with
    | Ok h =>
        let self := {| cm_checkpoint_dir := cm_checkpoint_dir self;
                       checkpoint_history := h |} in
        match _save_checkpoint_index (self, w) with
        | (Ok _, (self, w)) => (Ok saved_path, (self, emit (CheckpointSaved name) w))
        | (Raise e, s) => (Raise e, s)
        | (Exit c, s) => (Exit c, s)
        end
    | Raise e => (Raise e, (self, w))
    | Exit c => (Exit c, (self, w))
    end.

(** [get_checkpoint_metadata(checkpoint_path)]: the parsed sidecar file, or
    the empty dict when there is none. *)
Definition get_checkpoint_metadata (checkpoint_path : string) : M (world text) pyval :=
  fun w =>
    match fs w !! metadata_file checkpoint_path with
    | Some content =>
        match json_load content with
        | Some v => (Ok v, w)
        | None => (Raise JSONDecodeError, w)
        end
    | None => (Ok (PDict ∅), w)
    end.
End CM.
End CM.

(** ** validate_checkpoint_config *)

Section Validate.
Context {text : Type}.

(** [saved and saved != current]. *)
Definition changed (saved : pyval) (current : Z) : bool :=
  Py.truthy saved && negb (Py.eq_int saved current).

Definition validate_checkpoint_config (checkpoint_metadata : pyval) (current_config : Config)
  : M (world text) (bool * list issue) :=
  fun w =>
    if negb (Py.truthy checkpoint_metadata) then
      (Ok (true, []), emit NoMetadataWarning w)
    else
      match checkpoint_metadata with
      | PDict md =>
          let issues : list issue := [] in
          let saved_obs_size := Py.get md "observation_size" PNone in
          let current_obs_size := observation_size current_config in
          let issues :=
            if changed saved_obs_size current_obs_size
            then (issues ++ [ObservationSizeMismatch saved_obs_size current_obs_size])%list
            else issues in
          let saved_action_size := Py.get md "action_size" PNone in
          let issues :=
            if changed saved_action_size 7
            then (issues ++ [ActionSpaceChanged saved_action_size])%list
            else issues in
          let saved_max_steps := Py.get md "max_steps" PNone in
          let current_max_steps := max_steps current_config in
          let w :=
            if changed saved_max_steps current_max_steps
            then emit (MaxStepsChangedWarning saved_max_steps current_max_steps) w
            else w in
          let saved_batch := Py.get md "train_batch_size" PNone in
          let current_batch := train_batch_size current_config in
          let w :=
            if changed saved_batch current_batch
            then emit (BatchSizeChangedInfo saved_batch current_batch) w
            else w in
          (Ok (Nat.eqb (length issues) 0, issues), w)
      | _ => (Raise AttributeError, w)
      end.
End Validate.

(** ** MetricsTracker *)

Record MetricsTracker : Type := {
  mt_checkpoint_dir : string;
  metrics_history : pyval
}.

(** What one [trainer.train()] call reports, as far as the trainer reads it:
    [env_runners] statistics and, per policy name, [learner_stats].  A field
    the learner left out is [None]. *)
Record LearnerStats : Type := {
  kl : option pyval;
  entropy : option pyval;
  total_loss : option pyval;
  vf_loss : option pyval
}.

Record IterationResult : Type := {
  episodes_this_iter : option Z;
  episode_len_mean : option pyval;
  episode_reward_mean : option pyval;
  learner : gmap string LearnerStats
}.

Module MT.
Section MT.
Context {text : Type} `{!JsonCodec text}.
Abbreviation St := (MetricsTracker * world text)%type.

Definition metrics_file (dir : string) : string :=
  Py.path_join dir "metrics_history.json".

(** [_load_existing_metrics]: [json.load] and the [print] of the length are
    inside [try ... except Exception]. *)
Definition _load_existing_metrics : M St unit :=
  fun '(self, w) =>
    match fs w !! metrics_file (mt_checkpoint_dir self) with
    | None => (Ok tt, (self, w))
    | Some content =>
        match json_load content with
        | None => (Ok tt, (self, emit (MetricsLoadFailed JSONDecodeError) w))
        | Some v =>
            let self' := {| mt_checkpoint_dir := mt_checkpoint_dir self;
                            metrics_history := v |} in
            match Py.len v with
            | Some n => (Ok tt, (self', emit (LoadedMetrics n) w))
            | None => (Ok tt, (self', emit (MetricsLoadFailed TypeError) w))
            end
        end
    end.

(** [MetricsTracker(checkpoint_dir)]. *)
Definition init (dir : string) (w : world text) : result MetricsTracker * world text :=
  let self := {| mt_checkpoint_dir := dir; metrics_history := PList [] |} in
  match _load_existing_metrics (self, w) with
  | (Ok _, (self', w')) => (Ok self', w')
  | (Raise e, (_, w')) => (Raise e, w')
  | (Exit c, (_, w')) => (Exit c, w')
  end.

Definition stat (o : option pyval) : pyval := default (PInt 0) o.

Definition policy_stat (r : IterationResult) (policy : string)
    (field : LearnerStats -> option pyval) : pyval :=
  match learner r !! policy with
  | Some stats => stat (field stats)
  | None => PInt 0
  end.

(** The record [extract_metrics] builds. *)
Definition metrics_record (r : IterationResult) (iteration : Z) (timestamp : string)
    (episodes : Z) (total : pyval) (max_steps : Z) : pyval :=
  PDict (list_to_map
    [ ("iteration", PInt iteration);
      ("timestamp", PStr timestamp);
      ("episode_len_mean", stat (episode_len_mean r));
      ("episode_reward_mean", stat (episode_reward_mean r));
      ("episodes_this_iter", PInt episodes);
      ("total_episodes", total);
      ("max_steps", PInt max_steps);
      ("seeker_kl", policy_stat r "seeker_policy" kl);
      ("hider_kl", policy_stat r "hider_policy" kl);
      ("seeker_entropy", policy_stat r "seeker_policy" entropy);
      ("hider_entropy", policy_stat r "hider_policy" entropy);
      ("seeker_loss", policy_stat r "seeker_policy" total_loss);
      ("hider_loss", policy_stat r "hider_policy" total_loss);
      ("seeker_vf_loss", policy_stat r "seeker_policy" vf_loss);
      ("hider_vf_loss", policy_stat r "hider_policy" vf_loss) ]).

(** [extract_metrics(result, iteration, episodes_this_iter, total_episodes,
    max_steps)]. *)
Definition extract_metrics (r : IterationResult) (iteration episodes : Z)
    (total : pyval) (max_steps : Z) : M St pyval :=
  fun '(self, w) =>
    let metrics := metrics_record r iteration (now w) episodes total max_steps in
    let w := tick w in
    match Py.append (metrics_history self) metrics with
    | Ok h => (Ok metrics, ({| mt_checkpoint_dir := mt_checkpoint_dir self;
                               metrics_history := h |}, w))
    | Raise e => (Raise e, (self, w))
    | Exit c => (Exit c, (self, w))
    end.

(** [save_metrics]: the whole history replaces the file. *)
Definition save_metrics : M St unit :=
  fun '(self, w) =>
    (Ok tt, (self, write_file (metrics_file (mt_checkpoint_dir self))
                              (json_dump (metrics_history self)) w)).

(** [log_progress], [generate_plots] and [print_summary] only read the
    history; rendering and the rolling averages are not modelled, the calls
    are recorded. *)
Definition log_progress (iteration : Z) : M St unit :=
  fun '(self, w) => (Ok tt, (self, emit (Progress iteration) w)).

Definition generate_plots (iteration : Z) : M St unit :=
  fun '(self, w) =>
    if negb (Py.truthy (metrics_history self)) then (Ok tt, (self, w))
    else (Ok tt, (self, emit (PlotsGenerated iteration) w)).

Definition print_summary : M St unit :=
  fun '(self, w) =>
    if negb (Py.truthy (metrics_history self)) then (Ok tt, (self, w))
    else (Ok tt, (self, emit SummaryPrinted w)).
End MT.
End MT.

(** ** The training loop *)

(** What happens around the learner during one iteration: its step returns
    (and the user's Ctrl-C may arrive before the iteration's body is over),
    its step raises, or Ctrl-C arrives while the step runs. *)
Inductive step_event : Type :=
| StepOk (r : IterationResult) (interrupt_after : bool)
| StepRaises
| StepInterrupted.

(** What happens outside the process during a run: around each step of the
    learner, and whether Ctrl-C arrives after the loop, once the final
    checkpoint is written and while the metrics are persisted and plotted. *)
Record Script : Type := {
  step : Z -> step_event;
  interrupt_at_end : bool
}.

(** The locals of [train] that the [try] block and its handlers share.
    [iteration] is the loop variable, unbound until the loop binds it. *)
Record frame : Type := {
  checkpoint_manager : CheckpointManager;
  metrics_tracker : MetricsTracker;
  total_episodes_completed : pyval;
  iteration : option Z
}.

(** What [train] has computed when it enters the [try] block. *)
Record started : Type := {
  locals : frame;
  episodes_per_iteration : Z;
  training_iterations : Z;
  episode_offset : pyval;
  start_iteration : Z
}.

(** The two lines of the budget:
    [episodes_per_iteration = train_batch_size // max_steps] and
    [training_iterations = total_episodes // episodes_per_iteration], plus one
    when [total_episodes % episodes_per_iteration != 0]. *)
Definition iteration_budget (config : Config) : result (Z * Z) :=
  match floordiv (train_batch_size config) (max_steps config) with
  | Ok episodes_per_iteration =>
      match floordiv (total_episodes config) episodes_per_iteration with
      | Ok training_iterations =>
          match pymod (total_episodes config) episodes_per_iteration with
          | Ok r =>
              Ok (episodes_per_iteration,
                  if negb (r =? 0) then training_iterations + 1 else training_iterations)
          | Raise e => Raise e
          | Exit c => Exit c
          end
      | Raise e => Raise e
      | Exit c => Exit c
      end
  | Raise e => Raise e
  | Exit c => Exit c
  end.

(** [int(checkpoint_path.name.split('_')[1])]; [None] when the index or the
    conversion raises. *)
Definition parse_iteration (name : string) : option Z :=
  match Py.split "_" name !! 1%nat with
  | Some piece => Py.int_of_string piece
  | None => None
  end.

(** [if restore_checkpoint:] on the optional path. *)
Definition supplied (restore_checkpoint : option string) : option string :=
  match restore_checkpoint with
  | Some p => if String.eqb p "" then None else Some p
  | None => None
  end.

Section Train.
Context {text : Type} `{!JsonCodec text}.
Abbreviation St := (frame * world text)%type.

Definition say {S} (e : event) : M (S * world text) unit :=
  fun '(s, w) => (Ok tt, (s, emit e w)).

Definition with_cm {A} (m : M (CheckpointManager * world text) A) : M St A :=
  fun '(f, w) =>
    let '(r, (cm, w')) := m (checkpoint_manager f, w) in
    (r, ({| checkpoint_manager := cm;
            metrics_tracker := metrics_tracker f;
            total_episodes_completed := total_episodes_completed f;
            iteration := iteration f |}, w')).

Definition with_mt {A} (m : M (MetricsTracker * world text) A) : M St A :=
  fun '(f, w) =>
    let '(r, (mt, w')) := m (metrics_tracker f, w) in
    (r, ({| checkpoint_manager := checkpoint_manager f;
            metrics_tracker := mt;
            total_episodes_completed := total_episodes_completed f;
            iteration := iteration f |}, w')).

Definition bind_iteration (i : Z) : M St unit :=
  fun '(f, w) =>
    (Ok tt, ({| checkpoint_manager := checkpoint_manager f;
                metrics_tracker := metrics_tracker f;
                total_episodes_completed := total_episodes_completed f;
                iteration := Some i |}, w)).

(** [total_episodes_completed += episodes_this_iter]. *)
Definition add_episodes (episodes : Z) : M St pyval :=
  fun '(f, w) =>
    match Py.add_int (total_episodes_completed f) episodes with
    | Ok total =>
        (Ok total, ({| checkpoint_manager := checkpoint_manager f;
                       metrics_tracker := metrics_tracker f;
                       total_episodes_completed := total;
                       iteration := iteration f |}, w))
    | Raise e => (Raise e, (f, w))
    | Exit c => (Exit c, (f, w))
    end.

Definition read_total : M St pyval :=
  fun '(f, w) => (Ok (total_episodes_completed f), (f, w)).

(** A read of [iteration]: [UnboundLocalError] while the loop has not bound
    it. *)
Definition read_iteration : M St Z :=
  fun '(f, w) =>
    match iteration f with
    | Some i => (Ok i, (f, w))
    | None => (Raise UnboundLocalError, (f, w))
    end.

(** The [if restore_checkpoint:] block: metadata, validation, episode offset
    and start iteration. *)
Definition restore_block (config : Config) (episodes_per_iteration : Z)
    (restore_checkpoint : string) : M (world text) (pyval * Z) :=
  fun w =>
    let w := emit RestoringBanner w in
    match CM.get_checkpoint_metadata restore_checkpoint w with
    | (Ok metadata, w) =>
        match validate_checkpoint_config metadata config w with
        | (Ok (is_valid, issues), w) =>
            if negb is_valid then (Exit 1, emit (Incompatible issues) w)
            else
              match metadata with
              | PDict md =>
                  let episode_offset := Py.get md "total_episodes" (PInt 0) in
                  let name := Py.path_name restore_checkpoint in
                  if Py.contains "checkpoint_" name then
                    match parse_iteration name with
                    | Some iteration_num =>
                        let start_iteration := iteration_num + 1 in
                        if Py.eq_int episode_offset 0 && (0 <? iteration_num) then
                          let estimate := iteration_num * episodes_per_iteration in
                          (Ok (PInt estimate, start_iteration),
                           emit (OffsetEstimatedWarning estimate) w)
                        else
                          (Ok (episode_offset, start_iteration),
                           emit (OffsetFromMetadata episode_offset) w)
                    | None => (Ok (episode_offset, 1), emit IterationParseFailed w)
                    end
                  else (Ok (episode_offset, 1), w)
              | _ => (Raise AttributeError, w)
              end
        | (Raise e, w) => (Raise e, w)
        | (Exit c, w) => (Exit c, w)
        end
    | (Raise e, w) => (Raise e, w)
    | (Exit c, w) => (Exit c, w)
    end.

(** [create_ppo_trainer(config, restore_path, episode_offset)], as far as the
    trainer sees it: the learner is built and, with a path, restored. *)
Definition create_ppo_trainer (restore_path : option string) : M (world text) unit :=
  fun w =>
    match supplied restore_path with
    | Some p => (Ok tt, emit (LearnerRestored p) w)
    | None => (Ok tt, w)
    end.

(** [train] up to the [try]: managers, budget, restoration, learner. *)
Definition train_startup (config : Config) (restore_checkpoint : option string)
  : M (world text) started :=
  do cm <- CM.init (checkpoint_dir config);
  do mt <- MT.init (checkpoint_dir config);
  do budget <- lift_result (iteration_budget config);
  let '(episodes_per_iteration, training_iterations) := budget in
  do resumed <-
    match supplied restore_checkpoint with
    | Some p => restore_block config episodes_per_iteration p
    | None => ret (PInt 0, 1)
    end;
  let '(episode_offset, start_iteration) := resumed in
  do_ create_ppo_trainer restore_checkpoint;
  do_ (fun w => (Ok tt, emit (TrainingConfiguration training_iterations start_iteration
                                 episodes_per_iteration episode_offset) w));
  ret {| locals := {| checkpoint_manager := cm;
                      metrics_tracker := mt;
                      total_episodes_completed := episode_offset;
                      iteration := None |};
         episodes_per_iteration := episodes_per_iteration;
         training_iterations := training_iterations;
         episode_offset := episode_offset;
         start_iteration := start_iteration |}.

Definition log_freq (config : Config) : Z := default 1 (log_frequency config).

Definition checkpoint_metrics (total : pyval) (episodes : Z) : gmap string pyval :=
  <["total_episodes" := total]> (<["episodes_this_iter" := PInt episodes]> ∅).

Definition final_metrics (total : pyval) : gmap string pyval :=
  <["total_episodes" := total]> (<["final" := PBool true]> ∅).

Definition interrupt_metrics (total : pyval) : gmap string pyval :=
  <["total_episodes" := total]> (<["interrupted" := PBool true]> ∅).

(** The [if iteration % checkpoint_freq == 0:] branch. *)
Definition periodic_checkpoint (config : Config) (i : Z) (total : pyval) (episodes : Z)
  : M St unit :=
  do_ with_cm (CM.save_checkpoint i config (Some (checkpoint_metrics total episodes)));
  do_ with_mt MT.save_metrics;
  with_mt (MT.generate_plots i).

(** One pass through the body of the [for] loop, [iteration = i]. *)
Definition loop_body (config : Config) (script : Z -> step_event) (i : Z) : M St unit :=
  do_ bind_iteration i;
  match script i with
  | StepRaises => raise LearnerError
  | StepInterrupted => raise KeyboardInterrupt
  | StepOk r interrupt_after =>
      let episodes := default 0 (episodes_this_iter r) in
      do total <- add_episodes episodes;
      do _metrics <- with_mt (MT.extract_metrics r i episodes total (max_steps config));
      do log_rem <- lift_result (pymod i (log_freq config));
      do_ (if log_rem =? 0 then with_mt (MT.log_progress i) else ret tt);
      do save_rem <- lift_result (pymod i (checkpoint_freq config));
      do_ (if save_rem =? 0 then periodic_checkpoint config i total episodes else ret tt);
      if interrupt_after then raise KeyboardInterrupt else ret tt
  end.

(** [for iteration in range(i, i + n)]. *)
Fixpoint train_loop (config : Config) (script : Z -> step_event) (n : nat) (i : Z)
  : M St unit :=
  match n with
  | O => ret tt
  | S n' => do_ loop_body config script i; train_loop config script n' (i + 1)
  end.

(** After the loop: the final checkpoint and the summary. *)
Definition finish (config : Config) (training_iterations : Z) (interrupted : bool)
  : M St unit :=
  do_ say TrainingComplete;
  do total <- read_total;
  do_ with_cm (CM.save_checkpoint training_iterations config (Some (final_metrics total)));
  if interrupted then raise KeyboardInterrupt
  else
    do_ with_mt MT.save_metrics;
    do_ with_mt (MT.generate_plots training_iterations);
    with_mt MT.print_summary.

(** The [try] block. *)
Definition try_block (config : Config) (script : Script) (s : started) : M St unit :=
  do_ train_loop config (step script)
        (Z.to_nat (training_iterations s + 1 - start_iteration s)) (start_iteration s);
  finish config (training_iterations s) (interrupt_at_end script).

(** [except KeyboardInterrupt:]. *)
Definition on_interrupt (config : Config) : M St unit :=
  do_ say TrainingInterrupted;
  do total <- read_total;
  do i <- read_iteration;
  do_ with_cm (CM.save_checkpoint i config (Some (interrupt_metrics total)));
  do_ with_mt MT.save_metrics;
  do_ with_mt (MT.generate_plots i);
  do_ with_mt MT.print_summary;
  say (ResumeHint ("./checkpoints/" ++ CM.checkpoint_name i)%string).

(** [try: ... except KeyboardInterrupt: ... except Exception: ... raise]. *)
Definition guarded (config : Config) (script : Script) (s : started) : M St unit :=
  fun st =>
    match try_block config script s st with
    | (Raise KeyboardInterrupt, st') => on_interrupt config st'
    | (Raise e, (f, w)) => (Raise e, (f, emit (TrainingError e) w))
    | other => other
    end.

(** [train(config, restore_checkpoint)], with the learner and the user given
    by [script].  The result, the locals if the [try] block was entered, and
    the world left behind. *)
Definition train (config : Config) (restore_checkpoint : option string)
    (script : Script) (w : world text)
  : result unit * option frame * world text :=
  match train_startup config restore_checkpoint w with
  | (Ok s, w) =>
      let '(r, (f, w)) := guarded config script s (locals s, w) in
      (r, Some f, emit LearnerStopped w)
  | (Raise e, w) => (Raise e, None, w)
  | (Exit c, w) => (Exit c, None, w)
  end.
End Train.

(** ** Reading the index *)

(** [v[k]] on a record of the index or of the history; [PNone] when [v] is not
    a dict or lacks the key. *)
Definition field (k : string) (v : pyval) : pyval :=
  match v with
  | PDict d => Py.get d k PNone
  | _ => PNone
  end.

(** ** The budget as the specification words it *)

(** [floor(a / b)] and [ceil(a / b)] over the rationals. *)
Definition spec_floor (a b : Z) : Z := Qfloor (Qdiv (inject_Z a) (inject_Z b)).
Definition spec_ceil (a b : Z) : Z := Qceiling (Qdiv (inject_Z a) (inject_Z b)).

(** ** A codec to run examples with

    Files abstracted to what they denote: a JSON document, or bytes that do not
    parse. *)
Inductive denoted : Type :=
| Document (v : pyval)
| Garbled (bytes : string).

#[export] Instance denoted_codec : JsonCodec denoted := {|
  json_dump := Document;
  json_load := fun t => match t with Document v => Some v | Garbled _ => None end;
  json_load_dump := fun v => eq_refl
|}.

Definition fresh_world : world denoted :=
  {| fs := ∅; console := []; clock := fun n => Py.str_of_nonneg (Z.of_nat n); ticks := O |}.

Definition demo_config : Config :=
  {| observation_size := 64;
     max_steps := 200;
     train_batch_size := 4000;
     checkpoint_freq := 2;
     checkpoint_dir := "./checkpoints";
     lr_seeker := PFloat 0.0003%float;
     lr_hider := PFloat 0.0003%float;
     gamma := PFloat 0.99%float;
     entropy_coeff_seeker := None;
     entropy_coeff_hider := None;
     entropy_coeff := None;
     total_episodes := 80;
     log_frequency := None |}.

Definition twenty_episodes : IterationResult :=
  {| episodes_this_iter := Some 20;
     episode_len_mean := Some (PFloat 150.5%float);
     episode_reward_mean := Some (PFloat 1.25%float);
     learner := ∅ |}.

(** A learner that completes twenty episodes per step, never interrupted. *)
Definition steady : Script :=
  {| step := fun _ => StepOk twenty_episodes false; interrupt_at_end := false |}.

(** A configuration whose batch is smaller than one episode. *)
Definition small_batch_config : Config :=
  {| observation_size := 64;
     max_steps := 200;
     train_batch_size := 100;
     checkpoint_freq := 2;
     checkpoint_dir := "./checkpoints";
     lr_seeker := PFloat 0.0003%float;
     lr_hider := PFloat 0.0003%float;
     gamma := PFloat 0.99%float;
     entropy_coeff_seeker := None;
     entropy_coeff_hider := None;
     entropy_coeff := None;
     total_episodes := 1000;
     log_frequency := None |}.

(** The metadata [save_checkpoint] writes under [demo_config], with the
    observation size zeroed. *)
Definition zero_observation_metadata : gmap string pyval :=
  <["observation_size" := PInt 0]>
    (CM.base_metadata 10 "2025-01-01T00:00:00" "./checkpoints/checkpoint_000010" demo_config).

(** A checkpoint directory whose two JSON files were cut short. *)
Definition torn_world : world denoted :=
  {| fs := <[CM.index_file "./checkpoints" := Garbled "{ checkpoints: ["]>
             (<[MT.metrics_file "./checkpoints" := Garbled "[ { iteration: 1,"]> ∅);
     console := [];
     clock := fun n => Py.str_of_nonneg (Z.of_nat n);
     ticks := O |}.

(** ** Invariant of the loop *)

Definition iterations_of (records : list pyval) : list pyval :=
  List.map (field "iteration") records.

Definition totals_of (records : list pyval) : list pyval :=
  List.map (field "total_episodes") records.

(** The learner never reports a negative number of episodes. *)
Definition counts_episodes (script : Z -> step_event) : Prop :=
  forall i r b, script i = StepOk r b -> 0 <= default 0 (episodes_this_iter r).

(** Between two iterations: both managers still write under [d]; the index is
    the initial [l0] followed by the records of this run, whose iterations are
    strictly increasing and at most [b], the last iteration begun.  With
    [track], the episode counter is an integer and the recorded totals are
    non-decreasing and at most the counter. *)
Definition loop_inv (track : bool) (d : string) (l0 : list pyval) (b : Z) (f : frame) : Prop :=
  cm_checkpoint_dir (checkpoint_manager f) = d
  /\ mt_checkpoint_dir (metrics_tracker f) = d
  /\ exists records its,
       checkpoint_history (checkpoint_manager f) = PList (l0 ++ records)
       /\ iterations_of records = List.map PInt its
       /\ StronglySorted Z.lt its
       /\ Forall (fun x => x <= b) its
       /\ (track = true ->
           exists t tots,
             total_episodes_completed f = PInt t
             /\ totals_of records = List.map PInt tots
             /\ StronglySorted Z.le tots
             /\ Forall (fun x => x <= t) tots).

(** What holds of the records a run has appended to an index that began as
    [l0].  They are the [periodic] records of the loop followed by at most two
    [closing] records (the final checkpoint, the interrupt checkpoint).  The
    iterations of the periodic records strictly increase, and over all the
    records they never decrease; with [track], the episode totals never
    decrease. *)
Definition ordered (track : bool) (l0 : list pyval) (f : frame) : Prop :=
  exists periodic closing its_p its_c,
    checkpoint_history (checkpoint_manager f) = PList (l0 ++ periodic ++ closing)
    /\ iterations_of periodic = List.map PInt its_p
    /\ iterations_of closing = List.map PInt its_c
    /\ StronglySorted Z.lt its_p
    /\ StronglySorted Z.le (its_p ++ its_c)
    /\ (length closing <= 2)%nat
    /\ (track = true ->
        exists tots,
          totals_of (periodic ++ closing) = List.map PInt tots /\ StronglySorted Z.le tots).

(** The index a run of [train] leaves in memory. *)
Definition run_index {text : Type} (run : result unit * option frame * world text)
  : list pyval :=
  match run with
  | (_, Some f, _) =>
      match checkpoint_history (checkpoint_manager f) with
      | PList l => l
      | _ => []
      end
  | (_, None, _) => []
  end.

(** A learner interrupted while its third step runs. *)
Definition interrupted_at_three : Script :=
  {| step := fun i => if i =? 3 then StepInterrupted else StepOk twenty_episodes false;
     interrupt_at_end := false |}.

(** A learner never interrupted in the loop; Ctrl-C arrives once the final
    checkpoint is written. *)
Definition interrupted_at_end : Script :=
  {| step := fun _ => StepOk twenty_episodes false; interrupt_at_end := true |}.

(** ** Whole runs: the iterations a run goes through *)








(** The locals of [train] when both histories are lists and the episode
    counter is an integer. *)
Definition frame_of (d : string) (l mh : list pyval) (t : Z) (it : option Z) : frame :=
  {| checkpoint_manager := {| cm_checkpoint_dir := d; checkpoint_history := PList l |};
     metrics_tracker := {| mt_checkpoint_dir := d; metrics_history := PList mh |};
     total_episodes_completed := PInt t;
     iteration := it |}.

(** A learner whose third step raises. *)
Definition failing_at_three : Script :=
  {| step := fun i => if i =? 3 then StepRaises else StepOk twenty_episodes false;
     interrupt_at_end := false |}.

(** [demo_config] with [checkpoint_freq: 0]. *)
Definition zero_freq_config : Config :=
  {| observation_size := 64;
     max_steps := 200;
     train_batch_size := 4000;
     checkpoint_freq := 0;
     checkpoint_dir := "./checkpoints";
     lr_seeker := PFloat 0.0003%float;
     lr_hider := PFloat 0.0003%float;
     gamma := PFloat 0.99%float;
     entropy_coeff_seeker := None;
     entropy_coeff_hider := None;
     entropy_coeff := None;
     total_episodes := 80;
     log_frequency := None |}.

(** The world a complete run of [demo_config] leaves behind. *)
Definition trained_world : world denoted :=
  snd (train demo_config None steady fresh_world).

(** A checkpoint directory whose metrics file holds a JSON object. *)
Definition object_metrics_world : world denoted :=
  {| fs := {[ MT.metrics_file "./checkpoints" := Document (PDict ∅) ]};
     console := [];
     clock := fun n => Py.str_of_nonneg (Z.of_nat n);
     ticks := O |}.

(** What start-up leaves of a fresh run of [demo_config]. *)
Definition demo_started : started :=
  {| locals := frame_of "./checkpoints" [] [] 0 None;
     episodes_per_iteration := 20;
     training_iterations := 4;
     episode_offset := PInt 0;
     start_iteration := 1 |}.

(** ** Subscripts and [pathlib]

    [str()] of a [Path] is the path in [pathlib]'s normal form: repeated and
    trailing slashes and ["."] components dropped, a leading ["//"] kept.
    Files are still looked up under the path as it was joined: both spellings
    name the same file. *)

(** [s[-1]] on a string. *)
Fixpoint last_char (s : string) : option ascii :=
  match s with
  | EmptyString => None
  | String a s' => match last_char s' with Some b => Some b | None => Some a end
  end.

(** [v[-1]].  [None] stands for the exception: [IndexError] on an empty
    sequence, [KeyError] on a dict (the keys of a JSON object are strings),
    [TypeError] on a value that has no subscript. *)
Definition subscript_last (v : pyval) : option pyval :=
  match v with
  | PList l => List.last (List.map Some l) None
  | PStr s => (fun a => PStr (String a EmptyString)) <$> last_char s
  | PNone | PBool _ | PInt _ | PFloat _ | PDict _ => None
  end.

(** [v[k]] for a string [k].  [None] stands for the exception: [KeyError] on
    a dict without the key, [TypeError] on any other value. *)
Definition subscript_key (v : pyval) (k : string) : option pyval :=
  match v with
  | PDict d => d !! k
  | PNone | PBool _ | PInt _ | PFloat _ | PStr _ | PList _ => None
  end.

Module Pathlib.

Definition ends_with_slash (s : string) : bool :=
  match last_char s with
  | Some a => Ascii.eqb a "/"
  | None => false
  end.

(** [posixpath.join(a, b)]. *)
Definition os_path_join (a b : string) : string :=
  if String.prefix "/" b then b
  else if String.eqb a "" || ends_with_slash a then (a ++ b)%string
  else (a ++ "/" ++ b)%string.

(** [posixpath.splitroot(p)], without the drive (always empty): the root is
    ["/"], or ["//"] when the path starts with exactly two slashes. *)
Definition splitroot (p : string) : string * string :=
  match p with
  | String a r =>
      if Ascii.eqb a "/" then
        match r with
        | String b r' =>
            if Ascii.eqb b "/" then
              match r' with
              | String c _ => if Ascii.eqb c "/" then ("/", r) else ("//", r')
              | EmptyString => ("//", r')
              end
            else ("/", r)
        | EmptyString => ("/", r)
        end
      else ("", p)
  | EmptyString => ("", p)
  end.

(** [sep.join(parts)]. *)
Fixpoint join (sep : string) (parts : list string) : string :=
  match parts with
  | [] => EmptyString
  | [x] => x
  | x :: rest => (x ++ sep ++ join sep rest)%string
  end.

(** The root and the components of a path: [PurePath._parse_path]. *)
Definition parse_path (p : string) : string * list string :=
  let '(root, rel) := splitroot p in
  (root, List.filter Py.real_part (Py.split "/" rel)).

(** [str(Path(p))]. *)
Definition str (p : string) : string :=
  let '(root, tail) := parse_path p in
  let s := (root ++ join "/" tail)%string in
  if String.eqb s "" then "." else s.

End Pathlib.

(** [CheckpointManager.get_latest_checkpoint()].  The outer [None] stands for
    an exception of the subscripts or of [/] (whose right operand must be a
    string), the inner one for the [None] the method returns. *)
Definition get_latest_checkpoint (self : CheckpointManager) : option (option string) :=
  if negb (Py.truthy (checkpoint_history self)) then Some None
  else
    match subscript_last (checkpoint_history self) with
    | Some latest =>
        match subscript_key latest "path" with
        | Some (PStr name) =>
            Some (Some (Pathlib.str (Pathlib.os_path_join (cm_checkpoint_dir self) name)))
        | Some _ | None => None
        end
    | None => None
    end.

(** One path component: not empty, not ["."], without a slash. *)
Definition simple_name (n : string) : Prop :=
  Py.all_chars (fun a => negb (Ascii.eqb a "/")) n = true /\ Py.real_part n = true.

(** ** demo_model_selective.py: choosing a checkpoint

    [select_checkpoint] reads the index that [CheckpointManager] writes, shows
    the last fifteen entries and returns the path the user picks.  What the
    operating system answers about the directory itself (does it exist, which
    [checkpoint_*] entries does it hold) is a [Directory]; the line the user
    types is [choice].  An exception that leaves the function is the outer
    [None] of its result. *)

Module PyInt.

(** The white space [int()] skips around the digits of an ASCII string: tab
    to carriage return, and the space.  (The separators 28 to 31, which
    [str.strip] removes, are not skipped.) *)
Definition is_space (a : ascii) : bool :=
  let n := nat_of_ascii a in ((9 <=? n) && (n <=? 13) || (n =? 32))%nat.

Fixpoint lstrip (s : string) : string :=
  match s with
  | String a s' => if is_space a then lstrip s' else s
  | EmptyString => s
  end.

Fixpoint rstrip (s : string) : string :=
  match s with
  | EmptyString => EmptyString
  | String a s' =>
      match rstrip s' with
      | EmptyString => if is_space a then EmptyString else String a EmptyString
      | r => String a r
      end
  end.

(** Decimal digits with single underscores between them, as [int()] accepts
    them; [after_digit] says whether the previous character was a digit. *)
Fixpoint digits_grouped (acc : Z) (after_digit : bool) (s : string) : option Z :=
  match s with
  | EmptyString => if after_digit then Some acc else None
  | String a s' =>
      if Py.is_digit a then digits_grouped (10 * acc + Py.digit_val a) true s'
      else if Ascii.eqb a "_" && after_digit then
        match s' with
        | String b _ => if Py.is_digit b then digits_grouped acc false s' else None
        | EmptyString => None
        end
      else None
  end.

Fixpoint digit_count (s : string) : nat :=
  match s with
  | EmptyString => O
  | String a s' => if Py.is_digit a then S (digit_count s') else digit_count s'
  end.

(** [sys.get_int_max_str_digits()], where it is not configured. *)
Definition max_str_digits : nat := 4300.

(** [int(s)] on a string of ASCII characters: surrounding white space, one
    optional sign, decimal digits that single underscores may group, and no
    more digits than the interpreter converts.  [None] is the [ValueError]. *)
Definition int_of_str (s : string) : option Z :=
  let number := rstrip (lstrip s) in
  if (max_str_digits <? digit_count number)%nat then None
  else
    match number with
    | String "-" r => Z.opp <$> digits_grouped 0 false r
    | String "+" r => digits_grouped 0 false r
    | r => digits_grouped 0 false r
    end.

End PyInt.

Module Demo.

Record Directory : Type := {
  present : bool;                              (* checkpoint_base.exists() *)
  checkpoint_entries : list (string * bool)    (* sorted(glob("checkpoint_*")), with is_dir() *)
}.

(** What [select_checkpoint] prints, with the values it interpolates. *)
Inductive line : Type :=
| DirectoryNotFound (base : string)
| NoCheckpointsFound
| AvailableCheckpoints (n : nat)
| CheckpointLine (number : nat) (iteration : Z) (extra_info : option (pyval * pyval))
| Options (n : nat)
| UsingLatest (name : string)
| Selected (name : string)
| InvalidSelection
| InvalidInput.

(** [l[-n:]] for [n > 0]. *)
Definition last_n {A : Type} (n : nat) (l : list A) : list A :=
  List.skipn (length l - n) l.

(** The fallback when there is no index file: one entry per directory whose
    name carries an iteration number. *)
Definition scan_checkpoints (found : list (string * bool)) : list pyval :=
  List.flat_map
    (fun entry : string * bool =>
       let '(name, is_dir) := entry in
       if is_dir then
         match parse_iteration name with
         | Some iteration =>
             [PDict (<["iteration" := PInt iteration]> (<["path" := PStr name]> ∅))]
         | None => []
         end
       else [])
    found.

(** [choice.lower() == 'q']. *)
Definition is_quit (choice : string) : bool :=
  String.eqb choice "q" || String.eqb choice "Q".

Section Demo.
Context {text : Type} `{!JsonCodec text}.

(** The [extra_info] of a line: set when the checkpoint's metadata file is
    there, loads as a dict and has a [timestamp] that is falsy or a string;
    any exception on the way leaves it empty. *)
Definition extra_info (fs : gmap string text) (cp_path : string) : option (pyval * pyval) :=
  match fs !! Pathlib.os_path_join cp_path "metadata.json" with
  | None => None
  | Some content =>
      match json_load content with
      | Some (PDict metadata) =>
          let episodes := Py.get metadata "total_episodes" (PInt 0) in
          let timestamp := Py.get metadata "timestamp" (PStr "") in
          if Py.truthy timestamp then
            match timestamp with
            | PStr s => Some (episodes, PStr (List.hd EmptyString (Py.split "T" s)))
            | _ => None
            end
          else Some (episodes, timestamp)
      | Some _ | None => None
      end
  end.

(** One pass through the display loop: the line for entry [cp], numbered
    [i].  [None] when the pass raises: [cp] is not a dict or has no string
    ['path'], or its iteration does not format with [:6d] (the ['?'] that
    stands for a missing ['iteration'] does not). *)
Definition show_checkpoint (fs : gmap string text) (base : string) (i : nat) (cp : pyval)
  : option line :=
  match cp with
  | PDict d =>
      let iteration := Py.get d "iteration" (PStr "?") in
      match d !! "path" with
      | Some (PStr name) =>
          let cp_path := Pathlib.os_path_join base name in
          let extra := extra_info fs cp_path in
          match iteration with
          | PInt z => Some (CheckpointLine i z extra)
          | PBool b => Some (CheckpointLine i (Z.b2z b) extra)
          | PNone | PFloat _ | PStr _ | PList _ | PDict _ => None
          end
      | Some _ | None => None
      end
  | PNone | PBool _ | PInt _ | PFloat _ | PStr _ | PList _ => None
  end.

(** The display loop from number [i] on: the lines printed, and whether the
    loop came to its end. *)
Fixpoint show_all (fs : gmap string text) (base : string) (i : nat) (cps : list pyval)
  : list line * bool :=
  match cps with
  | [] => ([], true)
  | cp :: rest =>
      match show_checkpoint fs base i cp with
      | Some l => let '(ls, ok) := show_all fs base (S i) rest in (l :: ls, ok)
      | None => ([], false)
      end
  end.

(** [checkpoint_base / cp['path']]: the name and [str()] of the path. *)
Definition checkpoint_path (base : string) (cp : pyval) : option (string * string) :=
  match subscript_key cp "path" with
  | Some (PStr name) => Some (name, Pathlib.str (Pathlib.os_path_join base name))
  | Some _ | None => None
  end.

(** From [input()] on. *)
Definition choose (base : string) (cps : list pyval) (typed : string)
  : list line * option (option string) :=
  let display_checkpoints := last_n 15 cps in
  let choice := Py.rstrip (Py.lstrip typed) in
  if is_quit choice then ([], Some None)
  else if String.eqb choice "" then
    match subscript_last (PList cps) with
    | Some latest =>
        match checkpoint_path base latest with
        | Some (name, p) => ([UsingLatest name], Some (Some p))
        | None => ([], None)
        end
    | None => ([], None)
    end
  else
    match PyInt.int_of_str choice with
    | Some number =>
        let idx := number - 1 in
        if (0 <=? idx) && (idx <? Z.of_nat (length display_checkpoints)) then
          let actual_idx :=
            Z.of_nat (length cps) - Z.of_nat (length display_checkpoints) + idx in
          match cps !! Z.to_nat actual_idx with
          | Some selected =>
              match checkpoint_path base selected with
              | Some (name, p) => ([Selected name], Some (Some p))
              | None => ([], None)
              end
          | None => ([], None)
          end
        else ([InvalidSelection], Some None)
    | None => ([InvalidInput], Some None)
    end.

(** [select_checkpoint(checkpoint_base_dir)]. *)
Definition select_checkpoint (dir : Directory) (fs : gmap string text) (base : string)
    (typed : string) : list line * option (option string) :=
  if negb (present dir) then ([DirectoryNotFound base], Some None)
  else
    let loaded : option pyval :=
      match fs !! CM.index_file base with
      | Some content =>
          match json_load content with
          | Some (PDict data) => Some (Py.get data "checkpoints" (PList []))
          | Some _ | None => None
          end
      | None => Some (PList (scan_checkpoints (checkpoint_entries dir)))
      end in
    match loaded with
    | None => ([], None)
    | Some checkpoints =>
        if negb (Py.truthy checkpoints) then ([NoCheckpointsFound], Some None)
        else
          match checkpoints with
          | PList cps =>
              let display_checkpoints := last_n 15 cps in
              let '(lines, ok) := show_all fs base 1 display_checkpoints in
              let shown := AvailableCheckpoints (length cps) :: lines in
              if ok then
                let '(more, r) := choose base cps typed in
                (shown ++ Options (length display_checkpoints) :: more, r)
              else (shown, None)
          | PStr s => ([AvailableCheckpoints (String.length s)], None)
          | PDict d => ([AvailableCheckpoints (size d)], None)
          | PNone | PBool _ | PInt _ | PFloat _ => ([], None)
          end
    end.

End Demo.
End Demo.

(** A record of the index as [save_checkpoint] builds it. *)
Definition written (r : pyval) : Prop :=
  exists i name ts metrics, r = CM.index_record i name ts metrics.

(** A checkpoint directory that exists and holds no [checkpoint_*] entry of
    its own. *)
Definition demo_directory : Demo.Directory :=
  {| Demo.present := true; Demo.checkpoint_entries := [] |}.

(** The files of a directory whose index lists [records]. *)
Definition indexed (records : list pyval) : gmap string denoted :=
  {[ CM.index_file "./checkpoints" :=
       Document (PDict (<["checkpoints" := PList records]> ∅)) ]}.

(** An index entry that lost its ['iteration']. *)
Definition entry_without_iteration : gmap string pyval :=
  {[ "path" := PStr "checkpoint_000002" ]}.

(** ** update_terrain_complexity.py

    The configuration file of the training world is a text; its characters
    are those with code points below 256, on which [\s] of [re] is the white
    space of [str.isspace] and [\d] the ten ASCII digits. *)

Module Terrain.

(** [get_terrain_complexity_for_iteration(iteration)]. *)
Definition get_terrain_complexity_for_iteration (iteration : Z) : Z * string :=
  if iteration <? 50 then (1, "Flat world - learning basic seek/hide behaviors")
  else if iteration <? 100 then (2, "Small bumps - learning to navigate 1-block obstacles")
  else if iteration <? 150 then (3, "Moderate terrain - learning advanced navigation")
  else (4, "Complex terrain - full challenge").

(** [\s]. *)
Definition re_space (a : ascii) : bool :=
  let n := nat_of_ascii a in
  ((9 <=? n) && (n <=? 13) || (28 <=? n) && (n <=? 32) || (n =? 133) || (n =? 160))%nat.

(** The longest prefix of [s] whose characters satisfy [p], and what follows. *)
Fixpoint span (p : ascii -> bool) (s : string) : string * string :=
  match s with
  | EmptyString => (EmptyString, EmptyString)
  | String a s' =>
      if p a then let '(taken, rest) := span p s' in (String a taken, rest)
      else (EmptyString, s)
  end.

(** [s] without the prefix [pre], when it starts with it. *)
Fixpoint strip_prefix (pre s : string) : option string :=
  match pre with
  | EmptyString => Some s
  | String a pre' =>
      match s with
      | String b s' => if Ascii.eqb a b then strip_prefix pre' s' else None
      | EmptyString => None
      end
  end.

Definition key : string := "TERRAIN_HEIGHT_RANGE:".

(** A match of the script's pattern at the start of [s].  The pattern is the
    key followed by any white space (together group 1), then one digit or
    more.  The result is group 1, the digits, and what follows the match.
    Both repetitions are greedy, and giving back white space never helps,
    since no white space is a digit. *)
Definition match_here (s : string) : option (string * string * string) :=
  match strip_prefix key s with
  | Some after =>
      let '(spaces, after_spaces) := span re_space after in
      let '(digits, rest) := span Py.is_digit after_spaces in
      if String.eqb digits "" then None else Some ((key ++ spaces)%string, digits, rest)
  | None => None
  end.

(** [re.sub] with the pattern and the template that keeps group 1 and puts
    [repl] for the digits: the leftmost matches that do not overlap are
    replaced, from left to right.  Every step consumes one
    character at least, so [fuel] past the length of [s] is never used up. *)
Fixpoint sub_from (fuel : nat) (repl s : string) : string :=
  match fuel with
  | O => s
  | S fuel' =>
      match match_here s with
      | Some (group1, _, rest) => (group1 ++ repl ++ sub_from fuel' repl rest)%string
      | None =>
          match s with
          | EmptyString => EmptyString
          | String a s' => String a (sub_from fuel' repl s')
          end
      end
  end.

Definition sub (repl s : string) : string := sub_from (S (String.length s)) repl s.

(** The numbers the pattern finds in [s], as [re.findall] lists them. *)
Fixpoint found_from (fuel : nat) (s : string) : list string :=
  match fuel with
  | O => []
  | S fuel' =>
      match match_here s with
      | Some (_, digits, rest) => digits :: found_from fuel' rest
      | None =>
          match s with
          | EmptyString => []
          | String _ s' => found_from fuel' s'
          end
      end
  end.

Definition found (s : string) : list string := found_from (S (String.length s)) s.

(** [str(n)]. *)
Definition str_of_int (n : Z) : string :=
  if n <? 0 then String "-" (Py.str_of_nonneg (- n)) else Py.str_of_nonneg n.

(** [update_config_file(terrain_height_range, iteration)] on the content of
    the configuration file ([None] when there is no file): what it returns
    and the content it leaves. *)
Definition update_config_file (terrain_height_range : Z) (content : option string)
  : bool * option string :=
  match content with
  | None => (false, None)
  | Some c =>
      let new_content := sub (str_of_int terrain_height_range) c in
      if String.eqb new_content c then (false, Some c)
      else (true, Some new_content)
  end.

(** *** The command line

    [sys.argv] is [argv]; [typed] is the line [input()] returns, [None] when
    the input is at its end and [input()] raises [EOFError].  The characters
    of both are ASCII. *)

(** How [main] ends. *)
Inductive outcome : Type :=
| Returned
| SysExit (code : Z)
| EndOfInput.

(** What [main] prints, with the values it interpolates. *)
Inductive message : Type :=
| Usage
| InvalidIteration (argument : string)
| Banner (iteration : Z)
| Schedule (iteration height_range : Z) (description : string)
| Cancelled
| Recommended (iteration height_range : Z) (description : string)
| InvalidChoice
| InvalidInput
| Updating
| Updated (height_range : Z)
| Failed.

Definition lower_char (a : ascii) : ascii :=
  let n := nat_of_ascii a in
  if ((65 <=? n) && (n <=? 90))%nat then ascii_of_nat (n + 32) else a.

(** [s.lower()]. *)
Fixpoint lower (s : string) : string :=
  match s with
  | EmptyString => EmptyString
  | String a s' => String (lower_char a) (lower s')
  end.

(** [s.strip()]. *)
Definition strip (s : string) : string := Py.rstrip (Py.lstrip s).

(** The part of [main] that settles the range to write: the recommended one
    once confirmed in automatic mode, the one typed in manual mode. *)
Definition decide (auto_mode : bool) (iteration : Z) (typed : option string)
  : list message * (outcome + Z) :=
  let '(height_range, description) := get_terrain_complexity_for_iteration iteration in
  if auto_mode then
    let shown := [Schedule iteration height_range description] in
    match typed with
    | None => (shown, inl EndOfInput)
    | Some line =>
        let response := lower (strip line) in
        if negb (String.eqb response "y") then (shown ++ [Cancelled], inl (SysExit 0))
        else (shown, inr height_range)
    end
  else
    let shown := [Recommended iteration height_range description] in
    match typed with
    | None => (shown, inl EndOfInput)
    | Some line =>
        let choice := strip line in
        if String.eqb choice "" then (shown, inr height_range)
        else
          match PyInt.int_of_str choice with
          | Some height_range =>
              if (height_range <? 1) || (4 <? height_range)
              then (shown ++ [InvalidChoice], inl (SysExit 1))
              else (shown, inr height_range)
          | None => (shown ++ [InvalidInput], inl (SysExit 1))
          end
    end.

(** [main()]: what it prints, how it ends, and the content it leaves in the
    configuration file. *)
Definition main (argv : list string) (typed : option string) (content : option string)
  : list message * outcome * option string :=
  match argv with
  | _ :: argument :: _ =>
      match PyInt.int_of_str argument with
      | None => ([InvalidIteration argument], SysExit 1, content)
      | Some iteration =>
          let auto_mode := List.existsb (String.eqb "--auto") argv in
          match decide auto_mode iteration typed with
          | (shown, inl stop) => (Banner iteration :: shown, stop, content)
          | (shown, inr height_range) =>
              let '(ok, content') := update_config_file height_range content in
              if ok
              then (Banner iteration :: shown ++ [Updating; Updated height_range],
                    Returned, content')
              else (Banner iteration :: shown ++ [Updating; Failed], SysExit 1, content')
          end
      end
  | _ => ([Usage], SysExit 1, content)
  end.

End Terrain.

(** The first character of a string, if it has one. *)
Definition first_char (s : string) : option ascii :=
  match s with String a _ => Some a | EmptyString => None end.

(** ** metrics_tracker.py: the training summary

    [np.mean] is outside the program: [np_mean] says what it returns on a list
    of values, [None] when it raises.  An exception that leaves
    [generate_summary] is the [None] of its result; the file is opened once
    the summary is built. *)

Module Summary.
Section Summary.
Context {text : Type} `{!JsonCodec text}.
Variable np_mean : list pyval -> option pyval.

Definition summary_file (dir : string) : string :=
  Py.path_join dir "training_summary.json".

(** The list comprehension that collects [m[key]] over [recent]. *)
Fixpoint column (key : string) (recent : list pyval) : option (list pyval) :=
  match recent with
  | [] => Some []
  | m :: rest =>
      match subscript_key m key with
      | Some v =>
          match column key rest with
          | Some vs => Some (v :: vs)
          | None => None
          end
      | None => None
      end
  end.

(** The dict literal, its values in the order Python evaluates them. *)
Definition summary_of (history recent : list pyval) (latest : pyval)
  : option (gmap string pyval) :=
  total_episodes ← subscript_key latest "total_episodes";
  final_episode_length ← subscript_key latest "episode_len_mean";
  final_episode_reward ← subscript_key latest "episode_reward_mean";
  lengths ← column "episode_len_mean" recent;
  avg_episode_length_recent ← np_mean lengths;
  rewards ← column "episode_reward_mean" recent;
  avg_episode_reward_recent ← np_mean rewards;
  seeker_final_kl ← subscript_key latest "seeker_kl";
  hider_final_kl ← subscript_key latest "hider_kl";
  seeker_final_entropy ← subscript_key latest "seeker_entropy";
  hider_final_entropy ← subscript_key latest "hider_entropy";
  Some (list_to_map
    [ ("total_iterations", PInt (Z.of_nat (length history)));
      ("total_episodes", total_episodes);
      ("final_episode_length", final_episode_length);
      ("final_episode_reward", final_episode_reward);
      ("avg_episode_length_recent", avg_episode_length_recent);
      ("avg_episode_reward_recent", avg_episode_reward_recent);
      ("seeker_final_kl", seeker_final_kl);
      ("hider_final_kl", hider_final_kl);
      ("seeker_final_entropy", seeker_final_entropy);
      ("hider_final_entropy", hider_final_entropy) ]).

(** [generate_summary()].  A history that is truthy and not a list raises
    before anything is written: a number or [True] has no [len], a dict
    takes no slice, and the last character of a string has no string
    subscript. *)
Definition generate_summary (self : MetricsTracker) (w : world text)
  : option (gmap string pyval) * world text :=
  if negb (Py.truthy (metrics_history self)) then (Some ∅, w)
  else
    match metrics_history self with
    | PList history =>
        let recent_window := Nat.min 20 (length history) in
        let recent := Demo.last_n recent_window history in
        match subscript_last (PList history) with
        | Some latest =>
            match summary_of history recent latest with
            | Some summary =>
                (Some summary,
                 write_file (summary_file (mt_checkpoint_dir self))
                   (json_dump (PDict summary)) w)
            | None => (None, w)
            end
        | None => (None, w)
        end
    | PNone | PBool _ | PInt _ | PFloat _ | PStr _ | PDict _ => (None, w)
    end.

End Summary.
End Summary.

(** The records [extract_metrics] builds from what it is called with. *)
Definition tracked (entries : list (IterationResult * Z * string * Z * pyval * Z))
  : list pyval :=
  List.map (fun '(r, iteration, timestamp, episodes, total, max_steps) =>
              MT.metrics_record r iteration timestamp episodes total max_steps)
           entries.

(** ** Which policy acts for an agent

    Training routes an agent to a policy by its identifier
    ([policy_mapping_fn] of [create_ppo_trainer]); the demo routes it by the
    role the browser sends, or by the identifier when it sends none
    ([run_demo]), through [AgentController].  Identifiers and roles are
    strings.  The learner is outside the program: a [Trainer] says what
    [compute_single_action] returns for a policy and an observation, [None]
    when it raises; [sample] is what [np.random.uniform] draws. *)

Module Controller.

(** [policy_mapping_fn(agent_id, episode, worker)]. *)
Definition policy_mapping_fn (agent_id : string) : string :=
  if Py.contains "seeker" agent_id then "seeker_policy" else "hider_policy".

(** [agent_data.get('role', 'seeker' if 'seeker' in agent_id else 'hider')]. *)
Definition role_of (sent : option string) (agent_id : string) : string :=
  default (if Py.contains "seeker" agent_id then "seeker" else "hider") sent.

Definition MODE_ALL_TRAINED : string := "all_trained".
Definition MODE_SEEKER_TRAINED : string := "seeker_trained".
Definition MODE_HIDER_TRAINED : string := "hider_trained".
Definition MODE_ALL_RANDOM : string := "all_random".

(** An action in the format of the browser. *)
Record Action : Type := {
  movement_forward : float;
  movement_strafe : float;
  rotation : float;
  look : float;
  jump : bool;
  place_block : bool;
  remove_block : bool
}.

Section Controller.
Variable Observation : Type.

Definition Trainer : Type := string -> Observation -> option (list float).

(** [_should_use_trained_policy(role)]. *)
Definition _should_use_trained_policy (mode role : string) : bool :=
  if String.eqb mode MODE_ALL_TRAINED then true
  else if String.eqb mode MODE_ALL_RANDOM then false
  else if String.eqb mode MODE_SEEKER_TRAINED then String.eqb role "seeker"
  else if String.eqb mode MODE_HIDER_TRAINED then String.eqb role "hider"
  else false.

(** The conversion to the format of the browser; [None] is the [IndexError]
    of an array with fewer than seven values. *)
Definition browser_action (action : list float) : option Action :=
  a0 ← action !! 0%nat;
  a1 ← action !! 1%nat;
  a2 ← action !! 2%nat;
  a3 ← action !! 3%nat;
  a4 ← action !! 4%nat;
  a5 ← action !! 5%nat;
  a6 ← action !! 6%nat;
  Some {| movement_forward := a0;
          movement_strafe := a1;
          rotation := a2;
          look := a3;
          jump := PrimFloat.ltb 0.5%float a4;
          place_block := PrimFloat.ltb 0.5%float a5;
          remove_block := PrimFloat.ltb 0.5%float a6 |}.

(** [_get_zero_action()]. *)
Definition _get_zero_action : Action :=
  {| movement_forward := 0%float;
     movement_strafe := 0%float;
     rotation := 0%float;
     look := 0%float;
     jump := false;
     place_block := false;
     remove_block := false |}.

(** [_get_trained_action(agent_id, observation, role)]: any exception gives
    the zero action. *)
Definition _get_trained_action (trainer : Trainer) (observation : Observation)
    (role : string) : Action :=
  let policy_id := (role ++ "_policy")%string in
  match trainer policy_id observation with
  | Some action => default _get_zero_action (browser_action action)
  | None => _get_zero_action
  end.

(** [_get_random_action(agent_id, role)]. *)
Definition _get_random_action (sample : list float) : option Action :=
  browser_action sample.

(** [get_action(agent_id, observation, role)]; [None] when it raises. *)
Definition get_action (mode : string) (trainer : option Trainer) (sample : list float)
    (observation : Observation) (role : string) : option Action :=
  let use_trained := _should_use_trained_policy mode role in
  match trainer with
  | Some t =>
      if use_trained then Some (_get_trained_action t observation role)
      else _get_random_action sample
  | None => _get_random_action sample
  end.

End Controller.

End Controller.

(** A learner with the two policies of training; the seeker's pushes
    forward and jumps, the hider's turns. *)
Definition two_policies : Controller.Trainer unit :=
  fun policy_id _ =>
    if String.eqb policy_id "seeker_policy"
    then Some [1; 0; 0; 0; 1; 0; 0]%float
    else if String.eqb policy_id "hider_policy"
    then Some [0; 0; 1; 0; 0; 0; 0]%float
    else None.

(** * Properties *)

(** ** The iteration budget *)

Lemma spec_floor_div (a b : Z) : 0 < b -> spec_floor a b = a / b.
Proof.
  intros Hb. unfold spec_floor.
  destruct b as [|p|p]; try lia.
  unfold Qdiv, Qinv, Qmult, inject_Z, Qfloor. simpl.
  now rewrite Z.mul_1_r, Pos.mul_1_l.
Qed.

Lemma spec_ceil_div (a b : Z) :
  0 < b -> spec_ceil a b = if a mod b =? 0 then a / b else a / b + 1.
Proof.
  intros Hb. unfold spec_ceil, Qceiling.
  destruct b as [|p|p]; try lia.
  unfold Qdiv, Qinv, Qmult, Qopp, inject_Z, Qfloor. simpl.
  rewrite Z.mul_1_r, Pos.mul_1_l.
  destruct (Z.eqb_spec (a mod Z.pos p) 0) as [Hz | Hnz].
  - rewrite Z.div_opp_l_z by lia. lia.
  - rewrite Z.div_opp_l_nz by lia. lia.
Qed.

Lemma iteration_budget_value (cfg : Config) :
  0 < max_steps cfg <= train_batch_size cfg ->
  iteration_budget cfg =
    let e := train_batch_size cfg / max_steps cfg in
    Ok (e, if total_episodes cfg mod e =? 0 then total_episodes cfg / e
           else total_episodes cfg / e + 1).
Proof.
  intros [Hm Hb]. unfold iteration_budget, floordiv, pymod.
  destruct (Z.eqb_spec (max_steps cfg) 0); [lia |].
  assert (He : 0 < train_batch_size cfg / max_steps cfg)
    by (apply Z.div_str_pos; lia).
  destruct (Z.eqb_spec (train_batch_size cfg / max_steps cfg) 0); [lia |].
  cbv zeta. now destruct (_ mod _ =? 0).
Qed.

(** C3, as the code has it: when the batch holds at least one episode
    ([0 < max_steps <= train_batch_size]) the trainer computes
    [episodes_per_iteration = floor(train_batch_size / max_steps)] and
    [training_iterations = ceil(total_episodes / episodes_per_iteration)];
    with 4000 and 200 that is 20 episodes per iteration, 50 iterations for
    1000 episodes and 51 for 1010. *)
Theorem budget_floor_ceil :
  (forall cfg : Config,
      0 < max_steps cfg <= train_batch_size cfg ->
      0 < total_episodes cfg ->
      iteration_budget cfg =
        Ok (spec_floor (train_batch_size cfg) (max_steps cfg),
            spec_ceil (total_episodes cfg)
                      (spec_floor (train_batch_size cfg) (max_steps cfg))))
  /\ (forall cfg : Config,
         train_batch_size cfg = 4000 -> max_steps cfg = 200 ->
         (total_episodes cfg = 1000 -> iteration_budget cfg = Ok (20, 50)) /\
         (total_episodes cfg = 1010 -> iteration_budget cfg = Ok (20, 51))).
Proof.
  split.
  - intros cfg Hm Ht.
    assert (He : 0 < train_batch_size cfg / max_steps cfg)
      by (apply Z.div_str_pos; lia).
    rewrite iteration_budget_value by assumption. cbv zeta.
    rewrite spec_floor_div by lia.
    now rewrite spec_ceil_div by assumption.
  - intros cfg Hb Hm. split; intros Ht;
      rewrite iteration_budget_value by lia; rewrite Hb, Hm, Ht; reflexivity.
Qed.

Lemma budget_floor_ceil_witness :
  (0 < max_steps demo_config <= train_batch_size demo_config
   /\ 0 < total_episodes demo_config)
  /\ iteration_budget demo_config =
       Ok (spec_floor 4000 200, spec_ceil 80 (spec_floor 4000 200)).
Proof.
  split; [simpl; lia |].
  apply (proj1 budget_floor_ceil demo_config); simpl; lia.
Defined.

(** C3 as stated fails: with positive values and a batch smaller than one
    episode, [episodes_per_iteration] is 0 and the division that would give
    [training_iterations] raises. *)
Lemma budget_small_batch_raises :
  (0 < train_batch_size small_batch_config
   /\ 0 < max_steps small_batch_config
   /\ 0 < total_episodes small_batch_config)
  /\ iteration_budget small_batch_config = Raise ZeroDivisionError
  /\ iteration_budget small_batch_config <>
       Ok (spec_floor 100 200, spec_ceil 1000 (spec_floor 100 200)).
Proof. repeat split; try reflexivity; discriminate. Qed.

(** ** Validation *)

Lemma lookup_truthy (md : gmap string pyval) (k : string) (v : pyval) :
  md !! k = Some v -> Py.truthy (PDict md) = true.
Proof.
  intros Hk. simpl. apply negb_true_iff, Nat.eqb_neq.
  intros Hs. apply map_size_empty_iff in Hs. subst md.
  rewrite lookup_empty in Hk. discriminate.
Qed.

Lemma changed_present (md : gmap string pyval) (k : string) (z : Z) :
  changed (Py.get md k PNone) z = true -> Py.truthy (PDict md) = true.
Proof.
  unfold changed, Py.get. destruct (md !! k) as [v |] eqn:Hk; simpl.
  - intros _. eapply lookup_truthy; eassumption.
  - discriminate.
Qed.

(** C2, as the code has it: a metadata document whose [observation_size] is
    present, truthy and different from the live [observation_size], or whose
    [action_size] is present, truthy and different from 7, fails validation
    with a non-empty list of issues, whatever its other fields are. *)
Theorem hard_mismatch_fails_validation {text : Type}
    (md : gmap string pyval) (cfg : Config) (w : world text) :
  changed (Py.get md "observation_size" PNone) (observation_size cfg) = true \/
  changed (Py.get md "action_size" PNone) 7 = true ->
  exists issues w',
    validate_checkpoint_config (PDict md) cfg w = (Ok (false, issues), w')
    /\ issues <> []
    /\ fs w' = fs w.
Proof.
  intros Hc.
  assert (Ht : Py.truthy (PDict md) = true)
    by (destruct Hc as [Hc | Hc]; eapply changed_present; eassumption).
  unfold validate_checkpoint_config. rewrite Ht. cbv zeta. simpl negb. cbv iota.
  destruct (changed (Py.get md "observation_size" PNone) (observation_size cfg)) eqn:Ho;
    destruct (changed (Py.get md "action_size" PNone) 7) eqn:Ha;
    try (destruct Hc; discriminate);
    eexists _, _; (split; [reflexivity |]); (split; [simpl; discriminate |]);
    destruct (changed (Py.get md "max_steps" PNone) _);
    destruct (changed (Py.get md "train_batch_size" PNone) _); reflexivity.
Qed.

Lemma hard_mismatch_fails_validation_witness :
  changed (Py.get (<["observation_size" := PInt 32]> zero_observation_metadata)
                  "observation_size" PNone) (observation_size demo_config) = true
  /\ exists issues w',
       validate_checkpoint_config
         (PDict (<["observation_size" := PInt 32]> zero_observation_metadata))
         demo_config fresh_world = (Ok (false, issues), w')
       /\ issues <> [] /\ fs w' = fs fresh_world.
Proof.
  split; [reflexivity |].
  apply (hard_mismatch_fails_validation
           (<["observation_size" := PInt 32]> zero_observation_metadata)
           demo_config fresh_world).
  left. reflexivity.
Defined.

(** C2 as stated fails: a recorded observation size of 0 differs from the live
    64, every other field is the one [save_checkpoint] writes, and validation
    passes with no issue. *)
Lemma zero_observation_size_passes :
  zero_observation_metadata !! "observation_size" = Some (PInt 0)
  /\ Py.eq_int (PInt 0) (observation_size demo_config) = false
  /\ validate_checkpoint_config (PDict zero_observation_metadata) demo_config fresh_world
     = (Ok (true, []), fresh_world).
Proof. repeat split; reflexivity. Qed.

(** C7: when the metadata and the live configuration agree on the observation
    size and on the action size, validation returns [(True, [])]; a different
    [max_steps] or [train_batch_size] adds one console line each and nothing
    else. *)
Theorem soft_mismatch_passes_validation {text : Type}
    (md : gmap string pyval) (cfg : Config) (w : world text) :
  Py.eq_int (Py.get md "observation_size" PNone) (observation_size cfg) = true ->
  Py.eq_int (Py.get md "action_size" PNone) 7 = true ->
  validate_checkpoint_config (PDict md) cfg w =
    (Ok (true, []),
     {| fs := fs w;
        console :=
          console w
          ++ (if changed (Py.get md "max_steps" PNone) (max_steps cfg)
              then [MaxStepsChangedWarning (Py.get md "max_steps" PNone) (max_steps cfg)]
              else [])
          ++ (if changed (Py.get md "train_batch_size" PNone) (train_batch_size cfg)
              then [BatchSizeChangedInfo (Py.get md "train_batch_size" PNone)
                                         (train_batch_size cfg)]
              else []);
        clock := clock w;
        ticks := ticks w |}).
Proof.
  intros Ho Ha.
  assert (Ht : Py.truthy (PDict md) = true).
  { unfold Py.get in Ho. destruct (md !! "observation_size") eqn:Hk; [| discriminate].
    eapply lookup_truthy; eassumption. }
  assert (Hco : changed (Py.get md "observation_size" PNone) (observation_size cfg) = false)
    by (unfold changed; rewrite Ho; apply andb_false_r).
  assert (Hca : changed (Py.get md "action_size" PNone) 7 = false)
    by (unfold changed; rewrite Ha; apply andb_false_r).
  unfold validate_checkpoint_config. rewrite Ht. cbv zeta. simpl negb. cbv iota.
  rewrite Hco, Hca.
  destruct w as [f c k t].
  destruct (changed (Py.get md "max_steps" PNone) _);
    destruct (changed (Py.get md "train_batch_size" PNone) _);
    unfold emit; simpl; rewrite <- ?app_assoc, ?app_nil_r; reflexivity.
Qed.

Lemma soft_mismatch_passes_validation_witness :
  exists w',
    validate_checkpoint_config
      (PDict (<["max_steps" := PInt 500]>
               (<["observation_size" := PInt 64]> zero_observation_metadata)))
      demo_config fresh_world = (Ok (true, []), w')
    /\ console w' = [MaxStepsChangedWarning (PInt 500) 200].
Proof.
  eexists. split.
  - apply (soft_mismatch_passes_validation
             (<["max_steps" := PInt 500]>
               (<["observation_size" := PInt 64]> zero_observation_metadata))
             demo_config fresh_world); reflexivity.
  - reflexivity.
Defined.

(** ** Missing metadata *)

(** C8: when the checkpoint directory has no [metadata.json],
    [get_checkpoint_metadata] returns the empty dict, validation of the empty
    dict returns [(True, [])] after one warning, and the restore block of
    [train] ends with an episode offset and a start iteration: it neither
    raises nor exits. *)
Theorem missing_metadata_resumes {text : Type} `{!JsonCodec text}
    (cfg : Config) (epi : Z) (p : string) (w : world text) :
  fs w !! CM.metadata_file p = None ->
  CM.get_checkpoint_metadata p w = (Ok (PDict ∅), w)
  /\ validate_checkpoint_config (PDict ∅) cfg w = (Ok (true, []), emit NoMetadataWarning w)
  /\ exists offset start w',
       restore_block cfg epi p w = (Ok (offset, start), w')
       /\ NoMetadataWarning ∈ console w'.
Proof.
  intros Hnone.
  assert (Hget : forall w0 : world text, fs w0 = fs w ->
                 CM.get_checkpoint_metadata p w0 = (Ok (PDict ∅), w0)).
  { intros w0 Hfs. unfold CM.get_checkpoint_metadata. now rewrite Hfs, Hnone. }
  split; [apply Hget; reflexivity |].
  split; [reflexivity |].
  unfold restore_block. rewrite Hget by reflexivity.
  change (validate_checkpoint_config (PDict ∅) cfg (emit RestoringBanner w))
    with (Ok (true, @nil issue), emit NoMetadataWarning (emit RestoringBanner w)).
  cbv beta iota zeta. simpl negb. cbv iota.
  assert (Hin : forall l : list event,
             NoMetadataWarning ∈ (console (emit NoMetadataWarning (emit RestoringBanner w)) ++ l)).
  { intros l. simpl. rewrite !elem_of_app. left. right. apply list_elem_of_singleton.
    reflexivity. }
  destruct (Py.contains "checkpoint_" (Py.path_name p)).
  - destruct (parse_iteration (Py.path_name p)) as [n |].
    + destruct (Py.eq_int (Py.get ∅ "total_episodes" (PInt 0)) 0 && (0 <? n));
        eexists _, _, _; (split; [reflexivity |]); apply Hin.
    + eexists _, _, _. split; [reflexivity |]. apply Hin.
  - eexists _, _, _. split; [reflexivity |].
    specialize (Hin []). now rewrite app_nil_r in Hin.
Qed.

Lemma missing_metadata_resumes_witness :
  fs fresh_world !! CM.metadata_file "./checkpoints/checkpoint_000004" = None
  /\ exists offset start w',
       restore_block demo_config 20 "./checkpoints/checkpoint_000004" fresh_world
         = (Ok (offset, start), w')
       /\ NoMetadataWarning ∈ console w'.
Proof.
  split; [reflexivity |].
  apply (missing_metadata_resumes demo_config 20 "./checkpoints/checkpoint_000004"
           fresh_world).
  reflexivity.
Defined.

(** ** Persistence of the two histories *)

(** C9: [save_metrics] followed by the construction of a new
    [MetricsTracker] over the same directory gives back the history that was
    in memory: the same records in the same order. *)
Theorem metrics_history_round_trip {text : Type} `{!JsonCodec text}
    (dir : string) (records : list pyval) (w : world text) :
  let tracker := {| mt_checkpoint_dir := dir; metrics_history := PList records |} in
  exists w1,
    MT.save_metrics (tracker, w) = (Ok tt, (tracker, w1))
    /\ MT.init dir w1 = (Ok tracker, emit (LoadedMetrics (length records)) w1).
Proof.
  cbv zeta. eexists. split; [reflexivity |].
  unfold MT.init, MT._load_existing_metrics, write_file. simpl.
  rewrite lookup_insert_eq, json_load_dump. reflexivity.
Qed.

Lemma load_failure_keeps_empty_history {text : Type} `{!JsonCodec text}
    (dir : string) (content : text) (w : world text) :
  fs w !! MT.metrics_file dir = Some content ->
  json_load content = None ->
  MT.init dir w = (Ok {| mt_checkpoint_dir := dir; metrics_history := PList [] |},
                   emit (MetricsLoadFailed JSONDecodeError) w).
Proof.
  intros Hf Hl. unfold MT.init, MT._load_existing_metrics. simpl.
  now rewrite Hf, Hl.
Qed.

Lemma index_load_failure_raises {text : Type} `{!JsonCodec text}
    (dir : string) (content : text) (w : world text) :
  fs w !! CM.index_file dir = Some content ->
  json_load content = None ->
  CM.init dir w = (Raise JSONDecodeError, w).
Proof.
  intros Hf Hl. unfold CM.init, CM._load_checkpoint_index. simpl.
  now rewrite Hf, Hl.
Qed.

(** C5 at a checkpoint directory whose files do not parse: the
    [MetricsTracker] reports the failure and starts from an empty history, but
    the [CheckpointManager] raises [JSONDecodeError] out of its constructor,
    and so does [train], before its [try] block. *)
Theorem unparseable_index_is_fatal {text : Type} `{!JsonCodec text}
    (cfg : Config) (bad_metrics bad_index : text) (w : world text) :
  fs w !! MT.metrics_file (checkpoint_dir cfg) = Some bad_metrics ->
  json_load bad_metrics = None ->
  fs w !! CM.index_file (checkpoint_dir cfg) = Some bad_index ->
  json_load bad_index = None ->
  MT.init (checkpoint_dir cfg) w =
    (Ok {| mt_checkpoint_dir := checkpoint_dir cfg; metrics_history := PList [] |},
     emit (MetricsLoadFailed JSONDecodeError) w)
  /\ CM.init (checkpoint_dir cfg) w = (Raise JSONDecodeError, w)
  /\ forall restore script, train cfg restore script w = (Raise JSONDecodeError, None, w).
Proof.
  intros Hm Hlm Hi Hli.
  split; [eapply load_failure_keeps_empty_history; eassumption |].
  pose proof (index_load_failure_raises _ _ _ Hi Hli) as Hcm.
  split; [exact Hcm |].
  intros restore script. unfold train, train_startup, bind. now rewrite Hcm.
Qed.

Lemma unparseable_index_is_fatal_witness :
  CM.init (checkpoint_dir demo_config) torn_world = (Raise JSONDecodeError, torn_world)
  /\ train demo_config None steady torn_world = (Raise JSONDecodeError, None, torn_world).
Proof.
  pose proof (unparseable_index_is_fatal demo_config
                (Garbled "[ { iteration: 1,") (Garbled "{ checkpoints: [")
                torn_world eq_refl eq_refl eq_refl eq_refl) as [_ [Hcm Htrain]].
  split; [exact Hcm | apply Htrain].
Defined.

(** ** Checkpoint names: formatting, splitting and parsing *)

Section Strings.

Lemma digit_char_cases (d : Z) :
  0 <= d < 10 ->
  Py.digit_char d = "0"%char \/ Py.digit_char d = "1"%char \/ Py.digit_char d = "2"%char \/
  Py.digit_char d = "3"%char \/ Py.digit_char d = "4"%char \/ Py.digit_char d = "5"%char \/
  Py.digit_char d = "6"%char \/ Py.digit_char d = "7"%char \/ Py.digit_char d = "8"%char \/
  Py.digit_char d = "9"%char.
Proof.
  intros Hd.
  assert (Hc : d = 0 \/ d = 1 \/ d = 2 \/ d = 3 \/ d = 4 \/ d = 5 \/ d = 6 \/ d = 7 \/
               d = 8 \/ d = 9) by lia.
  repeat (destruct Hc as [-> | Hc]; [tauto |]). subst d. tauto.
Qed.

Lemma digit_char_is_digit (d : Z) : 0 <= d < 10 -> Py.is_digit (Py.digit_char d) = true.
Proof.
  intros Hd. destruct (digit_char_cases d Hd) as [H | H];
    repeat (destruct H as [-> | H]; [reflexivity |]); now rewrite H.
Qed.

Lemma digit_val_char (d : Z) : 0 <= d < 10 -> Py.digit_val (Py.digit_char d) = d.
Proof.
  intros Hd.
  assert (Hc : d = 0 \/ d = 1 \/ d = 2 \/ d = 3 \/ d = 4 \/ d = 5 \/ d = 6 \/ d = 7 \/
               d = 8 \/ d = 9) by lia.
  repeat (destruct Hc as [-> | Hc]; [reflexivity |]). now subst d.
Qed.

Lemma all_chars_app (p : ascii -> bool) (s t : string) :
  Py.all_chars p (s ++ t)%string = Py.all_chars p s && Py.all_chars p t.
Proof. induction s as [| a s IH]; simpl; [reflexivity |]. now rewrite IH, andb_assoc. Qed.

Lemma all_chars_weaken (p q : ascii -> bool) (s : string) :
  (forall a, p a = true -> q a = true) ->
  Py.all_chars p s = true -> Py.all_chars q s = true.
Proof.
  intros Hpq. induction s as [| a s IH]; simpl; [reflexivity |].
  rewrite !andb_true_iff. intros [Ha Hs]. split; [apply Hpq, Ha | apply IH, Hs].
Qed.

Lemma mod10_range (n : Z) : 0 <= n mod 10 < 10.
Proof. apply Z.mod_pos_bound. lia. Qed.

Lemma dec_digits_all_digits (fuel : nat) : forall (n : Z) (acc : string),
  Py.all_chars Py.is_digit acc = true ->
  Py.all_chars Py.is_digit (Py.dec_digits fuel n acc) = true.
Proof.
  induction fuel as [| fuel IH]; intros n acc Hacc; simpl; [exact Hacc |].
  assert (Hd : Py.all_chars Py.is_digit (String (Py.digit_char (n mod 10)) acc) = true).
  { simpl. rewrite digit_char_is_digit by apply mod10_range. exact Hacc. }
  destruct (n / 10 =? 0); [exact Hd | apply IH, Hd].
Qed.

Lemma dec_digits_nonempty (fuel : nat) (n : Z) (acc : string) :
  Py.dec_digits (S fuel) n acc <> EmptyString.
Proof.
  revert n acc. induction fuel as [| fuel IH]; intros n acc.
  - simpl. destruct (n / 10 =? 0); discriminate.
  - change (Py.dec_digits (S (S fuel)) n acc)
      with (let acc' := String (Py.digit_char (n mod 10)) acc in
            if n / 10 =? 0 then acc' else Py.dec_digits (S fuel) (n / 10) acc').
    cbv zeta. destruct (n / 10 =? 0); [discriminate | apply IH].
Qed.

(** Reading back the digits that [dec_digits] wrote in front of [rest]. *)
Lemma digits_value_dec_digits (fuel : nat) : forall n : Z,
  0 <= n < 10 ^ Z.of_nat fuel ->
  exists k : Z, 0 <= k /\
    forall (acc : Z) (rest : string),
      Py.digits_value acc (Py.dec_digits fuel n rest)
      = Py.digits_value (acc * 10 ^ k + n) rest.
Proof.
  induction fuel as [| fuel IH]; intros n Hn.
  - exists 0. split; [lia |]. intros acc rest.
    change (Z.of_nat 0) with 0 in Hn. rewrite Z.pow_0_r in *.
    replace (acc * 1 + n) with acc by lia. reflexivity.
  - assert (Hstep : forall acc rest,
               Py.digits_value acc (String (Py.digit_char (n mod 10)) rest)
               = Py.digits_value (10 * acc + n mod 10) rest).
    { intros acc rest. simpl.
      rewrite digit_char_is_digit, digit_val_char by apply mod10_range. reflexivity. }
    pose proof (Z.div_mod n 10 ltac:(lia)) as Hdm.
    pose proof (mod10_range n) as Hr.
    simpl Py.dec_digits. destruct (Z.eqb_spec (n / 10) 0) as [Hz | Hnz].
    + exists 1. split; [lia |]. intros acc rest. rewrite Hstep.
      f_equal. lia.
    + destruct (IH (n / 10)) as [k [Hk Hv]].
      { split; [apply Z.div_pos; lia |].
        apply Z.div_lt_upper_bound; [lia |].
        rewrite Nat2Z.inj_succ, Z.pow_succ_r in Hn by lia. lia. }
      exists (k + 1). split; [lia |]. intros acc rest.
      rewrite Hv, Hstep. f_equal.
      rewrite Z.pow_add_r by lia. lia.
Qed.

Lemma str_of_nonneg_fuel (n : Z) :
  0 <= n -> n < 10 ^ Z.of_nat (S (Z.to_nat (Z.log2 n))).
Proof.
  intros Hn. rewrite Nat2Z.inj_succ, Z2Nat.id by apply Z.log2_nonneg.
  destruct (Z.eq_dec n 0) as [-> | Hnz]; [reflexivity |].
  pose proof (Z.log2_spec n ltac:(lia)) as [_ Hlt].
  eapply Z.lt_le_trans; [exact Hlt |].
  apply Z.pow_le_mono_l. lia.
Qed.

Lemma digits_value_str (n : Z) :
  0 <= n -> Py.digits_value 0 (Py.str_of_nonneg n) = Some n.
Proof.
  intros Hn. unfold Py.str_of_nonneg.
  destruct (digits_value_dec_digits _ n (conj Hn (str_of_nonneg_fuel n Hn))) as [k [_ Hv]].
  rewrite Hv. simpl. reflexivity.
Qed.

Lemma str_of_nonneg_digits (n : Z) : Py.all_chars Py.is_digit (Py.str_of_nonneg n) = true.
Proof. apply dec_digits_all_digits. reflexivity. Qed.

Lemma str_of_nonneg_nonempty (n : Z) : Py.str_of_nonneg n <> EmptyString.
Proof. apply dec_digits_nonempty. Qed.

Lemma zeros_digits (k : nat) : Py.all_chars Py.is_digit (Py.zeros k) = true.
Proof. induction k as [| k IH]; simpl; [reflexivity | exact IH]. Qed.

Lemma digits_value_zeros (k : nat) (s : string) :
  Py.digits_value 0 (Py.zeros k ++ s)%string = Py.digits_value 0 s.
Proof. induction k as [| k IH]; simpl; [reflexivity | exact IH]. Qed.

Lemma zfill_digits (w : nat) (s : string) :
  Py.all_chars Py.is_digit s = true -> Py.all_chars Py.is_digit (Py.zfill w s) = true.
Proof. intros Hs. unfold Py.zfill. now rewrite all_chars_app, zeros_digits, Hs. Qed.

Lemma zfill_nonempty (w : nat) (s : string) :
  s <> EmptyString -> Py.zfill w s <> EmptyString.
Proof.
  intros Hs. unfold Py.zfill. destruct (Py.zeros _); simpl; [exact Hs | discriminate].
Qed.

Lemma unsigned_of_zfill (w : nat) (n : Z) :
  0 <= n -> Py.unsigned_of_string (Py.zfill w (Py.str_of_nonneg n)) = Some n.
Proof.
  intros Hn. unfold Py.unsigned_of_string.
  destruct (Py.zfill w (Py.str_of_nonneg n)) eqn:Hz.
  - exfalso. eapply zfill_nonempty; [apply str_of_nonneg_nonempty | exact Hz].
  - rewrite <- Hz. unfold Py.zfill. rewrite digits_value_zeros. now apply digits_value_str.
Qed.

(** White space is stripped from neither end of a string without any. *)
Lemma lstrip_no_space (s : string) :
  Py.all_chars (fun a => negb (Py.is_space a)) s = true -> Py.lstrip s = s.
Proof.
  destruct s as [| a s]; simpl; [reflexivity |].
  rewrite andb_true_iff, negb_true_iff. now intros [-> _].
Qed.

Lemma rstrip_no_space (s : string) :
  Py.all_chars (fun a => negb (Py.is_space a)) s = true -> Py.rstrip s = s.
Proof.
  induction s as [| a s IH]; simpl; [reflexivity |].
  rewrite andb_true_iff, negb_true_iff. intros [Ha Hs].
  rewrite (IH Hs), Ha. now destruct s.
Qed.

Lemma digit_not_space (a : ascii) : Py.is_digit a = true -> negb (Py.is_space a) = true.
Proof.
  unfold Py.is_digit, Py.is_space. cbv zeta.
  rewrite andb_true_iff, !Nat.leb_le, negb_true_iff, orb_false_iff, !andb_false_iff,
          !Nat.leb_gt. lia.
Qed.

Lemma int_of_string_unsigned (a : ascii) (s : string) :
  Py.is_digit a = true ->
  Py.all_chars Py.is_digit s = true ->
  Py.int_of_string (String a s) = Py.unsigned_of_string (String a s).
Proof.
  intros Ha Hs.
  assert (Hns : Py.all_chars (fun a => negb (Py.is_space a)) (String a s) = true).
  { apply all_chars_weaken with (p := Py.is_digit); [apply digit_not_space |].
    simpl. now rewrite Ha, Hs. }
  unfold Py.int_of_string. rewrite (lstrip_no_space _ Hns), (rstrip_no_space _ Hns).
  destruct a as [[] [] [] [] [] [] [] []]; try discriminate Ha; reflexivity.
Qed.

Lemma int_of_string_negative (s : string) :
  Py.all_chars Py.is_digit s = true ->
  Py.int_of_string (String "-" s) = Z.opp <$> Py.unsigned_of_string s.
Proof.
  intros Hs.
  assert (Hns : Py.all_chars (fun a => negb (Py.is_space a)) (String "-" s) = true).
  { simpl. eapply all_chars_weaken; [apply digit_not_space | exact Hs]. }
  unfold Py.int_of_string. now rewrite (lstrip_no_space _ Hns), (rstrip_no_space _ Hns).
Qed.

(** [int(f"{n:06d}") == n], for every integer. *)
Lemma int_of_format_06d (n : Z) : Py.int_of_string (Py.format_06d n) = Some n.
Proof.
  unfold Py.format_06d. destruct (Z.ltb_spec n 0) as [Hneg | Hpos].
  - rewrite int_of_string_negative by (apply zfill_digits, str_of_nonneg_digits).
    rewrite unsigned_of_zfill by lia. simpl. f_equal. lia.
  - pose proof (zfill_digits 6 _ (str_of_nonneg_digits n)) as Hd.
    pose proof (zfill_nonempty 6 _ (str_of_nonneg_nonempty n)) as Hne.
    destruct (Py.zfill 6 (Py.str_of_nonneg n)) as [| a s] eqn:Hz; [congruence |].
    simpl in Hd. apply andb_true_iff in Hd as [Ha Hs].
    rewrite int_of_string_unsigned by assumption.
    rewrite <- Hz. now apply unsigned_of_zfill.
Qed.

Lemma format_06d_chars (n : Z) : Py.all_chars Py.sign_or_digit (Py.format_06d n) = true.
Proof.
  assert (Hw : forall a, Py.is_digit a = true -> Py.sign_or_digit a = true)
    by (intros a Ha; unfold Py.sign_or_digit; now rewrite Ha).
  unfold Py.format_06d. destruct (n <? 0); simpl;
    eapply all_chars_weaken; try apply Hw; apply zfill_digits, str_of_nonneg_digits.
Qed.

(** *** [split] *)

Lemma split_nonempty (c : ascii) (s : string) : Py.split c s <> [].
Proof.
  induction s as [| a s IH]; simpl; [discriminate |].
  destruct (Ascii.eqb a c); [discriminate |].
  destruct (Py.split c s); [contradiction | discriminate].
Qed.

Lemma split_without (c : ascii) (s : string) :
  Py.all_chars (fun a => negb (Ascii.eqb a c)) s = true -> Py.split c s = [s].
Proof.
  induction s as [| a s IH]; simpl; [reflexivity |].
  rewrite andb_true_iff, negb_true_iff. intros [-> Hs]. now rewrite (IH Hs).
Qed.

(** [(a + c + b).split(c) == a.split(c) + b.split(c)]. *)
Lemma split_app (c : ascii) (a b : string) :
  Py.split c (a ++ String c b)%string = Py.split c a ++ Py.split c b.
Proof.
  induction a as [| x a IH]; simpl.
  - now rewrite Ascii.eqb_refl.
  - destruct (Ascii.eqb x c); [now rewrite IH |].
    rewrite IH. pose proof (split_nonempty c a) as Hne.
    destruct (Py.split c a); [contradiction | reflexivity].
Qed.

Lemma sign_or_digit_not (c : ascii) :
  Py.sign_or_digit c = false ->
  forall a, Py.sign_or_digit a = true -> negb (Ascii.eqb a c) = true.
Proof.
  intros Hc a Ha. apply negb_true_iff, Ascii.eqb_neq. intros ->. congruence.
Qed.

Lemma prefix_app (p s : string) : String.prefix p (p ++ s)%string = true.
Proof.
  induction p as [| a p IH]; simpl; [now destruct s |].
  destruct (ascii_dec a a); [exact IH | contradiction].
Qed.

Lemma checkpoint_name_split (n : Z) :
  Py.split "_" (CM.checkpoint_name n) = ["checkpoint"; Py.format_06d n].
Proof.
  unfold CM.checkpoint_name. simpl.
  rewrite split_without; [reflexivity |].
  eapply all_chars_weaken; [| apply format_06d_chars].
  now apply sign_or_digit_not.
Qed.

(** The name [save_checkpoint] gives the directory of iteration [n] is one the
    restore block recognises, and it parses back to [n]. *)
Lemma checkpoint_name_parses (n : Z) :
  Py.contains "checkpoint_" (CM.checkpoint_name n) = true
  /\ parse_iteration (CM.checkpoint_name n) = Some n.
Proof.
  split.
  - unfold CM.checkpoint_name.
    change (Py.contains "checkpoint_" ("checkpoint_" ++ Py.format_06d n)%string)
      with (String.prefix "checkpoint_" ("checkpoint_" ++ Py.format_06d n)%string
            || Py.contains "checkpoint_" ("heckpoint_" ++ Py.format_06d n)%string).
    now rewrite prefix_app.
  - unfold parse_iteration. rewrite checkpoint_name_split. simpl.
    apply int_of_format_06d.
Qed.

(** *** [Path.name] *)

Lemma filter_real_last (l : list string) (n : string) :
  Py.real_part n = true -> List.last (List.filter Py.real_part (l ++ [n])) EmptyString = n.
Proof.
  intros Hn. rewrite List.filter_app. simpl. rewrite Hn. apply List.last_last.
Qed.

Lemma path_name_join (d n : string) :
  Py.all_chars (fun a => negb (Ascii.eqb a "/")) n = true ->
  Py.real_part n = true ->
  Py.path_name (Py.path_join d n) = n.
Proof.
  intros Hn Hr. unfold Py.path_name, Py.path_join.
  change ("/" ++ n)%string with (String "/" n).
  rewrite split_app, (split_without _ _ Hn). now apply filter_real_last.
Qed.

Lemma checkpoint_name_no_slash (n : Z) :
  Py.all_chars (fun a => negb (Ascii.eqb a "/")) (CM.checkpoint_name n) = true.
Proof.
  unfold CM.checkpoint_name. rewrite all_chars_app. simpl.
  eapply all_chars_weaken; [| apply format_06d_chars].
  now apply sign_or_digit_not.
Qed.

Lemma path_name_checkpoint (d : string) (n : Z) :
  Py.path_name (Py.path_join d (CM.checkpoint_name n)) = CM.checkpoint_name n.
Proof. apply path_name_join; [apply checkpoint_name_no_slash | reflexivity]. Qed.

(** *** The three kinds of file are distinct *)

Lemma append_cancel_l (d x y : string) : (d ++ x)%string = (d ++ y)%string -> x = y.
Proof. induction d as [| a d IH]; simpl; [tauto |]. intros H. injection H. exact IH. Qed.

Lemma append_assoc (a b c : string) : ((a ++ b) ++ c)%string = (a ++ (b ++ c))%string.
Proof.
  induction a as [| x a IH]; [reflexivity |].
  change (String x ((a ++ b) ++ c) = String x (a ++ (b ++ c)))%string.
  now rewrite IH.
Qed.

Lemma metadata_not_index (d : string) (n : Z) :
  CM.index_file d <> CM.metadata_file (Py.path_join d (CM.checkpoint_name n)).
Proof.
  unfold CM.index_file, CM.metadata_file, Py.path_join, CM.checkpoint_name.
  rewrite !append_assoc. intros H. apply append_cancel_l in H. simpl in H.
  injection H as H.
  pose proof (format_06d_chars n) as Hc.
  destruct (Py.format_06d n) as [| a s]; simpl in H; [discriminate |].
  injection H as <- _. discriminate Hc.
Qed.

Lemma metadata_not_metrics (d : string) (n : Z) :
  MT.metrics_file d <> CM.metadata_file (Py.path_join d (CM.checkpoint_name n)).
Proof.
  unfold MT.metrics_file, CM.metadata_file, Py.path_join, CM.checkpoint_name.
  rewrite !append_assoc. intros H. apply append_cancel_l in H. discriminate H.
Qed.

Lemma index_not_metrics (d : string) : CM.index_file d <> MT.metrics_file d.
Proof.
  unfold MT.metrics_file, CM.index_file, Py.path_join.
  intros H. apply append_cancel_l in H. discriminate H.
Qed.

End Strings.

(** ** Resuming *)

Section Resume.
Context {text : Type} `{!JsonCodec text}.



(** What a successful start-up went through. *)
Lemma train_startup_inv (cfg : Config) (restore : option string) (w w' : world text)
    (s : started) :
  train_startup cfg restore w = (Ok s, w') ->
  exists cm mt w1 w2 w3,
    CM.init (checkpoint_dir cfg) w = (Ok cm, w1)
    /\ MT.init (checkpoint_dir cfg) w1 = (Ok mt, w2)
    /\ iteration_budget cfg = Ok (episodes_per_iteration s, training_iterations s)
    /\ match supplied restore with
       | Some p => restore_block cfg (episodes_per_iteration s) p w2
       | None => (Ok (PInt 0, 1), w2)
       end = (Ok (episode_offset s, start_iteration s), w3)
    /\ locals s = {| checkpoint_manager := cm;
                     metrics_tracker := mt;
                     total_episodes_completed := episode_offset s;
                     iteration := None |}
    /\ w' = emit (TrainingConfiguration (training_iterations s) (start_iteration s)
                    (episodes_per_iteration s) (episode_offset s))
                 match supplied restore with
                 | Some p => emit (LearnerRestored p) w3
                 | None => w3
                 end.
Proof.
  unfold train_startup, bind, lift_result, ret, create_ppo_trainer. intros H.
  destruct (CM.init (checkpoint_dir cfg) w) as [[cm | e | c] w1] eqn:Hcm;
    try discriminate H.
  destruct (MT.init (checkpoint_dir cfg) w1) as [[mt | e | c] w2] eqn:Hmt;
    try discriminate H.
  destruct (iteration_budget cfg) as [[epi T] | e | c] eqn:Hb; try discriminate H.
  destruct (supplied restore) as [p |].
  - destruct (restore_block cfg epi p w2) as [[[off start] | e | c] w3] eqn:Hr;
      try discriminate H.
    injection H as <- <-. simpl. exists cm, mt, w1, w2, w3. now rewrite Hr.
  - injection H as <- <-. simpl. exists cm, mt, w1, w2, w2. easy.
Qed.

Lemma cm_init_fs (dir : string) (w : world text) : fs (snd (CM.init dir w)) = fs w.
Proof.
  unfold CM.init, CM._load_checkpoint_index. simpl. repeat case_match; simplify_eq; reflexivity.
Qed.

Lemma mt_init_fs (dir : string) (w : world text) : fs (snd (MT.init dir w)) = fs w.
Proof.
  unfold MT.init, MT._load_existing_metrics. simpl. repeat case_match; simplify_eq; reflexivity.
Qed.



End Resume.



(** ** One iteration of the loop *)

Arguments CM.base_metadata : simpl never.
Arguments CM.index_record : simpl never.
Arguments CM.checkpoint_name : simpl never.
Arguments CM.index_file : simpl never.
Arguments CM.metadata_file : simpl never.
Arguments CM.given : simpl never.
Arguments MT.metrics_file : simpl never.
Arguments MT.metrics_record : simpl never.
Arguments checkpoint_metrics : simpl never.
Arguments final_metrics : simpl never.
Arguments interrupt_metrics : simpl never.
Arguments Py.path_join : simpl never.
Arguments Py.add_int : simpl never.
Arguments Py.truthy : simpl never.

Section Loop.
Context {text : Type} `{!JsonCodec text}.

(** What [save_checkpoint] does to a manager whose index is a list. *)
Lemma save_checkpoint_list (i : Z) (cfg : Config) (m : gmap string pyval)
    (d : string) (l : list pyval) (w : world text) :
  CM.given (Some m) = true ->
  let path := Py.path_join d (CM.checkpoint_name i) in
  let record := CM.index_record i (CM.checkpoint_name i)
                  (Py.get (m ∪ CM.base_metadata i (now w) path cfg) "timestamp" PNone)
                  (Some m) in
  let index := PList (l ++ [record]) in
  CM.save_checkpoint i cfg (Some m) ({| cm_checkpoint_dir := d; checkpoint_history := PList l |}, w)
  = (Ok path,
     ({| cm_checkpoint_dir := d; checkpoint_history := index |},
      {| fs := <[CM.index_file d :=
                   json_dump (PDict (<["checkpoints" := index]>
                                     (<["last_updated" := PStr (clock w (S (ticks w)))]> ∅)))]>
                (<[CM.metadata_file path :=
                     json_dump (PDict (m ∪ CM.base_metadata i (now w) path cfg))]> (fs w));
         console := console w ++ [SnapshotSaved path; CheckpointSaved (CM.checkpoint_name i)];
         clock := clock w;
         ticks := S (S (ticks w)) |})).
Proof.
  intros Hg. cbv zeta. unfold CM.save_checkpoint, CM._save_checkpoint_index. cbv zeta.
  rewrite Hg. unfold Py.append. cbv iota beta.
  unfold emit, tick, write_file, now. cbn [fs console clock ticks].
  rewrite <- app_assoc. reflexivity.
Qed.


Lemma given_checkpoint_metrics (t : pyval) (e : Z) :
  CM.given (Some (checkpoint_metrics t e)) = true.
Proof. reflexivity. Qed.

Lemma add_int_no_exit (v : pyval) (z c : Z) : Py.add_int v z <> Exit c.
Proof. unfold Py.add_int. repeat case_match; discriminate. Qed.

(** The ways one pass through the loop body changes the locals. *)
Lemma loop_body_effect (cfg : Config) (script : Z -> step_event) (i : Z)
    (f f' : frame) (w w' : world text) (r : result unit) :
  loop_body cfg script i (f, w) = (r, (f', w')) ->
  iteration f' = Some i
  /\ cm_checkpoint_dir (checkpoint_manager f') = cm_checkpoint_dir (checkpoint_manager f)
  /\ mt_checkpoint_dir (metrics_tracker f') = mt_checkpoint_dir (metrics_tracker f)
  /\ (forall c, r <> Exit c)
  /\ (total_episodes_completed f' = total_episodes_completed f
      \/ exists r0 b, script i = StepOk r0 b
           /\ Py.add_int (total_episodes_completed f) (default 0 (episodes_this_iter r0))
              = Ok (total_episodes_completed f'))
  /\ (checkpoint_history (checkpoint_manager f') = checkpoint_history (checkpoint_manager f)
      \/ exists l ts e,
           checkpoint_history (checkpoint_manager f) = PList l
           /\ checkpoint_history (checkpoint_manager f')
              = PList (l ++ [CM.index_record i (CM.checkpoint_name i) ts
                               (Some (checkpoint_metrics (total_episodes_completed f') e))])).
Proof.
  destruct f as [[d h] [md mh] tot it].
  unfold loop_body, periodic_checkpoint, bind, bind_iteration, add_episodes, with_mt,
    with_cm, lift_result, pymod, raise, ret, MT.extract_metrics, MT.log_progress,
    MT.save_metrics, MT.generate_plots, CM.save_checkpoint, CM._save_checkpoint_index.
  cbn [checkpoint_manager metrics_tracker total_episodes_completed iteration
       cm_checkpoint_dir checkpoint_history mt_checkpoint_dir metrics_history fst snd].
  intros H.
  repeat (cbn [checkpoint_manager metrics_tracker total_episodes_completed iteration
               cm_checkpoint_dir checkpoint_history mt_checkpoint_dir metrics_history
               fst snd] in *;
          rewrite ?given_checkpoint_metrics in *;
          unfold Py.append in *;
          case_match; try discriminate; simplify_eq;
          try (exfalso; eapply add_int_no_exit; eassumption)).
  all: cbn [checkpoint_manager metrics_tracker total_episodes_completed iteration
            cm_checkpoint_dir checkpoint_history mt_checkpoint_dir metrics_history fst snd].
  all: repeat split; try discriminate; eauto 8.
Qed.


Lemma given_final_metrics (t : pyval) : CM.given (Some (final_metrics t)) = true.
Proof. reflexivity. Qed.

Lemma given_interrupt_metrics (t : pyval) : CM.given (Some (interrupt_metrics t)) = true.
Proof. reflexivity. Qed.

(** The final checkpoint: one more record, for [training_iterations], or the
    [AttributeError] of an index that is not a list.  With the record written,
    the block ends normally or is left by the late Ctrl-C. *)
Lemma finish_effect (cfg : Config) (T : Z) (late : bool) (f f' : frame) (w w' : world text)
    (r : result unit) :
  finish cfg T late (f, w) = (r, (f', w')) ->
  cm_checkpoint_dir (checkpoint_manager f') = cm_checkpoint_dir (checkpoint_manager f)
  /\ mt_checkpoint_dir (metrics_tracker f') = mt_checkpoint_dir (metrics_tracker f)
  /\ total_episodes_completed f' = total_episodes_completed f
  /\ iteration f' = iteration f
  /\ ((r = Raise AttributeError
       /\ checkpoint_history (checkpoint_manager f') = checkpoint_history (checkpoint_manager f))
      \/ (r = (if late then Raise KeyboardInterrupt else Ok tt)
          /\ exists l ts,
               checkpoint_history (checkpoint_manager f) = PList l
               /\ checkpoint_history (checkpoint_manager f')
                  = PList (l ++ [CM.index_record T (CM.checkpoint_name T) ts
                                   (Some (final_metrics (total_episodes_completed f)))]))).
Proof.
  destruct f as [[d h] [md mh] tot it].
  unfold finish, say, read_total, bind, raise, with_mt, with_cm, ret, MT.save_metrics,
    MT.generate_plots, MT.print_summary, CM.save_checkpoint, CM._save_checkpoint_index.
  intros H.
  repeat (cbn [checkpoint_manager metrics_tracker total_episodes_completed iteration
               cm_checkpoint_dir checkpoint_history mt_checkpoint_dir metrics_history
               fst snd] in *;
          rewrite ?given_final_metrics in *;
          unfold Py.append in *;
          case_match; try discriminate; simplify_eq).
  all: cbn [checkpoint_manager metrics_tracker total_episodes_completed iteration
            cm_checkpoint_dir checkpoint_history mt_checkpoint_dir metrics_history fst snd].
  all: repeat split; eauto 8.
Qed.

(** The handler before the loop has bound its variable. *)
Lemma on_interrupt_unbound (cfg : Config) (f : frame) (w : world text) :
  iteration f = None ->
  on_interrupt cfg (f, w) = (Raise UnboundLocalError, (f, emit TrainingInterrupted w)).
Proof.
  intros Hi. unfold on_interrupt, say, read_total, read_iteration, bind.
  now rewrite Hi.
Qed.

(** The interrupt handler, exactly, when the loop variable is bound and the
    index is a list. *)
Lemma on_interrupt_exact (cfg : Config) (K : Z) (d : string) (l : list pyval)
    (mh tot : pyval) (w : world text) :
  let f := {| checkpoint_manager := {| cm_checkpoint_dir := d; checkpoint_history := PList l |};
              metrics_tracker := {| mt_checkpoint_dir := d; metrics_history := mh |};
              total_episodes_completed := tot;
              iteration := Some K |} in
  let path := Py.path_join d (CM.checkpoint_name K) in
  let record := CM.index_record K (CM.checkpoint_name K) (PStr (now w))
                  (Some (interrupt_metrics tot)) in
  exists w2 shown,
    on_interrupt cfg (f, w)
    = (Ok tt,
       ({| checkpoint_manager :=
             {| cm_checkpoint_dir := d; checkpoint_history := PList (l ++ [record]) |};
           metrics_tracker := {| mt_checkpoint_dir := d; metrics_history := mh |};
           total_episodes_completed := tot;
           iteration := Some K |}, w2))
    /\ fs w2 =
         <[MT.metrics_file d := json_dump mh]>
           (<[CM.index_file d :=
                json_dump (PDict (<["checkpoints" := PList (l ++ [record])]>
                                  (<["last_updated" := PStr (clock w (S (ticks w)))]> ∅)))]>
              (<[CM.metadata_file path :=
                   json_dump (PDict (interrupt_metrics tot
                                     ∪ CM.base_metadata K (now w) path cfg))]> (fs w)))
    /\ console w2 = shown ++ [ResumeHint ("./checkpoints/" ++ CM.checkpoint_name K)%string].
Proof.
  cbv zeta.
  unfold on_interrupt, say, read_total, read_iteration, bind, with_mt, with_cm, ret,
    MT.save_metrics, MT.generate_plots, MT.print_summary.
  cbn [checkpoint_manager metrics_tracker total_episodes_completed iteration
       cm_checkpoint_dir checkpoint_history mt_checkpoint_dir metrics_history fst snd].
  rewrite save_checkpoint_list by apply given_interrupt_metrics. cbv zeta.
  cbn [checkpoint_manager metrics_tracker total_episodes_completed iteration
       cm_checkpoint_dir checkpoint_history mt_checkpoint_dir metrics_history fst snd].
  destruct (negb (Py.truthy mh)) eqn:Ht;
    cbn [checkpoint_manager metrics_tracker total_episodes_completed iteration
         cm_checkpoint_dir checkpoint_history mt_checkpoint_dir metrics_history fst snd];
    rewrite ?Ht;
    eexists _, _; (split; [reflexivity |]); (split; [reflexivity |]);
    unfold emit, write_file; cbn [fs console clock ticks]; reflexivity.
Qed.

(** *** Sorted lists *)

Lemma StronglySorted_snoc {A : Type} (R : A -> A -> Prop) (l : list A) (x : A) :
  StronglySorted R l -> Forall (fun y => R y x) l -> StronglySorted R (l ++ [x]).
Proof.
  induction 1 as [| a l Hs IH Ha]; intros Hx; simpl.
  - repeat constructor.
  - apply Forall_cons_iff in Hx as [Hax Hlx].
    constructor; [apply IH, Hlx |].
    apply Forall_app. split; [exact Ha | now constructor].
Qed.

Lemma StronglySorted_le_of_lt (l : list Z) : StronglySorted Z.lt l -> StronglySorted Z.le l.
Proof.
  induction 1 as [| a l Hs IH Ha]; constructor; [exact IH |].
  eapply Forall_impl; [exact Ha |]. simpl. intros. lia.
Qed.

Lemma StronglySorted_removelast {A : Type} (R : A -> A -> Prop) (l : list A) :
  StronglySorted R l -> StronglySorted R (removelast l).
Proof.
  induction 1 as [| a l Hs IH Ha]; simpl; [constructor |].
  destruct l as [| b l]; [constructor |].
  constructor; [exact IH |].
  clear - Ha. revert a b Ha. induction l as [| c l IHl]; intros a b Ha.
  - constructor.
  - apply Forall_cons_iff in Ha as [Hab Ha].
    change (removelast (b :: c :: l)) with (b :: removelast (c :: l)).
    constructor; [exact Hab | apply IHl, Ha].
Qed.

Lemma Forall_le_weaken (b b' : Z) (l : list Z) :
  b <= b' -> Forall (fun x => x <= b) l -> Forall (fun x => x <= b') l.
Proof. intros Hb H. eapply Forall_impl; [exact H |]. simpl. intros. lia. Qed.

Lemma field_iteration_record (i : Z) (name : string) (ts : pyval) (m : option (gmap string pyval)) :
  field "iteration" (CM.index_record i name ts m) = PInt i.
Proof. reflexivity. Qed.

Lemma field_total_checkpoint (i : Z) (name : string) (ts t : pyval) (e : Z) :
  field "total_episodes" (CM.index_record i name ts (Some (checkpoint_metrics t e))) = t.
Proof. reflexivity. Qed.

Lemma field_total_final (i : Z) (name : string) (ts t : pyval) :
  field "total_episodes" (CM.index_record i name ts (Some (final_metrics t))) = t.
Proof. reflexivity. Qed.

(** Appending the record of iteration [i], with the counter at [t], keeps the
    invariant when every earlier iteration is below [i]. *)
Lemma loop_inv_append (track : bool) (d : string) (l0 : list pyval) (i : Z) (f f' : frame)
    (record : pyval) (l : list pyval) :
  loop_inv track d l0 (i - 1) f ->
  cm_checkpoint_dir (checkpoint_manager f') = cm_checkpoint_dir (checkpoint_manager f) ->
  mt_checkpoint_dir (metrics_tracker f') = mt_checkpoint_dir (metrics_tracker f) ->
  checkpoint_history (checkpoint_manager f) = PList l ->
  checkpoint_history (checkpoint_manager f') = PList (l ++ [record]) ->
  field "iteration" record = PInt i ->
  field "total_episodes" record = total_episodes_completed f' ->
  (track = true -> forall t, total_episodes_completed f = PInt t ->
                   exists t', total_episodes_completed f' = PInt t' /\ t <= t') ->
  loop_inv track d l0 i f'.
Proof.
  intros (Hcd & Hmd & recs & its & Hh & Hits & Hs & Hb & Ht) Hcd' Hmd' Hl Hl' Hfi Hft Htot.
  split; [congruence |]. split; [congruence |].
  rewrite Hh in Hl. injection Hl as <-.
  exists (recs ++ [record]), (its ++ [i]).
  split; [now rewrite Hl', app_assoc |].
  split. { unfold iterations_of in *. now rewrite !map_app, Hits; simpl; rewrite Hfi. }
  split. { apply StronglySorted_snoc; [exact Hs |].
           eapply Forall_impl; [exact Hb |]. simpl. intros. lia. }
  split. { apply Forall_app. split; [eapply Forall_le_weaken; [| exact Hb]; lia |].
           repeat constructor. lia. }
  intros Htr. destruct (Ht Htr) as (t & tots & Htf & Htots & Hst & Hbt).
  destruct (Htot Htr t Htf) as (t' & Htf' & Hle).
  exists t', (tots ++ [t']).
  split; [exact Htf' |].
  split. { unfold totals_of in *. now rewrite !map_app, Htots; simpl; rewrite Hft, Htf'. }
  split. { apply StronglySorted_snoc; [exact Hst |].
           eapply Forall_impl; [exact Hbt |]. simpl. intros. lia. }
  apply Forall_app. split; [eapply Forall_le_weaken; [| exact Hbt]; lia |].
  repeat constructor. lia.
Qed.

(** Leaving the index alone keeps the invariant when the counter does not
    decrease. *)
Lemma loop_inv_keep (track : bool) (d : string) (l0 : list pyval) (b b' : Z) (f f' : frame) :
  loop_inv track d l0 b f ->
  b <= b' ->
  cm_checkpoint_dir (checkpoint_manager f') = cm_checkpoint_dir (checkpoint_manager f) ->
  mt_checkpoint_dir (metrics_tracker f') = mt_checkpoint_dir (metrics_tracker f) ->
  checkpoint_history (checkpoint_manager f') = checkpoint_history (checkpoint_manager f) ->
  (track = true -> forall t, total_episodes_completed f = PInt t ->
                   exists t', total_episodes_completed f' = PInt t' /\ t <= t') ->
  loop_inv track d l0 b' f'.
Proof.
  intros (Hcd & Hmd & recs & its & Hh & Hits & Hs & Hb & Ht) Hbb Hcd' Hmd' Hh' Htot.
  split; [congruence |]. split; [congruence |].
  exists recs, its.
  split; [congruence |]. split; [exact Hits |]. split; [exact Hs |].
  split; [eapply Forall_le_weaken; eassumption |].
  intros Htr. destruct (Ht Htr) as (t & tots & Htf & Htots & Hst & Hbt).
  destruct (Htot Htr t Htf) as (t' & Htf' & Hle).
  exists t', tots. repeat split; try assumption.
  eapply Forall_le_weaken; eassumption.
Qed.

Lemma add_int_counter (t e : Z) (v : pyval) :
  Py.add_int (PInt t) e = Ok v -> v = PInt (t + e).
Proof. unfold Py.add_int. now intros [= <-]. Qed.

(** One pass through the body keeps the invariant, whatever it ends in. *)
Lemma loop_body_inv (track : bool) (d : string) (l0 : list pyval)
    (cfg : Config) (script : Z -> step_event) (i : Z)
    (f f' : frame) (w w' : world text) (r : result unit) :
  (track = true -> counts_episodes script) ->
  loop_inv track d l0 (i - 1) f ->
  loop_body cfg script i (f, w) = (r, (f', w')) ->
  loop_inv track d l0 i f' /\ iteration f' = Some i /\ (forall c, r <> Exit c).
Proof.
  intros Hcount Hinv Hbody.
  destruct (loop_body_effect _ _ _ _ _ _ _ _ Hbody) as (Hit & Hcd & Hmd & Hex & Htot & Hh).
  split; [| split; assumption].
  assert (Hcounter : track = true -> forall t, total_episodes_completed f = PInt t ->
                     exists t', total_episodes_completed f' = PInt t' /\ t <= t').
  { intros Htr t Ht. destruct Htot as [Hsame | (r0 & b & Hs & Hadd)].
    - exists t. split; [congruence | lia].
    - rewrite Ht in Hadd. apply add_int_counter in Hadd.
      exists (t + default 0 (episodes_this_iter r0)). split; [exact Hadd |].
      pose proof (Hcount Htr i r0 b Hs). lia. }
  destruct Hh as [Hsame | (l & ts & e & Hl & Hl')].
  - eapply loop_inv_keep; try eassumption. lia.
  - eapply loop_inv_append; try eassumption.
    + apply field_iteration_record.
    + apply field_total_checkpoint.
Qed.

(** The loop: the invariant holds when it ends, with the last iteration as
    bound, and when it is left by an exception, with the iteration that
    raised. *)
Lemma train_loop_inv (track : bool) (d : string) (l0 : list pyval)
    (cfg : Config) (script : Z -> step_event) :
  (track = true -> counts_episodes script) ->
  forall (n : nat) (i : Z) (f f' : frame) (w w' : world text) (r : result unit),
    loop_inv track d l0 (i - 1) f ->
    train_loop cfg script n i (f, w) = (r, (f', w')) ->
    match r with
    | Ok _ => loop_inv track d l0 (i + Z.of_nat n - 1) f'
    | Raise _ => exists k, i <= k < i + Z.of_nat n
                           /\ iteration f' = Some k /\ loop_inv track d l0 k f'
    | Exit _ => False
    end.
Proof.
  intros Hcount. induction n as [| n IH]; intros i f f' w w' r Hinv Hloop.
  - simpl in Hloop. unfold ret in Hloop. injection Hloop as <- <- <-.
    now replace (i + Z.of_nat 0 - 1) with (i - 1) by lia.
  - simpl in Hloop. unfold bind in Hloop.
    destruct (loop_body cfg script i (f, w)) as [r1 [f1 w1]] eqn:Hbody.
    destruct (loop_body_inv track d l0 _ _ _ _ _ _ _ _ Hcount Hinv Hbody)
      as (Hinv1 & Hit1 & Hex1).
    destruct r1 as [[] | e | c].
    + replace i with (i + 1 - 1) in Hinv1 by lia.
      specialize (IH (i + 1) f1 f' w1 w' r Hinv1 Hloop).
      destruct r as [[] | e | c]; [| | exact IH].
      * now replace (i + Z.of_nat (S n) - 1) with (i + 1 + Z.of_nat n - 1) by lia.
      * destruct IH as (k & Hk & Hitk & Hinvk). exists k.
        split; [lia |]. split; assumption.
    + injection Hloop as <- <- <-. exists i. split; [lia |]. split; assumption.
    + exfalso. eapply Hex1. reflexivity.
Qed.

End Loop.

(** ** Whole runs *)

Section Runs.
Context {text : Type} `{!JsonCodec text}.

Lemma cm_init_dir (d : string) (w w' : world text) (cm : CheckpointManager) :
  CM.init d w = (Ok cm, w') -> cm_checkpoint_dir cm = d.
Proof.
  unfold CM.init, CM._load_checkpoint_index. cbn [cm_checkpoint_dir checkpoint_history].
  intros H. repeat case_match; simplify_eq; reflexivity.
Qed.

Lemma mt_init_ok (d : string) (w : world text) :
  exists h w', MT.init d w = (Ok {| mt_checkpoint_dir := d; metrics_history := h |}, w')
               /\ fs w' = fs w.
Proof.
  unfold MT.init, MT._load_existing_metrics. cbn [mt_checkpoint_dir metrics_history].
  repeat case_match; simplify_eq; eexists _, _; split; reflexivity.
Qed.

Lemma loop_inv_initial (track : bool) (d : string) (l0 : list pyval) (b : Z) (f : frame) :
  cm_checkpoint_dir (checkpoint_manager f) = d ->
  mt_checkpoint_dir (metrics_tracker f) = d ->
  checkpoint_history (checkpoint_manager f) = PList l0 ->
  (track = true -> exists t, total_episodes_completed f = PInt t) ->
  loop_inv track d l0 b f.
Proof.
  intros Hcd Hmd Hh Ht. split; [exact Hcd |]. split; [exact Hmd |].
  exists [], []. split; [now rewrite app_nil_r |].
  split; [reflexivity |]. split; [constructor |]. split; [constructor |].
  intros Htr. destruct (Ht Htr) as [t Htot]. exists t, [].
  repeat split; try assumption; constructor.
Qed.

(** When the loop has run and ended, its variable is the last iteration. *)
Lemma train_loop_iteration (cfg : Config) (script : Z -> step_event) :
  forall (n : nat) (i : Z) (f f' : frame) (w w' : world text),
    train_loop cfg script (S n) i (f, w) = (Ok tt, (f', w')) ->
    iteration f' = Some (i + Z.of_nat n).
Proof.
  induction n as [| n IH]; intros i f f' w w' Hloop.
  - simpl in Hloop. unfold bind, ret in Hloop.
    destruct (loop_body cfg script i (f, w)) as [r1 [f1 w1]] eqn:Hbody.
    destruct (loop_body_effect _ _ _ _ _ _ _ _ Hbody) as (Hit & _).
    destruct r1 as [[] | e | c]; try discriminate Hloop.
    injection Hloop as <- <-. rewrite Hit. f_equal. lia.
  - change (train_loop cfg script (S (S n)) i (f, w))
      with (bind (loop_body cfg script i)
                 (fun _ => train_loop cfg script (S n) (i + 1)) (f, w)) in Hloop.
    unfold bind in Hloop.
    destruct (loop_body cfg script i (f, w)) as [r1 [f1 w1]].
    destruct r1 as [[] | e | c]; try discriminate Hloop.
    rewrite (IH _ _ _ _ _ Hloop). f_equal. lia.
Qed.

(** The loop of a run, from the locals that start-up left: the invariant holds
    with bound [training_iterations] when the loop ends, with the iteration
    that raised when it does not. *)
Lemma run_loop_inv (track : bool) (d : string) (l0 : list pyval)
    (cfg : Config) (script : Z -> step_event) (T start : Z)
    (f f' : frame) (w w' : world text) (r : result unit) :
  (track = true -> counts_episodes script) ->
  cm_checkpoint_dir (checkpoint_manager f) = d ->
  mt_checkpoint_dir (metrics_tracker f) = d ->
  checkpoint_history (checkpoint_manager f) = PList l0 ->
  (track = true -> exists t, total_episodes_completed f = PInt t) ->
  train_loop cfg script (Z.to_nat (T + 1 - start)) start (f, w) = (r, (f', w')) ->
  match r with
  | Ok _ => loop_inv track d l0 T f'
            /\ (iteration f' = iteration f \/ iteration f' = Some T)
  | Raise _ => exists k, iteration f' = Some k /\ loop_inv track d l0 k f'
  | Exit _ => False
  end.
Proof.
  intros Hcount Hcd Hmd Hh Ht Hloop.
  destruct (Z.to_nat (T + 1 - start)) as [| n] eqn:Hn.
  - simpl in Hloop. unfold ret in Hloop. injection Hloop as <- <- <-.
    split; [now apply loop_inv_initial | now left].
  - pose proof (train_loop_inv track d l0 cfg script Hcount (S n) start f f' w w' r
                  (loop_inv_initial track d l0 (start - 1) f Hcd Hmd Hh Ht) Hloop) as H.
    destruct r as [[] | e | c]; [| | exact H].
    + split.
      * replace T with (start + Z.of_nat (S n) - 1) by lia. exact H.
      * right. rewrite (train_loop_iteration _ _ _ _ _ _ _ _ Hloop). f_equal. lia.
    + destruct H as (k & _ & Hk & Hinv). eauto.
Qed.

(** *** Closing records *)

Lemma map_field_constant (k : string) (v : pyval) (records : list pyval) :
  Forall (fun r => field k r = v) records ->
  List.map (field k) records = repeat v (length records).
Proof. induction 1 as [| r l Hr _ IH]; simpl; [reflexivity | now rewrite Hr, IH]. Qed.

Lemma sorted_le_then_repeat (l : list Z) (b : Z) (n : nat) :
  StronglySorted Z.le l -> Forall (fun x => x <= b) l ->
  StronglySorted Z.le (l ++ repeat b n).
Proof.
  revert l. induction n as [| n IH]; intros l Hs Hb; simpl.
  - now rewrite app_nil_r.
  - change (b :: repeat b n) with ([b] ++ repeat b n). rewrite app_assoc.
    apply IH.
    + now apply StronglySorted_snoc.
    + apply Forall_app. split; [exact Hb |]. repeat constructor. lia.
Qed.

(** The records a run leaves: those of the loop, then [closing] records that
    all carry the bound of the invariant and the counter. *)
Lemma ordered_close (track : bool) (d : string) (l0 : list pyval) (b : Z)
    (f f' : frame) (l closing : list pyval) :
  loop_inv track d l0 b f ->
  checkpoint_history (checkpoint_manager f) = PList l ->
  checkpoint_history (checkpoint_manager f') = PList (l ++ closing) ->
  Forall (fun r => field "iteration" r = PInt b) closing ->
  Forall (fun r => field "total_episodes" r = total_episodes_completed f) closing ->
  (length closing <= 2)%nat ->
  ordered track l0 f'.
Proof.
  intros (_ & _ & recs & its & Hh & Hits & Hs & Hb & Ht) Hl Hl' Hci Hct Hlen.
  rewrite Hh in Hl. injection Hl as <-.
  exists recs, closing, its, (repeat b (length closing)).
  split; [now rewrite Hl', app_assoc |].
  split; [exact Hits |].
  split. { unfold iterations_of. now rewrite (map_field_constant _ _ _ Hci), map_repeat. }
  split; [exact Hs |].
  split. { apply sorted_le_then_repeat; [now apply StronglySorted_le_of_lt | exact Hb]. }
  split; [exact Hlen |].
  intros Htr. destruct (Ht Htr) as (t & tots & Htf & Htots & Hst & Hbt).
  exists (tots ++ repeat t (length closing)).
  split.
  - unfold totals_of in *.
    now rewrite !map_app, Htots, (map_field_constant _ _ _ Hct), Htf, map_repeat.
  - now apply sorted_le_then_repeat.
Qed.

Lemma ordered_of_inv (track : bool) (d : string) (l0 : list pyval) (b : Z) (f f' : frame) :
  loop_inv track d l0 b f ->
  checkpoint_history (checkpoint_manager f') = checkpoint_history (checkpoint_manager f) ->
  ordered track l0 f'.
Proof.
  intros Hinv Hsame. pose proof Hinv as (_ & _ & recs & its & Hh & _).
  eapply (ordered_close track d l0 b f f' _ []); try eassumption.
  - now rewrite Hsame, Hh, app_nil_r.
  - constructor.
  - constructor.
  - simpl. lia.
Qed.

(** A run from the locals start-up left, through the [try] block and its
    handlers. *)
Lemma guarded_ordered (track : bool) (d : string) (l0 : list pyval)
    (cfg : Config) (script : Script) (s : started)
    (f' : frame) (w w' : world text) (r : result unit) :
  (track = true -> counts_episodes (step script)) ->
  cm_checkpoint_dir (checkpoint_manager (locals s)) = d ->
  mt_checkpoint_dir (metrics_tracker (locals s)) = d ->
  checkpoint_history (checkpoint_manager (locals s)) = PList l0 ->
  iteration (locals s) = None ->
  (track = true -> exists t, total_episodes_completed (locals s) = PInt t) ->
  guarded cfg script s (locals s, w) = (r, (f', w')) ->
  ordered track l0 f'.
Proof.
  intros Hcount Hcd Hmd Hh Hunbound Ht Hg.
  unfold guarded, try_block, bind in Hg.
  destruct (train_loop cfg (step script)
              (Z.to_nat (training_iterations s + 1 - start_iteration s))
              (start_iteration s) (locals s, w)) as [r1 [f1 w1]] eqn:Hloop.
  pose proof (run_loop_inv track d l0 _ _ _ _ _ _ _ _ _ Hcount Hcd Hmd Hh Ht Hloop) as Hinv.
  destruct r1 as [[] | e | c]; [| | contradiction].
  - (* the loop ended: the final checkpoint *)
    destruct Hinv as [Hinv Hit].
    destruct (finish cfg (training_iterations s) (interrupt_at_end script) (f1, w1))
      as [r2 [f2 w2]] eqn:Hfin.
    destruct (finish_effect _ _ _ _ _ _ _ _ Hfin)
      as (Hcd2 & Hmd2 & Htot2 & Hit2 & [[-> Hsame] | [-> (l & ts & Hl & Hl')]]).
    + injection Hg as <- <- <-. eapply ordered_of_inv; eassumption.
    + destruct (interrupt_at_end script).
      * (* Ctrl-C after the final checkpoint *)
        destruct Hit as [Hit | Hit].
        -- rewrite on_interrupt_unbound in Hg by congruence.
           injection Hg as <- <- <-.
           eapply (ordered_close track d l0 _ f1 f2 l [_]); try eassumption.
           ++ repeat constructor.
           ++ repeat constructor.
           ++ simpl. lia.
        -- pose proof Hinv as (Hcd1 & Hmd1 & _).
           match type of Hl' with _ = PList (_ ++ [?x]) => set (final_record := x) in * end.
           destruct f2 as [[d2 h2] [md2 mh2] tot2 it2].
           cbn [checkpoint_manager metrics_tracker total_episodes_completed iteration
                cm_checkpoint_dir checkpoint_history mt_checkpoint_dir metrics_history] in *.
           subst d2 md2 it2 h2. rewrite Hcd1, Hmd1, Hit in Hg.
           destruct (on_interrupt_exact cfg (training_iterations s) d (l ++ [final_record])
                       mh2 tot2 w2) as (w3 & shown & Hint & _).
           cbv zeta in Hint. rewrite Hint in Hg. injection Hg as <- <- <-.
           eapply (ordered_close track d l0 _ f1 _ l [_; _]); try eassumption.
           ++ cbn [checkpoint_manager checkpoint_history]. now rewrite <- app_assoc.
           ++ repeat constructor.
           ++ repeat constructor. now rewrite <- Htot2.
           ++ simpl. lia.
      * injection Hg as <- <- <-.
        eapply (ordered_close track d l0 _ f1 f2 l [_]); try eassumption.
        -- repeat constructor.
        -- repeat constructor.
        -- simpl. lia.
  - destruct Hinv as (k & Hk & Hinv).
    assert (Hother : e <> KeyboardInterrupt ->
                     (r, (f', w')) = (Raise e, (f1, emit (TrainingError e) w1)))
      by (intros Hne; destruct e; congruence).
    destruct e; try (specialize (Hother ltac:(discriminate)); injection Hother as -> -> ->;
                     eapply ordered_of_inv; [eassumption | reflexivity]).
    (* Ctrl-C: the handler's checkpoint, at the iteration that was running *)
    clear Hother.
    pose proof Hinv as (Hcd1 & Hmd1 & recs & its & Hh1 & _).
    destruct f1 as [[d1 h1] [md1 mh1] tot1 it1].
    cbn [checkpoint_manager metrics_tracker total_episodes_completed iteration
         cm_checkpoint_dir checkpoint_history mt_checkpoint_dir metrics_history] in *.
    subst d1 md1 h1 it1.
    destruct (on_interrupt_exact cfg k d (l0 ++ recs) mh1 tot1 w1) as (w2 & shown & Hint & _).
    cbv zeta in Hint. rewrite Hint in Hg. injection Hg as <- <- <-.
    eapply (ordered_close track d l0 k _ _ (l0 ++ recs) [_]); try eassumption;
      try reflexivity.
    + repeat constructor.
    + repeat constructor.
    + simpl. lia.
Qed.

(** C1, as the code has it.  For a run, fresh or resumed, that starts with an
    index holding the list [l0]: the records the run appends are the periodic
    checkpoints of the loop followed by at most two closing ones (the forced
    final checkpoint, the interrupt checkpoint).  The ['iteration'] values of the
    periodic records strictly increase in insertion order, and over all the
    appended records they never decrease: a closing record may repeat the
    iteration of the record before it.  When the episode offset is an integer
    and the learner reports no negative episode count, the ['total_episodes']
    values of the appended records never decrease. *)
Theorem appended_records_ordered
    (cfg : Config) (restore : option string) (script : Script)
    (w w0 : world text) (s : started) (l0 : list pyval) :
  train_startup cfg restore w = (Ok s, w0) ->
  checkpoint_history (checkpoint_manager (locals s)) = PList l0 ->
  exists r f w' periodic closing its_p its_c,
    train cfg restore script w = (r, Some f, w')
    /\ checkpoint_history (checkpoint_manager f) = PList (l0 ++ periodic ++ closing)
    /\ iterations_of periodic = List.map PInt its_p
    /\ iterations_of closing = List.map PInt its_c
    /\ StronglySorted Z.lt its_p
    /\ StronglySorted Z.le (its_p ++ its_c)
    /\ (length closing <= 2)%nat
    /\ (counts_episodes (step script) ->
        (exists t, episode_offset s = PInt t) ->
        exists tots,
          totals_of (periodic ++ closing) = List.map PInt tots
          /\ StronglySorted Z.le tots).
Proof.
  intros Hs Hh.
  destruct (train_startup_inv _ _ _ _ _ Hs)
    as (cm & mt & w1 & w2 & w3 & Hcm & Hmt & _ & _ & Hl & _).
  assert (Hcd : cm_checkpoint_dir (checkpoint_manager (locals s)) = checkpoint_dir cfg).
  { rewrite Hl. simpl. eapply cm_init_dir; eassumption. }
  assert (Hmd : mt_checkpoint_dir (metrics_tracker (locals s)) = checkpoint_dir cfg).
  { rewrite Hl. simpl. destruct (mt_init_ok (checkpoint_dir cfg) w1) as (h & w4 & Hm & _).
    rewrite Hmt in Hm. now injection Hm as -> _. }
  assert (Htot : total_episodes_completed (locals s) = episode_offset s)
    by now rewrite Hl.
  assert (Hunbound : iteration (locals s) = None) by now rewrite Hl.
  unfold train. rewrite Hs.
  destruct (guarded cfg script s (locals s, w0)) as [r [f w']] eqn:Hg.
  destruct (guarded_ordered false _ l0 _ _ _ _ _ _ _ ltac:(discriminate) Hcd Hmd Hh Hunbound
              ltac:(discriminate) Hg)
    as (periodic & closing & its_p & its_c & Happ & Hp & Hc & Hlt & Hle & Hlen & _).
  exists r, f, (emit LearnerStopped w'), periodic, closing, its_p, its_c.
  repeat (split; [first [reflexivity | assumption] |]).
  intros Hcount [t Ht].
  destruct (guarded_ordered true _ l0 _ _ _ _ _ _ _ (fun _ => Hcount) Hcd Hmd Hh Hunbound
              (fun _ => ex_intro _ t (eq_trans Htot Ht)) Hg)
    as (periodic' & closing' & _ & _ & Happ' & _ & _ & _ & _ & _ & Htots).
  rewrite Happ in Happ'. injection Happ' as Happ'. apply app_inv_head in Happ'.
  rewrite Happ'. now apply Htots.
Qed.

End Runs.

Lemma steady_counts_episodes : counts_episodes (step steady).
Proof. intros i r b [= <- <-]. simpl. lia. Qed.

Lemma appended_records_ordered_witness :
  exists r f w' periodic closing its_p its_c tots,
    train demo_config None steady fresh_world = (r, Some f, w')
    /\ checkpoint_history (checkpoint_manager f) = PList ([] ++ periodic ++ closing)
    /\ iterations_of periodic = List.map PInt its_p
    /\ iterations_of closing = List.map PInt its_c
    /\ StronglySorted Z.lt its_p
    /\ StronglySorted Z.le (its_p ++ its_c)
    /\ totals_of (periodic ++ closing) = List.map PInt tots
    /\ StronglySorted Z.le tots.
Proof.
  assert (Hs : exists s w0, train_startup demo_config None fresh_world = (Ok s, w0)
                            /\ checkpoint_history (checkpoint_manager (locals s)) = PList []
                            /\ episode_offset s = PInt 0)
    by (eexists _, _; repeat split; reflexivity).
  destruct Hs as (s & w0 & Hs & Hh & Hoff).
  destruct (appended_records_ordered demo_config None steady fresh_world w0 s [] Hs Hh)
    as (r & f & w' & periodic & closing & its_p & its_c & Hrun & Happ & Hp & Hc & Hlt & Hle
        & _ & Htot).
  destruct (Htot steady_counts_episodes (ex_intro _ 0 Hoff)) as (tots & Htots & Hst).
  exists r, f, w', periodic, closing, its_p, its_c, tots. repeat split; assumption.
Defined.

(** C1 as stated fails: with [checkpoint_freq = 2] and four iterations, the
    periodic checkpoint of iteration 4 and the final checkpoint both record
    iteration 4. *)
Lemma final_checkpoint_repeats_iteration :
  fst (fst (train demo_config None steady fresh_world)) = Ok tt
  /\ iterations_of (run_index (train demo_config None steady fresh_world))
     = [PInt 2; PInt 4; PInt 4]
  /\ ~ StronglySorted Z.lt [2; 4; 4].
Proof.
  split; [vm_compute; reflexivity |].
  split; [vm_compute; reflexivity |].
  intros Hs. inversion Hs as [| ? ? Hs' _]. inversion Hs' as [| ? ? _ Hf].
  inversion Hf. lia.
Qed.

(** With Ctrl-C after the final checkpoint, iteration 4 is recorded three
    times: by the cadence, by the final checkpoint and by the handler. *)
Example late_interrupt_records :
  fst (fst (train demo_config None interrupted_at_end fresh_world)) = Ok tt
  /\ iterations_of (run_index (train demo_config None interrupted_at_end fresh_world))
     = [PInt 2; PInt 4; PInt 4; PInt 4]
  /\ totals_of (run_index (train demo_config None interrupted_at_end fresh_world))
     = [PInt 40; PInt 80; PInt 80; PInt 80].
Proof. repeat split; vm_compute; reflexivity. Qed.

(** ** Interruption and resumption *)

Section Interrupt.
Context {text : Type} `{!JsonCodec text}.




Lemma cm_init_saved_index (d : string) (l : list pyval) (rest : gmap string pyval)
    (w : world text) :
  fs w !! CM.index_file d = Some (json_dump (PDict (<["checkpoints" := PList l]> rest))) ->
  CM.init d w = (Ok {| cm_checkpoint_dir := d; checkpoint_history := PList l |},
                 emit (LoadedIndex (length l)) w).
Proof.
  intros Hf. unfold CM.init, CM._load_checkpoint_index.
  cbn [cm_checkpoint_dir checkpoint_history].
  rewrite Hf, json_load_dump. unfold Py.get. rewrite lookup_insert_eq. reflexivity.
Qed.


End Interrupt.


(** ** Runs nobody disturbs *)

Section Complete.
Context {text : Type} `{!JsonCodec text}.

Lemma truthy_snoc (l : list pyval) (x : pyval) : Py.truthy (PList (l ++ [x])) = true.
Proof. unfold Py.truthy. rewrite length_app. simpl. now rewrite Nat.add_1_r. Qed.





(** The block after the loop, exactly, when the index is a list and no Ctrl-C
    arrives: the final checkpoint, then the metrics file. *)
Lemma finish_exact (cfg : Config) (T : Z) (d : string) (l : list pyval) (mh tot : pyval)
    (it : option Z) (w : world text) :
  let path := Py.path_join d (CM.checkpoint_name T) in
  let record := CM.index_record T (CM.checkpoint_name T) (PStr (now w))
                  (Some (final_metrics tot)) in
  exists w2,
    finish cfg T false
      ({| checkpoint_manager := {| cm_checkpoint_dir := d; checkpoint_history := PList l |};
          metrics_tracker := {| mt_checkpoint_dir := d; metrics_history := mh |};
          total_episodes_completed := tot;
          iteration := it |}, w)
    = (Ok tt,
       ({| checkpoint_manager :=
             {| cm_checkpoint_dir := d; checkpoint_history := PList (l ++ [record]) |};
           metrics_tracker := {| mt_checkpoint_dir := d; metrics_history := mh |};
           total_episodes_completed := tot;
           iteration := it |}, w2))
    /\ fs w2 =
         <[MT.metrics_file d := json_dump mh]>
           (<[CM.index_file d :=
                json_dump (PDict (<["checkpoints" := PList (l ++ [record])]>
                                  (<["last_updated" := PStr (clock w (S (ticks w)))]> ∅)))]>
              (<[CM.metadata_file path :=
                   json_dump (PDict (final_metrics tot
                                     ∪ CM.base_metadata T (now w) path cfg))]> (fs w))).
Proof.
  cbv zeta.
  unfold finish, say, read_total, bind, with_mt, with_cm, ret,
    MT.save_metrics, MT.generate_plots, MT.print_summary.
  cbn [checkpoint_manager metrics_tracker total_episodes_completed iteration
       cm_checkpoint_dir checkpoint_history mt_checkpoint_dir metrics_history fst snd].
  rewrite save_checkpoint_list by apply given_final_metrics. cbv zeta.
  cbn [checkpoint_manager metrics_tracker total_episodes_completed iteration
       cm_checkpoint_dir checkpoint_history mt_checkpoint_dir metrics_history fst snd].
  destruct (negb (Py.truthy mh)) eqn:Ht;
    cbn [checkpoint_manager metrics_tracker total_episodes_completed iteration
         cm_checkpoint_dir checkpoint_history mt_checkpoint_dir metrics_history fst snd];
    rewrite ?Ht;
    eexists; (split; [reflexivity |]);
    unfold emit, write_file; cbn [fs console clock ticks]; reflexivity.
Qed.

(** The same block when Ctrl-C arrives once the final checkpoint is written:
    the metrics file is not reached. *)
Lemma finish_late_exact (cfg : Config) (T : Z) (d : string) (l : list pyval) (mh tot : pyval)
    (it : option Z) (w : world text) :
  let path := Py.path_join d (CM.checkpoint_name T) in
  let record := CM.index_record T (CM.checkpoint_name T) (PStr (now w))
                  (Some (final_metrics tot)) in
  exists w2,
    finish cfg T true
      ({| checkpoint_manager := {| cm_checkpoint_dir := d; checkpoint_history := PList l |};
          metrics_tracker := {| mt_checkpoint_dir := d; metrics_history := mh |};
          total_episodes_completed := tot;
          iteration := it |}, w)
    = (Raise KeyboardInterrupt,
       ({| checkpoint_manager :=
             {| cm_checkpoint_dir := d; checkpoint_history := PList (l ++ [record]) |};
           metrics_tracker := {| mt_checkpoint_dir := d; metrics_history := mh |};
           total_episodes_completed := tot;
           iteration := it |}, w2))
    /\ fs w2 =
         <[CM.index_file d :=
             json_dump (PDict (<["checkpoints" := PList (l ++ [record])]>
                               (<["last_updated" := PStr (clock w (S (ticks w)))]> ∅)))]>
           (<[CM.metadata_file path :=
                json_dump (PDict (final_metrics tot
                                  ∪ CM.base_metadata T (now w) path cfg))]> (fs w)).
Proof.
  cbv zeta.
  unfold finish, say, read_total, bind, with_mt, with_cm, ret, raise.
  cbn [checkpoint_manager metrics_tracker total_episodes_completed iteration
       cm_checkpoint_dir checkpoint_history mt_checkpoint_dir metrics_history fst snd].
  rewrite save_checkpoint_list by apply given_final_metrics. cbv zeta.
  cbn [checkpoint_manager metrics_tracker total_episodes_completed iteration
       cm_checkpoint_dir checkpoint_history mt_checkpoint_dir metrics_history fst snd].
  eexists; (split; [reflexivity |]).
  unfold emit, write_file; cbn [fs console clock ticks]; reflexivity.
Qed.

(** The locals that start-up leaves: both managers on the configured
    directory, the counter at the episode offset, the loop variable unbound. *)
Lemma startup_locals (cfg : Config) (restore : option string) (w w0 : world text)
    (s : started) :
  train_startup cfg restore w = (Ok s, w0) ->
  cm_checkpoint_dir (checkpoint_manager (locals s)) = checkpoint_dir cfg
  /\ mt_checkpoint_dir (metrics_tracker (locals s)) = checkpoint_dir cfg
  /\ total_episodes_completed (locals s) = episode_offset s
  /\ iteration (locals s) = None.
Proof.
  intros Hs.
  destruct (train_startup_inv _ _ _ _ _ Hs)
    as (cm & mt & w1 & w2 & w3 & Hcm & Hmt & _ & _ & Hl & _).
  rewrite Hl. cbn [checkpoint_manager metrics_tracker total_episodes_completed iteration].
  split; [eapply cm_init_dir; eassumption |].
  split; [| split; reflexivity].
  destruct (mt_init_ok (checkpoint_dir cfg) w1) as (h & w4 & Hm & _).
  rewrite Hmt in Hm. now injection Hm as -> _.
Qed.





End Complete.




(** ** What a normal return leaves on disk *)

Section Persisted.
Context {text : Type} `{!JsonCodec text}.

Lemma loop_inv_shape (d : string) (l0 : list pyval) (b : Z) (f : frame) :
  loop_inv false d l0 b f ->
  exists l mh tot it,
    f = {| checkpoint_manager := {| cm_checkpoint_dir := d; checkpoint_history := PList l |};
           metrics_tracker := {| mt_checkpoint_dir := d; metrics_history := mh |};
           total_episodes_completed := tot;
           iteration := it |}.
Proof.
  intros (Hcd & Hmd & recs & its & Hh & _).
  destruct f as [[d1 h1] [md1 mh1] tot1 it1].
  cbn [checkpoint_manager metrics_tracker cm_checkpoint_dir checkpoint_history
       mt_checkpoint_dir] in *.
  subst. eauto.
Qed.

(** Every way [train] has of returning normally ends with the index file and
    then the metrics file written from memory. *)
Lemma guarded_persisted (d : string) (l0 : list pyval)
    (cfg : Config) (script : Script) (s : started) (f' : frame) (w w' : world text) :
  cm_checkpoint_dir (checkpoint_manager (locals s)) = d ->
  mt_checkpoint_dir (metrics_tracker (locals s)) = d ->
  checkpoint_history (checkpoint_manager (locals s)) = PList l0 ->
  iteration (locals s) = None ->
  guarded cfg script s (locals s, w) = (Ok tt, (f', w')) ->
  exists l rest,
    checkpoint_manager f' = {| cm_checkpoint_dir := d; checkpoint_history := PList l |}
    /\ mt_checkpoint_dir (metrics_tracker f') = d
    /\ fs w' !! CM.index_file d = Some (json_dump (PDict (<["checkpoints" := PList l]> rest)))
    /\ fs w' !! MT.metrics_file d = Some (json_dump (metrics_history (metrics_tracker f'))).
Proof.
  intros Hcd Hmd Hh Hunbound Hg.
  unfold guarded, try_block, bind in Hg.
  destruct (train_loop cfg (step script)
              (Z.to_nat (training_iterations s + 1 - start_iteration s))
              (start_iteration s) (locals s, w)) as [r1 [f1 w1]] eqn:Hloop.
  pose proof (run_loop_inv false d l0 _ _ _ _ _ _ _ _ _ ltac:(discriminate) Hcd Hmd Hh
                ltac:(discriminate) Hloop) as Hinv.
  destruct r1 as [[] | e | c]; [| | contradiction].
  - destruct Hinv as [Hinv Hit].
    destruct (loop_inv_shape _ _ _ _ Hinv) as (l & mh & tot & it & ->).
    cbn [iteration] in Hit.
    destruct (interrupt_at_end script).
    + destruct (finish_late_exact cfg (training_iterations s) d l mh tot it w1)
        as (w2 & Hfin & _).
      cbv zeta in Hfin. rewrite Hfin in Hg.
      destruct Hit as [-> | ->].
      * rewrite Hunbound in Hg. rewrite on_interrupt_unbound in Hg by reflexivity.
        discriminate Hg.
      * match type of Hg with
        | on_interrupt _ ({| checkpoint_manager := {| checkpoint_history := PList ?x |} |}, _)
          = _ => destruct (on_interrupt_exact cfg (training_iterations s) d x mh tot w2)
                   as (w3 & shown & Hint & Hfs & _)
        end.
        cbv zeta in Hint, Hfs. rewrite Hint in Hg. injection Hg as <- <-.
        eexists _, _. split; [reflexivity |]. split; [reflexivity |].
        rewrite Hfs. split.
        -- rewrite lookup_insert_ne by (apply not_eq_sym, index_not_metrics).
           apply lookup_insert_eq.
        -- apply lookup_insert_eq.
    + destruct (finish_exact cfg (training_iterations s) d l mh tot it w1)
        as (w2 & Hfin & Hfs).
      cbv zeta in Hfin, Hfs. rewrite Hfin in Hg. injection Hg as <- <-.
      eexists _, _. split; [reflexivity |]. split; [reflexivity |].
      rewrite Hfs. split.
      * rewrite lookup_insert_ne by (apply not_eq_sym, index_not_metrics).
        apply lookup_insert_eq.
      * apply lookup_insert_eq.
  - destruct Hinv as (k & Hk & Hinv).
    destruct e; try discriminate Hg.
    destruct (loop_inv_shape _ _ _ _ Hinv) as (l & mh & tot & it & ->).
    cbn [iteration] in Hk. subst it.
    destruct (on_interrupt_exact cfg k d l mh tot w1) as (w3 & shown & Hint & Hfs & _).
    cbv zeta in Hint, Hfs. rewrite Hint in Hg. injection Hg as <- <-.
    eexists _, _. split; [reflexivity |]. split; [reflexivity |].
    rewrite Hfs. split.
    + rewrite lookup_insert_ne by (apply not_eq_sym, index_not_metrics).
      apply lookup_insert_eq.
    + apply lookup_insert_eq.
Qed.

(** A restart sees what a normal return left.  Whenever [train] returns
    normally (its loop completed, or interrupted by Ctrl-C and saved by the
    handler), a new [CheckpointManager] and a new [MetricsTracker] built on the
    configured directory load exactly the index and the metrics history that
    the run had in memory when it returned. *)
Theorem normal_return_is_reloaded
    (cfg : Config) (restore : option string) (script : Script)
    (w w0 w' : world text) (s : started) (l0 : list pyval) (f : frame) :
  train_startup cfg restore w = (Ok s, w0) ->
  checkpoint_history (checkpoint_manager (locals s)) = PList l0 ->
  train cfg restore script w = (Ok tt, Some f, w') ->
  exists w1 w2,
    CM.init (checkpoint_dir cfg) w' = (Ok (checkpoint_manager f), w1)
    /\ MT.init (checkpoint_dir cfg) w' = (Ok (metrics_tracker f), w2).
Proof.
  intros Hs Hl Htrain.
  destruct (startup_locals _ _ _ _ _ Hs) as (Hcd & Hmd & _ & Hit).
  unfold train in Htrain. rewrite Hs in Htrain.
  destruct (guarded cfg script s (locals s, w0)) as [r [f1 w1]] eqn:Hg.
  injection Htrain as -> -> <-.
  destruct (guarded_persisted _ _ _ _ _ _ _ _ Hcd Hmd Hl Hit Hg)
    as (l & rest & Hcm & Hmtd & Hindex & Hmetrics).
  change (fs (emit LearnerStopped w1)) with (fs w1) in *.
  assert (Hmt : exists w2, MT.init (checkpoint_dir cfg) (emit LearnerStopped w1)
                           = (Ok (metrics_tracker f), w2)).
  { unfold MT.init, MT._load_existing_metrics.
    cbn [mt_checkpoint_dir metrics_history].
    change (fs (emit LearnerStopped w1)) with (fs w1).
    rewrite Hmetrics, json_load_dump.
    destruct (metrics_tracker f) as [md mh]. cbn [mt_checkpoint_dir metrics_history] in *.
    subst md. destruct (Py.len mh); eexists; reflexivity. }
  destruct Hmt as [w2 Hmt].
  eexists _, w2. split; [| exact Hmt].
  rewrite Hcm. eapply cm_init_saved_index. exact Hindex.
Qed.

End Persisted.

Lemma normal_return_is_reloaded_witness :
  exists f w' w1 w2,
    train demo_config None interrupted_at_three fresh_world = (Ok tt, Some f, w')
    /\ CM.init (checkpoint_dir demo_config) w' = (Ok (checkpoint_manager f), w1)
    /\ MT.init (checkpoint_dir demo_config) w' = (Ok (metrics_tracker f), w2).
Proof.
  assert (Hr : fst (fst (train demo_config None interrupted_at_three fresh_world)) = Ok tt)
    by (vm_compute; reflexivity).
  assert (Hf : match snd (fst (train demo_config None interrupted_at_three fresh_world)) with
               | Some _ => True
               | None => False
               end) by (vm_compute; exact I).
  destruct (train demo_config None interrupted_at_three fresh_world) as [[r [f |]] w']
    eqn:Hrun; [| contradiction].
  cbn [fst snd] in Hr. subst r.
  edestruct (normal_return_is_reloaded demo_config None interrupted_at_three fresh_world)
    as (w1 & w2 & Hcm & Hmt).
  - reflexivity.
  - reflexivity.
  - exact Hrun.
  - exists f, w', w1, w2. repeat split; assumption.
Defined.

(** ** Resumes that are refused or fail *)

Section Refused.
Context {text : Type} `{!JsonCodec text}.

(** Start-up as far as the restore block, for a run given a checkpoint. *)
Lemma startup_reaches_restore (cfg : Config) (restore : option string) (p : string)
    (w w1 : world text) (cm : CheckpointManager) (epi T : Z) :
  supplied restore = Some p ->
  CM.init (checkpoint_dir cfg) w = (Ok cm, w1) ->
  iteration_budget cfg = Ok (epi, T) ->
  exists w2,
    fs w2 = fs w
    /\ (forall e w3, restore_block cfg epi p w2 = (Raise e, w3) ->
                     train_startup cfg restore w = (Raise e, w3))
    /\ (forall c w3, restore_block cfg epi p w2 = (Exit c, w3) ->
                     train_startup cfg restore w = (Exit c, w3)).
Proof.
  intros Hp Hcm Hb.
  destruct (mt_init_ok (checkpoint_dir cfg) w1) as (h & w2 & Hmt & Hfs).
  exists w2. split.
  - rewrite Hfs. pose proof (cm_init_fs (checkpoint_dir cfg) w) as H1.
    now rewrite Hcm in H1.
  - split; intros x w3 Hr; unfold train_startup, bind, lift_result;
      now rewrite Hcm, Hmt, Hb, Hp, Hr.
Qed.

Lemma validate_fs (v : pyval) (cfg : Config) (w : world text) :
  fs (snd (validate_checkpoint_config v cfg w)) = fs w.
Proof.
  unfold validate_checkpoint_config. repeat case_match; reflexivity.
Qed.

(** A refused resume changes nothing.  When the checkpoint's metadata carries
    an observation size or an action size that is truthy and differs from the
    live one, [train] ends in [sys.exit(1)] before the learner is built: it
    has no locals, the last thing on the console is the list of issues, which
    is not empty, and no file was written. *)
Theorem refused_resume_changes_nothing
    (cfg : Config) (restore : option string) (script : Script) (p : string)
    (w w1 : world text) (cm : CheckpointManager) (epi T : Z)
    (content : text) (md : gmap string pyval) :
  supplied restore = Some p ->
  CM.init (checkpoint_dir cfg) w = (Ok cm, w1) ->
  iteration_budget cfg = Ok (epi, T) ->
  fs w !! CM.metadata_file p = Some content ->
  json_load content = Some (PDict md) ->
  changed (Py.get md "observation_size" PNone) (observation_size cfg) = true \/
  changed (Py.get md "action_size" PNone) 7 = true ->
  exists w' shown issues,
    train cfg restore script w = (Exit 1, None, w')
    /\ fs w' = fs w
    /\ console w' = shown ++ [Incompatible issues]
    /\ issues <> [].
Proof.
  intros Hp Hcm Hb Hfile Hload Hc.
  destruct (startup_reaches_restore _ _ _ _ _ _ _ _ Hp Hcm Hb) as (w2 & Hfs & _ & Hexit).
  assert (Ht : Py.truthy (PDict md) = true)
    by (destruct Hc as [Hc | Hc]; eapply changed_present; eassumption).
  assert (Hr : exists w3 shown issues,
             restore_block cfg epi p w2 = (Exit 1, w3)
             /\ fs w3 = fs w /\ console w3 = shown ++ [Incompatible issues] /\ issues <> []).
  { unfold restore_block, CM.get_checkpoint_metadata. cbv zeta.
    change (fs (emit RestoringBanner w2)) with (fs w2).
    rewrite Hfs, Hfile, Hload.
    pose proof (validate_fs (PDict md) cfg (emit RestoringBanner w2)) as Hvfs.
    unfold validate_checkpoint_config in *. rewrite Ht in *. cbv zeta in *.
    cbn [negb] in *. cbv iota in *.
    destruct (changed (Py.get md "observation_size" PNone) (observation_size cfg)) eqn:Ho;
      destruct (changed (Py.get md "action_size" PNone) 7) eqn:Ha;
      try (destruct Hc; discriminate);
      cbn [app length Nat.eqb negb snd] in *;
      eexists _, _, _; (split; [reflexivity |]);
      (split; [change (fs (emit ?e ?x)) with (fs x); rewrite Hvfs; exact Hfs |]);
      (split; [reflexivity | discriminate]). }
  destruct Hr as (w3 & shown & issues & Hr & Hfs3 & Hcon & Hne).
  exists w3, shown, issues.
  split; [unfold train; now rewrite (Hexit _ _ Hr) |].
  repeat split; assumption.
Qed.

(** A metadata file that holds no JSON object is fatal.  When the checkpoint's
    [metadata.json] does not parse, [train] raises [JSONDecodeError]; when it
    parses to a value that is not an object ([null], a list, a number, a
    string), [train] raises [AttributeError].  Either way the exception leaves
    [train] before the learner is built, and no file was written. *)
Theorem unusable_metadata_is_fatal
    (cfg : Config) (restore : option string) (script : Script) (p : string)
    (w w1 : world text) (cm : CheckpointManager) (epi T : Z) (content : text) :
  supplied restore = Some p ->
  CM.init (checkpoint_dir cfg) w = (Ok cm, w1) ->
  iteration_budget cfg = Ok (epi, T) ->
  fs w !! CM.metadata_file p = Some content ->
  match json_load content with Some (PDict _) => False | _ => True end ->
  exists w',
    train cfg restore script w
    = (Raise (match json_load content with
              | None => JSONDecodeError
              | Some _ => AttributeError
              end), None, w')
    /\ fs w' = fs w.
Proof.
  intros Hp Hcm Hb Hfile Hbad.
  destruct (startup_reaches_restore _ _ _ _ _ _ _ _ Hp Hcm Hb) as (w2 & Hfs & Hraise & _).
  assert (Hr : exists w3,
             restore_block cfg epi p w2
             = (Raise (match json_load content with
                       | None => JSONDecodeError
                       | Some _ => AttributeError
                       end), w3)
             /\ fs w3 = fs w).
  { unfold restore_block, CM.get_checkpoint_metadata. cbv zeta.
    change (fs (emit RestoringBanner w2)) with (fs w2).
    rewrite Hfs, Hfile.
    destruct (json_load content) as [v |]; [| eexists; split; [reflexivity | exact Hfs]].
    pose proof (validate_fs v cfg (emit RestoringBanner w2)) as Hvfs.
    change (fs (emit RestoringBanner w2)) with (fs w2) in Hvfs. rewrite Hfs in Hvfs.
    unfold validate_checkpoint_config in *.
    destruct v; try contradiction;
      destruct (negb (Py.truthy _)); cbn [negb snd] in *;
      eexists; (split; [reflexivity | exact Hvfs]). }
  destruct Hr as (w3 & Hr & Hfs3).
  exists w3. split; [unfold train; now rewrite (Hraise _ _ Hr) | exact Hfs3].
Qed.

End Refused.

(** A checkpoint recorded with an observation size of 32, offered to the
    configuration whose observation size is 64. *)
Lemma refused_resume_changes_nothing_witness :
  let w : world denoted :=
    {| fs := {[ CM.metadata_file "./checkpoints/checkpoint_000004" :=
                  Document (PDict (<["observation_size" := PInt 32]>
                                     zero_observation_metadata)) ]};
       console := []; clock := fun _ => "t"; ticks := O |} in
  exists w' shown issues,
    train demo_config (Some "./checkpoints/checkpoint_000004") steady w = (Exit 1, None, w')
    /\ fs w' = fs w
    /\ console w' = shown ++ [Incompatible issues]
    /\ issues <> [].
Proof.
  cbv zeta.
  eapply (refused_resume_changes_nothing demo_config (Some "./checkpoints/checkpoint_000004")
            steady "./checkpoints/checkpoint_000004").
  - reflexivity.
  - reflexivity.
  - reflexivity.
  - reflexivity.
  - reflexivity.
  - left. reflexivity.
Defined.

(** A checkpoint whose metadata file was cut short. *)
Lemma unusable_metadata_is_fatal_witness :
  let w : world denoted :=
    {| fs := {[ CM.metadata_file "./checkpoints/checkpoint_000004" :=
                  Garbled "{ iteration: 4," ]};
       console := []; clock := fun _ => "t"; ticks := O |} in
  exists w',
    train demo_config (Some "./checkpoints/checkpoint_000004") steady w
    = (Raise JSONDecodeError, None, w')
    /\ fs w' = fs w.
Proof.
  intros w.
  exact (unusable_metadata_is_fatal demo_config (Some "./checkpoints/checkpoint_000004")
           steady "./checkpoints/checkpoint_000004" w _ _ _ _ (Garbled "{ iteration: 4,")
           eq_refl eq_refl eq_refl eq_refl I).
Defined.

(** ** Runs that end early *)

Section Failures.
Context {text : Type} `{!JsonCodec text}.

Lemma restore_block_fs (cfg : Config) (epi : Z) (p : string) (w : world text) :
  fs (snd (restore_block cfg epi p w)) = fs w.
Proof.
  unfold restore_block, CM.get_checkpoint_metadata. cbv zeta.
  change (fs (emit RestoringBanner w)) with (fs w).
  destruct (fs w !! CM.metadata_file p) as [content |]; [destruct (json_load content) |];
    try reflexivity;
    match goal with
    | |- context [validate_checkpoint_config ?v cfg ?w1] =>
        pose proof (validate_fs v cfg w1) as Hv;
        destruct (validate_checkpoint_config v cfg w1) as [[[ok issues] | e | c] w2]
    end; cbn [snd] in *; try exact Hv;
    repeat case_match; cbn [snd]; try exact Hv;
    change (fs (emit ?e ?x)) with (fs x); exact Hv.
Qed.

(** Start-up reads and prints; it writes no file. *)
Lemma train_startup_fs (cfg : Config) (restore : option string) (w : world text) :
  fs (snd (train_startup cfg restore w)) = fs w.
Proof.
  unfold train_startup, bind, lift_result, ret, create_ppo_trainer.
  pose proof (cm_init_fs (checkpoint_dir cfg) w) as H1.
  destruct (CM.init (checkpoint_dir cfg) w) as [[cm | e | c] w1]; cbn [snd] in *;
    try exact H1.
  pose proof (mt_init_fs (checkpoint_dir cfg) w1) as H2.
  destruct (MT.init (checkpoint_dir cfg) w1) as [[mt | e | c] w2]; cbn [snd] in *;
    try congruence.
  destruct (iteration_budget cfg) as [[epi T] | e | c]; cbn [snd]; try congruence.
  destruct (supplied restore) as [p |].
  - pose proof (restore_block_fs cfg epi p w2) as H3.
    destruct (restore_block cfg epi p w2) as [[[off start] | e | c] w3]; cbn [snd] in *;
      try congruence.
    change (fs (emit ?e ?x)) with (fs x). change (fs (emit ?e ?x)) with (fs x). congruence.
  - cbn [snd]. change (fs (emit ?e ?x)) with (fs x). congruence.
Qed.

(** [for iteration in range(i, i + n + m)] is the loop over the first [n]
    iterations followed by the loop over the other [m]. *)
Lemma train_loop_app (cfg : Config) (script : Z -> step_event) (m : nat) :
  forall (n : nat) (i : Z) (st : frame * world text),
    train_loop cfg script (n + m) i st
    = match train_loop cfg script n i st with
      | (Ok _, st') => train_loop cfg script m (i + Z.of_nat n) st'
      | (Raise e, st') => (Raise e, st')
      | (Exit c, st') => (Exit c, st')
      end.
Proof.
  induction n as [| n IH]; intros i st.
  - cbn [Nat.add train_loop]. unfold ret. now rewrite Z.add_0_r.
  - cbn [Nat.add train_loop]. unfold bind.
    destruct (loop_body cfg script i st) as [[[] | e | c] st1]; try reflexivity.
    rewrite IH. now replace (i + 1 + Z.of_nat n) with (i + Z.of_nat (S n)) by lia.
Qed.

(** An exception of the learner is reported and raised again.  When the first
    [n] iterations of a run have completed and the next step of the learner
    raises, [train] ends with that exception; its handler only prints: the
    index, the metrics history, the episode counter and every file are as the
    completed iterations left them, and the learner is stopped. *)
Theorem learner_error_is_reraised
    (cfg : Config) (restore : option string) (script : Script)
    (w w0 w1 : world text) (s : started) (n : nat) (f1 : frame) :
  train_startup cfg restore w = (Ok s, w0) ->
  start_iteration s + Z.of_nat n <= training_iterations s ->
  train_loop cfg (step script) n (start_iteration s) (locals s, w0) = (Ok tt, (f1, w1)) ->
  step script (start_iteration s + Z.of_nat n) = StepRaises ->
  exists f w',
    train cfg restore script w = (Raise LearnerError, Some f, w')
    /\ checkpoint_manager f = checkpoint_manager f1
    /\ metrics_tracker f = metrics_tracker f1
    /\ total_episodes_completed f = total_episodes_completed f1
    /\ iteration f = Some (start_iteration s + Z.of_nat n)
    /\ fs w' = fs w1
    /\ console w' = console w1 ++ [TrainingError LearnerError; LearnerStopped].
Proof.
  intros Hs Hle Hloop Hstep.
  set (k := start_iteration s + Z.of_nat n) in *.
  assert (Hn : Z.to_nat (training_iterations s + 1 - start_iteration s)
               = (n + S (Z.to_nat (training_iterations s - k)))%nat) by lia.
  unfold train. rewrite Hs. unfold guarded, try_block, bind.
  rewrite Hn, train_loop_app, Hloop. fold k.
  cbn [train_loop]. unfold bind, loop_body, bind_iteration, bind, raise.
  destruct f1 as [cm mt tot it]. rewrite Hstep.
  cbn [checkpoint_manager metrics_tracker total_episodes_completed iteration].
  eexists _, _. split; [reflexivity |].
  repeat split. unfold emit. cbn [console]. now rewrite <- app_assoc.
Qed.

(** The first iteration of a run that has one. *)
Lemma try_block_first (cfg : Config) (script : Script) (s : started) (st : frame * world text) :
  start_iteration s <= training_iterations s ->
  forall e st',
    loop_body cfg (step script) (start_iteration s) st = (Raise e, st') ->
    try_block cfg script s st = (Raise e, st').
Proof.
  intros Hle e st' Hbody. unfold try_block, bind.
  assert (Hn : Z.to_nat (training_iterations s + 1 - start_iteration s)
               = S (Z.to_nat (training_iterations s - start_iteration s))) by lia.
  rewrite Hn. cbn [train_loop]. unfold bind. now rewrite Hbody.
Qed.

(** A cadence of zero is a division by zero.  With [checkpoint_freq: 0] or
    [log_frequency: 0] in the configuration, the first iteration of a run
    whose learner steps normally raises [ZeroDivisionError] once its metrics
    record is in memory; [train] ends with that exception, the index is as
    start-up loaded it and no file was written. *)
Theorem zero_cadence_raises
    (cfg : Config) (restore : option string) (script : Script)
    (w w0 : world text) (s : started) (m0 : list pyval) (t0 : Z)
    (r : IterationResult) (b : bool) :
  train_startup cfg restore w = (Ok s, w0) ->
  metrics_history (metrics_tracker (locals s)) = PList m0 ->
  episode_offset s = PInt t0 ->
  start_iteration s <= training_iterations s ->
  step script (start_iteration s) = StepOk r b ->
  log_freq cfg = 0 \/ checkpoint_freq cfg = 0 ->
  exists f w' record,
    train cfg restore script w = (Raise ZeroDivisionError, Some f, w')
    /\ checkpoint_history (checkpoint_manager f)
       = checkpoint_history (checkpoint_manager (locals s))
    /\ metrics_history (metrics_tracker f) = PList (m0 ++ [record])
    /\ field "iteration" record = PInt (start_iteration s)
    /\ fs w' = fs w.
Proof.
  intros Hs Hm Ht Hle Hstep Hzero.
  destruct (startup_locals _ _ _ _ _ Hs) as (_ & _ & Htot & _).
  pose proof (train_startup_fs cfg restore w) as Hfs. rewrite Hs in Hfs. cbn [snd] in Hfs.
  rewrite Ht in Htot.
  destruct (locals s) as [cm [md mh] tot it] eqn:Hl.
  cbn [metrics_tracker metrics_history total_episodes_completed checkpoint_manager] in *.
  subst mh tot.
  set (e := default 0 (episodes_this_iter r)).
  set (record := MT.metrics_record r (start_iteration s) (now w0) e (PInt (t0 + e))
                   (max_steps cfg)).
  assert (Hbody : exists w1,
             loop_body cfg (step script) (start_iteration s)
               ({| checkpoint_manager := cm;
                   metrics_tracker := {| mt_checkpoint_dir := md; metrics_history := PList m0 |};
                   total_episodes_completed := PInt t0;
                   iteration := it |}, w0)
             = (Raise ZeroDivisionError,
                ({| checkpoint_manager := cm;
                    metrics_tracker :=
                      {| mt_checkpoint_dir := md; metrics_history := PList (m0 ++ [record]) |};
                    total_episodes_completed := PInt (t0 + e);
                    iteration := Some (start_iteration s) |}, w1))
             /\ fs w1 = fs w0).
  { unfold loop_body, bind, bind_iteration, add_episodes, with_mt, lift_result, pymod,
      raise, ret, MT.extract_metrics, MT.log_progress.
    rewrite Hstep. fold e.
    cbn [checkpoint_manager metrics_tracker total_episodes_completed iteration
         mt_checkpoint_dir metrics_history fst snd].
    change (Py.add_int (PInt t0) e) with (Ok (PInt (t0 + e))). cbv iota beta.
    cbn [checkpoint_manager metrics_tracker total_episodes_completed iteration
         mt_checkpoint_dir metrics_history fst snd].
    unfold Py.append. cbv iota beta.
    cbn [checkpoint_manager metrics_tracker total_episodes_completed iteration
         mt_checkpoint_dir metrics_history fst snd].
    destruct (Z.eqb_spec (log_freq cfg) 0) as [Hl0 | Hl0].
    - eexists. split; reflexivity.
    - destruct Hzero as [Hz | Hz]; [contradiction |]. rewrite Hz. cbn [Z.eqb].
      destruct (start_iteration s mod log_freq cfg =? 0);
        cbn [checkpoint_manager metrics_tracker total_episodes_completed iteration
             mt_checkpoint_dir metrics_history fst snd];
        eexists; split; reflexivity. }
  destruct Hbody as (w1 & Hbody & Hfs1).
  unfold train. rewrite Hs, Hl. unfold guarded.
  rewrite (try_block_first cfg script s _ Hle _ _ Hbody).
  eexists _, _, record. split; [reflexivity |].
  cbn [checkpoint_manager metrics_tracker metrics_history].
  split; [reflexivity |]. split; [reflexivity |]. split; [reflexivity |].
  change (fs (emit ?x ?y)) with (fs y). change (fs (emit ?x ?y)) with (fs y). congruence.
Qed.

(** A metrics file that holds no JSON array breaks the first iteration.  When
    [metrics_history.json] parses to a value that is not a list, start-up goes
    through (the tracker keeps that value as its history), and the first
    iteration whose step returns raises [AttributeError] when it appends its
    record; [train] ends with that exception and no file was written. *)
Theorem non_list_metrics_file_breaks_training
    (cfg : Config) (restore : option string) (script : Script)
    (w w0 : world text) (s : started) (content : text) (v : pyval) (t0 : Z)
    (r : IterationResult) (b : bool) :
  train_startup cfg restore w = (Ok s, w0) ->
  fs w !! MT.metrics_file (checkpoint_dir cfg) = Some content ->
  json_load content = Some v ->
  match v with PList _ => False | _ => True end ->
  episode_offset s = PInt t0 ->
  start_iteration s <= training_iterations s ->
  step script (start_iteration s) = StepOk r b ->
  exists f w',
    train cfg restore script w = (Raise AttributeError, Some f, w')
    /\ metrics_history (metrics_tracker f) = v
    /\ fs w' = fs w.
Proof.
  intros Hs Hfile Hload Hv Ht Hle Hstep.
  destruct (startup_locals _ _ _ _ _ Hs) as (_ & _ & Htot & _).
  pose proof (train_startup_fs cfg restore w) as Hfs. rewrite Hs in Hfs. cbn [snd] in Hfs.
  rewrite Ht in Htot.
  assert (Hmh : metrics_history (metrics_tracker (locals s)) = v).
  { destruct (train_startup_inv _ _ _ _ _ Hs)
      as (cm & mt & w1 & w2 & w3 & Hcm & Hmt & _ & _ & Hl & _).
    rewrite Hl. cbn [metrics_tracker].
    pose proof (cm_init_fs (checkpoint_dir cfg) w) as H1. rewrite Hcm in H1. cbn [snd] in H1.
    unfold MT.init, MT._load_existing_metrics in Hmt.
    cbn [mt_checkpoint_dir metrics_history] in Hmt.
    rewrite H1, Hfile, Hload in Hmt.
    destruct (Py.len v); injection Hmt as <- _; reflexivity. }
  destruct (locals s) as [cm [md mh] tot it] eqn:Hl.
  cbn [metrics_tracker metrics_history total_episodes_completed checkpoint_manager] in *.
  subst mh tot.
  set (e := default 0 (episodes_this_iter r)).
  assert (Hbody :
             loop_body cfg (step script) (start_iteration s)
               ({| checkpoint_manager := cm;
                   metrics_tracker := {| mt_checkpoint_dir := md; metrics_history := v |};
                   total_episodes_completed := PInt t0;
                   iteration := it |}, w0)
             = (Raise AttributeError,
                ({| checkpoint_manager := cm;
                    metrics_tracker := {| mt_checkpoint_dir := md; metrics_history := v |};
                    total_episodes_completed := PInt (t0 + e);
                    iteration := Some (start_iteration s) |}, tick w0))).
  { unfold loop_body, bind, bind_iteration, add_episodes, with_mt, MT.extract_metrics.
    rewrite Hstep. fold e.
    cbn [checkpoint_manager metrics_tracker total_episodes_completed iteration
         mt_checkpoint_dir metrics_history fst snd].
    change (Py.add_int (PInt t0) e) with (Ok (PInt (t0 + e))). cbv iota beta.
    cbn [checkpoint_manager metrics_tracker total_episodes_completed iteration
         mt_checkpoint_dir metrics_history fst snd].
    destruct v; try contradiction; reflexivity. }
  unfold train. rewrite Hs, Hl. unfold guarded.
  rewrite (try_block_first cfg script s _ Hle _ _ Hbody).
  eexists _, _. split; [reflexivity |].
  cbn [metrics_tracker metrics_history]. split; [reflexivity |].
  change (fs (emit ?x ?y)) with (fs y). change (fs (emit ?x ?y)) with (fs y).
  change (fs (tick w0)) with (fs w0). exact Hfs.
Qed.

End Failures.

Lemma demo_startup :
  train_startup demo_config None fresh_world
  = (Ok demo_started, emit (TrainingConfiguration 4 1 20 (PInt 0)) fresh_world).
Proof. reflexivity. Qed.

Lemma learner_error_is_reraised_witness :
  exists f w' shown,
    train demo_config None failing_at_three fresh_world = (Raise LearnerError, Some f, w')
    /\ iteration f = Some 3
    /\ console w' = shown ++ [TrainingError LearnerError; LearnerStopped].
Proof.
  remember (train_loop demo_config (step failing_at_three) 2 (start_iteration demo_started)
              (locals demo_started, emit (TrainingConfiguration 4 1 20 (PInt 0)) fresh_world))
    as X eqn:HX.
  assert (Hok : fst X = Ok tt) by (subst X; vm_compute; reflexivity).
  destruct X as [r1 [f1 w1]]. cbn [fst] in Hok. subst r1. symmetry in HX.
  destruct (learner_error_is_reraised demo_config None failing_at_three fresh_world
              _ w1 demo_started 2%nat f1 demo_startup)
    as (f & w' & Hrun & _ & _ & _ & Hit & _ & Hcon).
  - apply Z.leb_le. reflexivity.
  - exact HX.
  - reflexivity.
  - exists f, w'. eexists. split; [exact Hrun |]. split; [exact Hit | exact Hcon].
Defined.

Lemma zero_cadence_raises_witness :
  exists f w' record,
    train zero_freq_config None steady fresh_world = (Raise ZeroDivisionError, Some f, w')
    /\ metrics_history (metrics_tracker f) = PList ([] ++ [record])
    /\ fs w' = fs fresh_world.
Proof.
  edestruct (zero_cadence_raises zero_freq_config None steady fresh_world)
    as (f & w' & record & Hrun & _ & Hm & _ & Hfs).
  - reflexivity.
  - reflexivity.
  - reflexivity.
  - apply Z.leb_le. reflexivity.
  - reflexivity.
  - right. reflexivity.
  - exists f, w', record. repeat split; assumption.
Defined.

Lemma non_list_metrics_file_breaks_training_witness :
  exists f w',
    train demo_config None steady object_metrics_world = (Raise AttributeError, Some f, w')
    /\ metrics_history (metrics_tracker f) = PDict ∅
    /\ fs w' = fs object_metrics_world.
Proof.
  edestruct (non_list_metrics_file_breaks_training demo_config None steady
               object_metrics_world)
    as (f & w' & Hrun & Hm & Hfs).
  - reflexivity.
  - reflexivity.
  - reflexivity.
  - exact I.
  - reflexivity.
  - apply Z.leb_le. reflexivity.
  - reflexivity.
  - exists f, w'. repeat split; assumption.
Defined.

(** ** Runs with no iteration left *)

Section Finished.
Context {text : Type} `{!JsonCodec text}.

Lemma startup_shape (cfg : Config) (restore : option string) (w w0 : world text)
    (s : started) (l0 : list pyval) :
  train_startup cfg restore w = (Ok s, w0) ->
  checkpoint_history (checkpoint_manager (locals s)) = PList l0 ->
  locals s
  = {| checkpoint_manager :=
         {| cm_checkpoint_dir := checkpoint_dir cfg; checkpoint_history := PList l0 |};
       metrics_tracker :=
         {| mt_checkpoint_dir := checkpoint_dir cfg;
            metrics_history := metrics_history (metrics_tracker (locals s)) |};
       total_episodes_completed := episode_offset s;
       iteration := None |}.
Proof.
  intros Hs Hl. destruct (startup_locals _ _ _ _ _ Hs) as (Hcd & Hmd & Htot & Hit).
  destruct (locals s) as [[d h] [md mh] tot it].
  cbn [checkpoint_manager metrics_tracker total_episodes_completed iteration
       cm_checkpoint_dir checkpoint_history mt_checkpoint_dir metrics_history] in *.
  congruence.
Qed.


(** Ctrl-C after the final checkpoint of such a run is not handled.  When no
    iteration is left and Ctrl-C arrives once the final checkpoint is written,
    the interrupt handler reads the loop variable, which was never bound:
    [train] ends with [UnboundLocalError], the final record is in the index and
    in the index file, and the metrics file is as it was. *)
Theorem late_interrupt_without_iteration
    (cfg : Config) (restore : option string) (script : Script)
    (w w0 : world text) (s : started) (l0 : list pyval) :
  train_startup cfg restore w = (Ok s, w0) ->
  checkpoint_history (checkpoint_manager (locals s)) = PList l0 ->
  training_iterations s < start_iteration s ->
  interrupt_at_end script = true ->
  exists f w' final stamp,
    train cfg restore script w = (Raise UnboundLocalError, Some f, w')
    /\ checkpoint_history (checkpoint_manager f) = PList (l0 ++ [final])
    /\ field "iteration" final = PInt (training_iterations s)
    /\ fs w' !! CM.index_file (checkpoint_dir cfg)
       = Some (json_dump (PDict (<["checkpoints" := PList (l0 ++ [final])]>
                                 (<["last_updated" := PStr stamp]> ∅))))
    /\ fs w' !! MT.metrics_file (checkpoint_dir cfg)
       = fs w !! MT.metrics_file (checkpoint_dir cfg).
Proof.
  intros Hs Hl Hlt Hend.
  pose proof (startup_shape _ _ _ _ _ _ Hs Hl) as Hshape.
  pose proof (train_startup_fs cfg restore w) as Hfs0. rewrite Hs in Hfs0. cbn [snd] in Hfs0.
  destruct (finish_late_exact cfg (training_iterations s) (checkpoint_dir cfg) l0
              (metrics_history (metrics_tracker (locals s))) (episode_offset s) None w0)
    as (w2 & Hfin & Hfs).
  cbv zeta in Hfin, Hfs.
  eexists _, _, _, _. split.
  - unfold train. rewrite Hs. unfold guarded, try_block, bind.
    replace (Z.to_nat (training_iterations s + 1 - start_iteration s)) with O by lia.
    cbn [train_loop]. unfold ret. rewrite Hend, Hshape, Hfin.
    rewrite on_interrupt_unbound by reflexivity. reflexivity.
  - cbn [checkpoint_manager checkpoint_history].
    split; [reflexivity |]. split; [reflexivity |].
    change (fs (emit ?x ?y)) with (fs y). change (fs (emit ?x ?y)) with (fs y).
    rewrite Hfs. split.
    + apply lookup_insert_eq.
    + rewrite lookup_insert_ne by apply index_not_metrics.
      rewrite lookup_insert_ne by (apply not_eq_sym, metadata_not_metrics).
      now rewrite Hfs0.
Qed.

(** Off the cadence nothing is written.  One pass through the loop body at an
    iteration that is not a multiple of [checkpoint_freq] (or with a
    [checkpoint_freq] of zero), however it ends, leaves every file and the
    index as they were: metrics records stay in memory until the next
    checkpoint. *)
Theorem off_cadence_iteration_writes_nothing
    (cfg : Config) (script : Z -> step_event) (i : Z)
    (f f' : frame) (w w' : world text) (r : result unit) :
  loop_body cfg script i (f, w) = (r, (f', w')) ->
  checkpoint_freq cfg = 0 \/ i mod checkpoint_freq cfg <> 0 ->
  fs w' = fs w
  /\ checkpoint_manager f' = checkpoint_manager f.
Proof.
  intros Hbody Hoff.
  assert (Hpm : forall v, pymod i (checkpoint_freq cfg) = Ok v -> (v =? 0) = false).
  { unfold pymod. intros v. destruct (Z.eqb_spec (checkpoint_freq cfg) 0) as [Hz | Hz];
      [discriminate |]. intros [= <-]. apply Z.eqb_neq. tauto. }
  destruct f as [cm [md mh] tot it].
  unfold loop_body, bind, bind_iteration, add_episodes, with_mt, lift_result,
    raise, ret, MT.extract_metrics, MT.log_progress in Hbody.
  destruct (pymod i (checkpoint_freq cfg)) as [v | e | c] eqn:Hv;
    [rewrite (Hpm v eq_refl) in Hbody | |];
    repeat (cbn [checkpoint_manager metrics_tracker total_episodes_completed iteration
                 mt_checkpoint_dir metrics_history fst snd] in *;
            unfold Py.append in *;
            case_match; try discriminate; simplify_eq;
            try (exfalso; eapply add_int_no_exit; eassumption));
    split; reflexivity.
Qed.

End Finished.


Lemma late_interrupt_without_iteration_witness :
  exists f w',
    train demo_config (Some "./checkpoints/checkpoint_000004") interrupted_at_end trained_world
    = (Raise UnboundLocalError, Some f, w').
Proof.
  remember (train_startup demo_config (Some "./checkpoints/checkpoint_000004") trained_world)
    as X eqn:HX.
  assert (Hok : match fst X with
                | Ok s => start_iteration s = 5 /\ training_iterations s = 4
                          /\ match checkpoint_history (checkpoint_manager (locals s)) with
                             | PList _ => True
                             | _ => False
                             end
                | _ => False
                end) by (subst X; vm_compute; tauto).
  destruct X as [[s | e | c] w0]; cbn [fst] in Hok; try contradiction.
  destruct Hok as (Hstart & HT & Hlist). symmetry in HX.
  destruct (checkpoint_history (checkpoint_manager (locals s))) as [| | | | | l0 |] eqn:Hl;
    try contradiction.
  destruct (late_interrupt_without_iteration demo_config
              (Some "./checkpoints/checkpoint_000004") interrupted_at_end
              trained_world w0 s l0 HX Hl ltac:(lia) eq_refl)
    as (f & w' & final & stamp & Hrun & _).
  exists f, w'. exact Hrun.
Defined.

Lemma off_cadence_iteration_writes_nothing_witness :
  fs (snd (snd (loop_body demo_config (step steady) 1
                  (locals demo_started, fresh_world)))) = fs fresh_world.
Proof.
  destruct (loop_body demo_config (step steady) 1 (locals demo_started, fresh_world))
    as [r [f' w']] eqn:Hbody.
  apply (off_cadence_iteration_writes_nothing _ _ _ _ _ _ _ _ Hbody).
  right. discriminate.
Defined.

(** ** The checkpoint manager on its own *)

Section Manager.
Context {text : Type} `{!JsonCodec text}.

(** What [save_checkpoint] does to a manager whose index is a list, for any
    [metrics] argument. *)
Lemma save_checkpoint_any (i : Z) (cfg : Config) (metrics : option (gmap string pyval))
    (d : string) (l : list pyval) (w : world text) :
  let path := Py.path_join d (CM.checkpoint_name i) in
  let base := CM.base_metadata i (now w) path cfg in
  let metadata := match metrics with
                  | Some m => if CM.given metrics then m ∪ base else base
                  | None => base
                  end in
  let index := PList (l ++ [CM.index_record i (CM.checkpoint_name i)
                              (Py.get metadata "timestamp" PNone) metrics]) in
  exists w',
    CM.save_checkpoint i cfg metrics
      ({| cm_checkpoint_dir := d; checkpoint_history := PList l |}, w)
    = (Ok path, ({| cm_checkpoint_dir := d; checkpoint_history := index |}, w'))
    /\ fs w' = <[CM.index_file d :=
                   json_dump (PDict (<["checkpoints" := index]>
                                     (<["last_updated" := PStr (clock w (S (ticks w)))]> ∅)))]>
                 (<[CM.metadata_file path := json_dump (PDict metadata)]> (fs w)).
Proof.
  cbv zeta. unfold CM.save_checkpoint, CM._save_checkpoint_index. cbv zeta.
  unfold Py.append. cbv iota beta.
  eexists. split; reflexivity.
Qed.

(** The metadata of a checkpoint is read back as it was written.  After
    [save_checkpoint], [get_checkpoint_metadata] on the path it returned gives
    a dict in which every key of [metrics] has the value [metrics] gave it and
    every other key has the value of the checkpoint's own metadata: the
    iteration, the time, the path and the configuration. *)
Theorem saved_metadata_is_read_back
    (i : Z) (cfg : Config) (metrics : option (gmap string pyval))
    (d : string) (l : list pyval) (w : world text) :
  exists p cm' w' md,
    CM.save_checkpoint i cfg metrics
      ({| cm_checkpoint_dir := d; checkpoint_history := PList l |}, w) = (Ok p, (cm', w'))
    /\ CM.get_checkpoint_metadata p w' = (Ok (PDict md), w')
    /\ (forall m k v, metrics = Some m -> m !! k = Some v -> md !! k = Some v)
    /\ (forall k, (forall m, metrics = Some m -> m !! k = None) ->
                  md !! k = CM.base_metadata i (now w) p cfg !! k).
Proof.
  destruct (save_checkpoint_any i cfg metrics d l w) as (w' & Hsave & Hfs).
  cbv zeta in Hsave, Hfs.
  eexists _, _, w', _. split; [exact Hsave |]. split.
  - unfold CM.get_checkpoint_metadata. rewrite Hfs.
    rewrite lookup_insert_ne by apply metadata_not_index.
    rewrite lookup_insert_eq, json_load_dump. reflexivity.
  - split.
    + intros m k v -> Hk. unfold CM.given, Py.truthy.
      destruct (Nat.eqb_spec (size m) 0) as [Hz | Hz]; cbn [negb].
      * apply map_size_empty_iff in Hz. subst m. rewrite lookup_empty in Hk. discriminate.
      * apply lookup_union_Some_l. exact Hk.
    + intros k Hk. destruct metrics as [m |]; [| reflexivity].
      destruct (CM.given (Some m)); [| reflexivity].
      apply lookup_union_r. now apply Hk.
Qed.

(** A checkpoint validates against the configuration it was saved under.
    When [metrics] sets none of the four validated keys, the metadata that
    [save_checkpoint] wrote passes [validate_checkpoint_config] for the same
    configuration with no issue, and nothing is printed. *)
Theorem saved_checkpoint_validates
    (i : Z) (cfg : Config) (metrics : option (gmap string pyval))
    (d : string) (l : list pyval) (w : world text) :
  (forall m, metrics = Some m ->
     m !! "observation_size" = None /\ m !! "action_size" = None
     /\ m !! "max_steps" = None /\ m !! "train_batch_size" = None) ->
  exists p cm' w' md,
    CM.save_checkpoint i cfg metrics
      ({| cm_checkpoint_dir := d; checkpoint_history := PList l |}, w) = (Ok p, (cm', w'))
    /\ CM.get_checkpoint_metadata p w' = (Ok (PDict md), w')
    /\ validate_checkpoint_config (PDict md) cfg w' = (Ok (true, []), w').
Proof.
  intros Hkeys.
  destruct (save_checkpoint_any i cfg metrics d l w) as (w' & Hsave & Hfs).
  cbv zeta in Hsave, Hfs.
  set (p := Py.path_join d (CM.checkpoint_name i)) in *.
  set (base := CM.base_metadata i (now w) p cfg) in *.
  set (md := match metrics with
             | Some m => if CM.given metrics then m ∪ base else base
             | None => base
             end) in *.
  assert (Hmd : forall k, (forall m, metrics = Some m -> m !! k = None) ->
                          md !! k = base !! k).
  { intros k Hk. unfold md. destruct metrics as [m |]; [| reflexivity].
    destruct (CM.given (Some m)); [| reflexivity]. apply lookup_union_r. now apply Hk. }
  assert (Ho : md !! "observation_size" = Some (PInt (observation_size cfg)))
    by (rewrite Hmd; [reflexivity | intros m Hm; apply (Hkeys m Hm)]).
  assert (Ha : md !! "action_size" = Some (PInt 7))
    by (rewrite Hmd; [reflexivity | intros m Hm; apply (Hkeys m Hm)]).
  assert (Hs : md !! "max_steps" = Some (PInt (max_steps cfg)))
    by (rewrite Hmd; [reflexivity | intros m Hm; apply (Hkeys m Hm)]).
  assert (Hb : md !! "train_batch_size" = Some (PInt (train_batch_size cfg)))
    by (rewrite Hmd; [reflexivity | intros m Hm; apply (Hkeys m Hm)]).
  assert (Hsame : forall k z, md !! k = Some (PInt z) ->
                              changed (Py.get md k PNone) z = false).
  { intros k z Hk. unfold changed, Py.get. rewrite Hk. simpl.
    rewrite Z.eqb_refl. apply andb_false_r. }
  eexists p, _, w', md. split; [exact Hsave |]. split.
  - unfold CM.get_checkpoint_metadata. rewrite Hfs.
    rewrite lookup_insert_ne by apply metadata_not_index.
    rewrite lookup_insert_eq, json_load_dump. reflexivity.
  - unfold validate_checkpoint_config. rewrite (lookup_truthy _ _ _ Ho). cbv zeta.
    cbn [negb]. cbv iota.
    rewrite (Hsame _ _ Ho), (Hsame _ _ Ha), (Hsame _ _ Hs), (Hsame _ _ Hb). reflexivity.
Qed.

(** The index is read back as it was written.  After [save_checkpoint] on a
    manager whose index is a list, a new [CheckpointManager] on the same
    directory holds the same index: the earlier records followed by the one
    just appended. *)
Theorem index_round_trip
    (i : Z) (cfg : Config) (metrics : option (gmap string pyval))
    (d : string) (l : list pyval) (w : world text) :
  exists p cm' w' record,
    CM.save_checkpoint i cfg metrics
      ({| cm_checkpoint_dir := d; checkpoint_history := PList l |}, w) = (Ok p, (cm', w'))
    /\ checkpoint_history cm' = PList (l ++ [record])
    /\ field "iteration" record = PInt i
    /\ field "path" record = PStr (CM.checkpoint_name i)
    /\ CM.init d w' = (Ok cm', emit (LoadedIndex (S (length l))) w').
Proof.
  destruct (save_checkpoint_any i cfg metrics d l w) as (w' & Hsave & Hfs).
  cbv zeta in Hsave, Hfs.
  eexists _, _, w', _. split; [exact Hsave |].
  cbn [checkpoint_history]. split; [reflexivity |]. split; [reflexivity |].
  split; [reflexivity |].
  erewrite cm_init_saved_index; [| rewrite Hfs; apply lookup_insert_eq].
  rewrite length_app. cbn [length]. now rewrite Nat.add_1_r.
Qed.

(** *** Names and files of different iterations *)

Lemma checkpoint_name_inj (i j : Z) : CM.checkpoint_name i = CM.checkpoint_name j -> i = j.
Proof.
  intros Hn. destruct (checkpoint_name_parses i) as [_ Hi].
  destruct (checkpoint_name_parses j) as [_ Hj]. congruence.
Qed.

Lemma length_append (a b : string) :
  String.length (a ++ b) = (String.length a + String.length b)%nat.
Proof.
  induction a as [| x a IH]; [reflexivity |].
  change (String.length (String x (a ++ b)) = S (String.length a) + String.length b)%nat.
  simpl. now rewrite IH.
Qed.

Lemma append_cancel_r (a b s : string) : (a ++ s)%string = (b ++ s)%string -> a = b.
Proof.
  revert b. induction a as [| x a IH]; intros [| y b] Hab.
  - reflexivity.
  - apply (f_equal String.length) in Hab. rewrite !length_append in Hab. simpl in Hab. lia.
  - apply (f_equal String.length) in Hab. rewrite !length_append in Hab. simpl in Hab. lia.
  - change (String x (a ++ s) = String y (b ++ s))%string in Hab.
    injection Hab as -> Hab. f_equal. now apply IH.
Qed.

Lemma metadata_file_inj (d : string) (i j : Z) :
  CM.metadata_file (Py.path_join d (CM.checkpoint_name i))
  = CM.metadata_file (Py.path_join d (CM.checkpoint_name j)) -> i = j.
Proof.
  unfold CM.metadata_file, Py.path_join. intros Hm.
  apply append_cancel_r, append_cancel_l in Hm.
  apply append_cancel_l in Hm. now apply checkpoint_name_inj.
Qed.

(** [save_checkpoint] writes its own two files.  However it ends, saving
    iteration [i] changes no file but the index and the metadata of
    [checkpoint_i]: the metadata of every other iteration's checkpoint (names
    of different iterations differ, also past six digits) and the metrics
    history file are as they were. *)
Theorem save_checkpoint_writes_its_own_files
    (i : Z) (cfg : Config) (metrics : option (gmap string pyval))
    (cm cm' : CheckpointManager) (w w' : world text) (r : result string) :
  CM.save_checkpoint i cfg metrics (cm, w) = (r, (cm', w')) ->
  let d := cm_checkpoint_dir cm in
  (forall q, q <> CM.index_file d ->
             q <> CM.metadata_file (Py.path_join d (CM.checkpoint_name i)) ->
             fs w' !! q = fs w !! q)
  /\ (forall j, j <> i ->
                fs w' !! CM.metadata_file (Py.path_join d (CM.checkpoint_name j))
                = fs w !! CM.metadata_file (Py.path_join d (CM.checkpoint_name j)))
  /\ fs w' !! MT.metrics_file d = fs w !! MT.metrics_file d.
Proof.
  intros Hsave. cbv zeta.
  assert (Hframe : forall q, q <> CM.index_file (cm_checkpoint_dir cm) ->
             q <> CM.metadata_file (Py.path_join (cm_checkpoint_dir cm) (CM.checkpoint_name i)) ->
             fs w' !! q = fs w !! q).
  { intros q Hqi Hqm. destruct cm as [d h].
    unfold CM.save_checkpoint, CM._save_checkpoint_index in Hsave. cbv zeta in Hsave.
    cbn [cm_checkpoint_dir checkpoint_history] in *.
    destruct (Py.append h _) as [h' | e | c]; injection Hsave as <- <- <-;
      unfold write_file, tick, emit; cbn [fs];
      rewrite ?lookup_insert_ne by (apply not_eq_sym; assumption); reflexivity. }
  split; [exact Hframe |]. split.
  - intros j Hj. apply Hframe.
    + apply not_eq_sym, metadata_not_index.
    + intros Heq. apply metadata_file_inj in Heq. contradiction.
  - apply Hframe.
    + apply not_eq_sym, index_not_metrics.
    + apply metadata_not_metrics.
Qed.

(** *** The latest checkpoint *)

Lemma simple_name_head (n : string) : simple_name n -> String.prefix "/" n = false.
Proof.
  intros [Hs Hr]. destruct n as [| a n]; [discriminate Hr |].
  simpl in Hs. apply andb_true_iff in Hs as [Ha _]. apply negb_true_iff in Ha.
  cbn [String.prefix]. destruct (ascii_dec "/" a) as [<- | Hne]; [discriminate Ha | reflexivity].
Qed.

Lemma ends_with_slash_inv (s : string) :
  Pathlib.ends_with_slash s = true -> exists y, s = (y ++ "/")%string.
Proof.
  unfold Pathlib.ends_with_slash. induction s as [| a s IH]; simpl; [discriminate |].
  destruct (last_char s) as [b |] eqn:Hl.
  - intros Hb. destruct (IH Hb) as [y ->]. now exists (String a y).
  - destruct s as [| c s]; [| simpl in Hl; destruct (last_char s); discriminate].
    intros Ha. apply Ascii.eqb_eq in Ha. subst a. now exists EmptyString.
Qed.

Lemma os_path_join_simple (d n : string) :
  simple_name n ->
  Pathlib.os_path_join d n = n
  \/ exists y, Pathlib.os_path_join d n = (y ++ String "/" n)%string.
Proof.
  intros Hn. unfold Pathlib.os_path_join. rewrite (simple_name_head n Hn).
  destruct (String.eqb_spec d "") as [-> | Hd]; [now left |]. cbn [orb].
  destruct (Pathlib.ends_with_slash d) eqn:He.
  - destruct (ends_with_slash_inv d He) as [y ->]. right. exists y.
    now rewrite append_assoc.
  - right. now exists d.
Qed.

Lemma splitroot_simple (y n : string) :
  simple_name n ->
  exists root rel,
    Pathlib.splitroot (y ++ String "/" n) = (root, rel)
    /\ (rel = n \/ exists z, rel = (z ++ String "/" n)%string)
    /\ (root = EmptyString \/ exists r, root = (r ++ "/")%string).
Proof.
  intros Hn. pose proof (simple_name_head n Hn) as Hh.
  assert (Hfirst : forall c r, n = String c r -> Ascii.eqb c "/" = false).
  { intros c r ->. cbn [String.prefix] in Hh.
    destruct (ascii_dec "/" c) as [<- | Hne]; [now destruct r |].
    apply Ascii.eqb_neq. congruence. }
  assert (Hne : n <> EmptyString) by (destruct Hn as [_ Hr]; now destruct n).
  unfold Pathlib.splitroot.
  destruct y as [| a y]; simpl.
  - destruct n as [| c r]; [contradiction |]. rewrite (Hfirst c r eq_refl).
    eexists _, _. split; [reflexivity |]. split; [now left | right; now exists EmptyString].
  - destruct (Ascii.eqb a "/") eqn:Ha.
    + destruct y as [| b y]; simpl.
      * destruct n as [| c r]; [contradiction |]. rewrite (Hfirst c r eq_refl).
        eexists _, _. split; [reflexivity |].
        split; [now left | right; now exists "/"].
      * destruct (Ascii.eqb b "/") eqn:Hb.
        -- apply Ascii.eqb_eq in Hb. subst b.
           destruct y as [| c y]; simpl.
           ++ eexists _, _. split; [reflexivity |].
              split; [right; now exists "/" | right; now exists EmptyString].
           ++ destruct (Ascii.eqb c "/") eqn:Hc.
              ** eexists _, _. split; [reflexivity |].
                 split; [right; now exists (String "/" (String c y)) |
                         right; now exists EmptyString].
              ** eexists _, _. split; [reflexivity |].
                 split; [right; now exists (String c y) | right; now exists "/"].
        -- eexists _, _. split; [reflexivity |].
           split; [right; now exists (String b y) | right; now exists EmptyString].
    + eexists _, _. split; [reflexivity |].
      split; [right; now exists (String a y) | now left].
Qed.

Lemma join_snoc (t : list string) (n : string) :
  t <> [] -> Pathlib.join "/" (t ++ [n]) = (Pathlib.join "/" t ++ String "/" n)%string.
Proof.
  induction t as [| x t IH]; [contradiction |]. intros _.
  destruct t as [| x' t]; [reflexivity |].
  change (Pathlib.join "/" ((x :: x' :: t) ++ [n]))
    with (x ++ "/" ++ Pathlib.join "/" ((x' :: t) ++ [n]))%string.
  rewrite IH by discriminate.
  change (Pathlib.join "/" (x :: x' :: t)) with (x ++ "/" ++ Pathlib.join "/" (x' :: t))%string.
  now rewrite !append_assoc.
Qed.

Lemma append_nonempty_r (a b : string) : b <> EmptyString -> (a ++ b)%string <> EmptyString.
Proof. destruct a; simpl; [tauto | discriminate]. Qed.

(** The normal form of a path that ends in a simple name ends in that name. *)
Lemma str_simple (p n : string) :
  simple_name n ->
  p = n \/ (exists y, p = (y ++ String "/" n)%string) ->
  Pathlib.str p = n \/ exists r, Pathlib.str p = (r ++ String "/" n)%string.
Proof.
  intros Hn Hp. pose proof Hn as [Hs Hr].
  assert (Hne : n <> EmptyString) by now destruct n.
  assert (Hparse : exists root t,
             Pathlib.parse_path p = (root, t ++ [n])
             /\ (root = EmptyString \/ exists r, root = (r ++ "/")%string)).
  { unfold Pathlib.parse_path. destruct Hp as [-> | [y ->]].
    - exists EmptyString, []. split; [| now left].
      assert (Hroot : Pathlib.splitroot n = (EmptyString, n)).
      { pose proof (simple_name_head n Hn) as Hh. unfold Pathlib.splitroot.
        destruct n as [| c r]; [reflexivity |].
        cbn [String.prefix] in Hh.
        destruct (ascii_dec "/" c) as [<- | Hc]; [now destruct r |].
        apply not_eq_sym, Ascii.eqb_neq in Hc. now rewrite Hc. }
      rewrite Hroot, (split_without _ _ Hs). simpl. now rewrite Hr.
    - destruct (splitroot_simple y n Hn) as (root & rel & -> & Hrel & Hroot).
      destruct Hrel as [-> | [z ->]].
      + exists root, []. split; [| exact Hroot].
        rewrite (split_without _ _ Hs). simpl. now rewrite Hr.
      + exists root, (List.filter Py.real_part (Py.split "/" z)). split; [| exact Hroot].
        rewrite split_app, (split_without _ _ Hs), List.filter_app. simpl. now rewrite Hr. }
  destruct Hparse as (root & t & Hparse & Hroot).
  unfold Pathlib.str. rewrite Hparse.
  assert (Hform : (root ++ Pathlib.join "/" (t ++ [n]))%string = n
                  \/ exists r, (root ++ Pathlib.join "/" (t ++ [n]))%string
                               = (r ++ String "/" n)%string).
  { destruct t as [| x t].
    - simpl. destruct Hroot as [-> | [r ->]]; [now left |].
      right. exists r. now rewrite append_assoc.
    - right. rewrite join_snoc by discriminate.
      exists (root ++ Pathlib.join "/" (x :: t))%string. now rewrite append_assoc. }
  assert (Hnonempty : String.eqb (root ++ Pathlib.join "/" (t ++ [n])) "" = false).
  { apply String.eqb_neq. destruct Hform as [-> | [r ->]]; [exact Hne |].
    apply append_nonempty_r. discriminate. }
  now rewrite Hnonempty.
Qed.

Lemma path_name_simple (p n : string) :
  simple_name n ->
  p = n \/ (exists r, p = (r ++ String "/" n)%string) ->
  Py.path_name p = n.
Proof.
  intros [Hs Hr] [-> | [r ->]].
  - unfold Py.path_name. rewrite (split_without _ _ Hs). simpl. now rewrite Hr.
  - now apply (path_name_join r n).
Qed.

Lemma checkpoint_name_simple (i : Z) : simple_name (CM.checkpoint_name i).
Proof. split; [apply checkpoint_name_no_slash | reflexivity]. Qed.

(** The latest checkpoint is the one just saved.  A manager with an empty
    index has no latest checkpoint.  After [save_checkpoint] for iteration
    [i], [get_latest_checkpoint] returns a path whose last component is the
    name [checkpoint_i], the one the restore block of [train] recognises and
    parses back to [i]. *)
Theorem latest_checkpoint_is_the_one_saved
    (i : Z) (cfg : Config) (metrics : option (gmap string pyval))
    (d : string) (l : list pyval) (w : world text) :
  get_latest_checkpoint {| cm_checkpoint_dir := d; checkpoint_history := PList [] |}
  = Some None
  /\ exists p cm' w' latest,
       CM.save_checkpoint i cfg metrics
         ({| cm_checkpoint_dir := d; checkpoint_history := PList l |}, w) = (Ok p, (cm', w'))
       /\ get_latest_checkpoint cm' = Some (Some latest)
       /\ Py.path_name latest = CM.checkpoint_name i
       /\ Py.path_name latest = Py.path_name p
       /\ Py.contains "checkpoint_" (Py.path_name latest) = true
       /\ parse_iteration (Py.path_name latest) = Some i.
Proof.
  split; [reflexivity |].
  destruct (save_checkpoint_any i cfg metrics d l w) as (w' & Hsave & _).
  cbv zeta in Hsave.
  assert (Hname : Py.path_name (Pathlib.str (Pathlib.os_path_join d (CM.checkpoint_name i)))
                  = CM.checkpoint_name i).
  { apply path_name_simple; [apply checkpoint_name_simple |].
    apply str_simple; [apply checkpoint_name_simple |].
    apply os_path_join_simple, checkpoint_name_simple. }
  eexists _, _, w', _. split; [exact Hsave |]. split.
  - unfold get_latest_checkpoint. cbn [checkpoint_history cm_checkpoint_dir].
    rewrite truthy_snoc. cbn [negb]. unfold subscript_last.
    rewrite List.map_app. cbn [List.map]. rewrite List.last_last. reflexivity.
  - rewrite Hname, path_name_checkpoint. split; [reflexivity |]. split; [reflexivity |].
    apply checkpoint_name_parses.
Qed.

End Manager.

Lemma saved_checkpoint_validates_witness :
  exists p cm' w' md,
    CM.save_checkpoint 2 demo_config (Some (checkpoint_metrics (PInt 40) 20))
      ({| cm_checkpoint_dir := "./checkpoints"; checkpoint_history := PList [] |}, fresh_world)
    = (Ok p, (cm', w'))
    /\ CM.get_checkpoint_metadata p w' = (Ok (PDict md), w')
    /\ validate_checkpoint_config (PDict md) demo_config w' = (Ok (true, []), w').
Proof.
  apply (saved_checkpoint_validates 2 demo_config (Some (checkpoint_metrics (PInt 40) 20))
           "./checkpoints" [] fresh_world).
  intros m [= <-]. repeat split; reflexivity.
Defined.

(** Saving iteration 5 in the directory a complete run left: the metadata of
    iteration 4 and the metrics history are as they were. *)
Lemma save_checkpoint_writes_its_own_files_witness :
  let manager := {| cm_checkpoint_dir := "./checkpoints"; checkpoint_history := PList [] |} in
  let after := snd (snd (CM.save_checkpoint 5 demo_config None (manager, trained_world))) in
  fs after !! CM.metadata_file (Py.path_join "./checkpoints" (CM.checkpoint_name 4))
  = fs trained_world !! CM.metadata_file (Py.path_join "./checkpoints" (CM.checkpoint_name 4))
  /\ fs after !! MT.metrics_file "./checkpoints"
     = fs trained_world !! MT.metrics_file "./checkpoints".
Proof.
  cbv zeta.
  destruct (CM.save_checkpoint 5 demo_config None
              ({| cm_checkpoint_dir := "./checkpoints"; checkpoint_history := PList [] |},
               trained_world)) as [r [cm' w']] eqn:Hsave.
  destruct (save_checkpoint_writes_its_own_files _ _ _ _ _ _ _ _ Hsave) as (_ & Hother & Hm).
  split; [apply Hother; discriminate | exact Hm].
Defined.

(** ** Choosing a checkpoint in the demo *)

Section Select.
Context {text : Type} `{!JsonCodec text}.

Lemma last_n_length {A : Type} (n : nat) (l : list A) :
  length (Demo.last_n n l) = Nat.min n (length l).
Proof. unfold Demo.last_n. rewrite List.length_skipn. lia. Qed.

(** [l[-n:][j] == l[len(l) - len(l[-n:]) + j]]. *)
Lemma last_n_lookup {A : Type} (n j : nat) (l : list A) :
  Demo.last_n n l !! j = l !! (length l - length (Demo.last_n n l) + j)%nat.
Proof.
  rewrite last_n_length. unfold Demo.last_n.
  change (@List.skipn A) with (@drop A). rewrite lookup_drop. f_equal. lia.
Qed.

(** The display loop, when it comes to its end, printed one line per entry,
    numbered from [i]. *)
Lemma show_all_lines (fs : gmap string text) (base : string) :
  forall (cps : list pyval) (i : nat) (lines : list Demo.line),
    Demo.show_all fs base i cps = (lines, true) ->
    length lines = length cps
    /\ forall j r, cps !! j = Some r ->
                   exists l, lines !! j = Some l
                             /\ Demo.show_checkpoint fs base (i + j) r = Some l.
Proof.
  induction cps as [| cp cps IH]; intros i lines Hshow; simpl in Hshow.
  - injection Hshow as <-. split; [reflexivity |]. intros j r Hj. discriminate Hj.
  - destruct (Demo.show_checkpoint fs base i cp) as [l |] eqn:Hl; [| discriminate Hshow].
    destruct (Demo.show_all fs base (S i) cps) as [ls ok] eqn:Hrest.
    injection Hshow as <- ->. destruct (IH _ _ Hrest) as [Hlen Hall].
    split; [simpl; now rewrite Hlen |].
    intros [| j] r Hj.
    + injection Hj as <-. exists l. rewrite Nat.add_0_r. split; [reflexivity | exact Hl].
    + destruct (Hall j r Hj) as (l' & Hl' & Hs). exists l'. split; [exact Hl' |].
      now replace (i + S j)%nat with (S i + j)%nat by lia.
Qed.

(** The display loop stops at an entry it cannot show. *)
Lemma show_all_stops (fs : gmap string text) (base : string) :
  forall (cps : list pyval) (i : nat) (r : pyval),
    r ∈ cps ->
    (forall k, Demo.show_checkpoint fs base k r = None) ->
    snd (Demo.show_all fs base i cps) = false.
Proof.
  induction cps as [| cp cps IH]; intros i r Hin Hnone.
  - inversion Hin.
  - simpl. destruct (Demo.show_checkpoint fs base i cp) as [l |] eqn:Hl; [| reflexivity].
    apply elem_of_cons in Hin as [-> | Hin]; [now rewrite Hnone in Hl |].
    specialize (IH (S i) r Hin Hnone).
    destruct (Demo.show_all fs base (S i) cps) as [ls ok]. exact IH.
Qed.

(** The display loop comes to its end when every entry can be shown. *)
Lemma show_all_ok (fs : gmap string text) (base : string) :
  forall (cps : list pyval) (i : nat),
    Forall (fun r => forall k, exists l, Demo.show_checkpoint fs base k r = Some l) cps ->
    snd (Demo.show_all fs base i cps) = true.
Proof.
  induction cps as [| cp cps IH]; intros i Hall; [reflexivity |].
  apply Forall_cons_iff in Hall as [Hcp Hall]. simpl.
  destruct (Hcp i) as [l ->]. specialize (IH (S i) Hall).
  destruct (Demo.show_all fs base (S i) cps) as [ls ok]. exact IH.
Qed.

(** An entry that was shown has a path to return. *)
Lemma shown_has_path (fs : gmap string text) (base : string) (i : nat) (r : pyval)
    (l : Demo.line) :
  Demo.show_checkpoint fs base i r = Some l ->
  exists name,
    subscript_key r "path" = Some (PStr name)
    /\ Demo.checkpoint_path base r
       = Some (name, Pathlib.str (Pathlib.os_path_join base name)).
Proof.
  unfold Demo.show_checkpoint, Demo.checkpoint_path, subscript_key.
  destruct r as [| | | | | | d]; try discriminate.
  destruct (d !! "path") as [[| | | | name | |] |]; try discriminate.
  intros _. now exists name.
Qed.

(** What [select_checkpoint] went through when it returned after the display
    loop. *)
Lemma select_checkpoint_displayed (dir : Demo.Directory) (fs : gmap string text)
    (base typed : string) (lines : list Demo.line) (p : string) :
  Demo.select_checkpoint dir fs base typed = (lines, Some (Some p)) ->
  exists cps shown more,
    Demo.show_all fs base 1 (Demo.last_n 15 cps) = (shown, true)
    /\ Demo.choose base cps typed = (more, Some (Some p))
    /\ lines = Demo.AvailableCheckpoints (length cps) :: shown
               ++ Demo.Options (length (Demo.last_n 15 cps)) :: more.
Proof.
  unfold Demo.select_checkpoint. intros Hsel.
  destruct (negb (Demo.present dir)); [discriminate Hsel |].
  match type of Hsel with
  | match ?x with _ => _ end = _ => destruct x as [checkpoints |]; [| discriminate Hsel]
  end.
  destruct (negb (Py.truthy checkpoints)); [discriminate Hsel |].
  destruct checkpoints as [| | | | | cps |]; try discriminate Hsel.
  cbv zeta in Hsel.
  destruct (Demo.show_all fs base 1 (Demo.last_n 15 cps)) as [shown [|]] eqn:Hshow;
    [| discriminate Hsel].
  destruct (Demo.choose base cps typed) as [more r] eqn:Hchoose.
  injection Hsel as <- ->. now exists cps, shown, more.
Qed.

(** The number typed selects the line shown with that number.  When
    [select_checkpoint] returns a path after the user typed something other
    than an empty line, what was typed is the number [k] of one of the lines
    displayed, that line shows the entry [r] of the index, and the path
    returned is the checkpoint directory joined with the ['path'] of [r], in
    normal form; the last line printed names it. *)
Theorem typed_number_selects_the_line_shown
    (dir : Demo.Directory) (fs : gmap string text) (base typed : string)
    (lines : list Demo.line) (p : string) :
  Demo.select_checkpoint dir fs base typed = (lines, Some (Some p)) ->
  Py.rstrip (Py.lstrip typed) <> EmptyString ->
  exists (k : nat) (r : pyval) (name : string) (l : Demo.line),
    PyInt.int_of_str (Py.rstrip (Py.lstrip typed)) = Some (Z.of_nat k)
    /\ lines !! k = Some l
    /\ Demo.show_checkpoint fs base k r = Some l
    /\ subscript_key r "path" = Some (PStr name)
    /\ p = Pathlib.str (Pathlib.os_path_join base name)
    /\ List.last lines Demo.InvalidInput = Demo.Selected name.
Proof.
  intros Hsel Htyped.
  destruct (select_checkpoint_displayed _ _ _ _ _ _ Hsel)
    as (cps & shown & more & Hshow & Hchoose & ->).
  destruct (show_all_lines _ _ _ _ _ Hshow) as [Hlen Hall].
  unfold Demo.choose in Hchoose. cbv zeta in Hchoose.
  destruct (Demo.is_quit _); [discriminate Hchoose |].
  destruct (String.eqb_spec (Py.rstrip (Py.lstrip typed)) "") as [He | _];
    [contradiction |].
  destruct (PyInt.int_of_str _) as [number |]; [| discriminate Hchoose].
  destruct ((0 <=? number - 1) && (number - 1 <? Z.of_nat (length (Demo.last_n 15 cps))))
    eqn:Hrange; [| discriminate Hchoose].
  apply andb_true_iff in Hrange as [Hlo Hhi].
  apply Z.leb_le in Hlo. apply Z.ltb_lt in Hhi.
  destruct (cps !! _) as [selected |] eqn:Hsel'; [| discriminate Hchoose].
  destruct (Demo.checkpoint_path base selected) as [[name p'] |] eqn:Hpath;
    [| discriminate Hchoose].
  injection Hchoose as <- ->.
  set (j := Z.to_nat (number - 1)).
  assert (Hj : Demo.last_n 15 cps !! j = Some selected).
  { rewrite last_n_lookup, <- Hsel'. f_equal.
    pose proof (last_n_length 15 cps). unfold j. lia. }
  destruct (Hall j selected Hj) as (l & Hl & Hs).
  destruct (shown_has_path _ _ _ _ _ Hs) as (name' & Hkey & Hpath').
  rewrite Hpath in Hpath'. injection Hpath' as <- ->.
  exists (S j), selected, name, l.
  split; [f_equal; unfold j; lia |].
  split.
  { etrans; [| exact Hl]. apply (lookup_app_l shown _ j).
    eapply lookup_lt_Some. exact Hl. }
  split; [exact Hs |].
  split; [exact Hkey |].
  split; [reflexivity |].
  replace (Demo.AvailableCheckpoints (length cps)
             :: shown ++ Demo.Options (length (Demo.last_n 15 cps)) :: [Demo.Selected name])
    with ((Demo.AvailableCheckpoints (length cps) :: shown
            ++ [Demo.Options (length (Demo.last_n 15 cps))]) ++ [Demo.Selected name])
    by (simpl; now rewrite <- app_assoc).
  apply List.last_last.
Qed.

Lemma written_shows (fs : gmap string text) (base : string) (r : pyval) :
  written r -> forall k, exists l, Demo.show_checkpoint fs base k r = Some l.
Proof. intros (i & name & ts & m & ->) k. eexists. reflexivity. Qed.

Lemma last_map_Some {A : Type} (l : list A) :
  l <> [] -> exists x, List.last (List.map Some l) None = Some x /\ x ∈ l.
Proof.
  induction l as [| a l IH]; [contradiction |]. intros _.
  destruct l as [| b l].
  - exists a. split; [reflexivity | apply list_elem_of_here].
  - destruct (IH ltac:(discriminate)) as (x & Hx & Hin). exists x.
    split; [exact Hx | now apply list_elem_of_further].
Qed.

(** Past the display loop, [select_checkpoint] returns whatever is typed when
    every entry has a path. *)
Lemma choose_returns (base : string) (cps : list pyval) (typed : string) :
  cps <> [] ->
  Forall (fun r => exists np, Demo.checkpoint_path base r = Some np) cps ->
  exists more r, Demo.choose base cps typed = (more, Some r).
Proof.
  intros Hne Hall. rewrite Forall_forall in Hall.
  unfold Demo.choose. cbv zeta.
  destruct (Demo.is_quit _); [eexists _, _; reflexivity |].
  destruct (String.eqb _ ""). 
  - unfold subscript_last. destruct (last_map_Some cps Hne) as (x & -> & Hin).
    destruct (Hall x Hin) as [[name p] ->]. eexists _, _; reflexivity.
  - destruct (PyInt.int_of_str _) as [number |]; [| eexists _, _; reflexivity].
    destruct ((0 <=? number - 1) && (number - 1 <? Z.of_nat (length (Demo.last_n 15 cps))))
      eqn:Hrange; [| eexists _, _; reflexivity].
    apply andb_true_iff in Hrange as [Hlo Hhi].
    apply Z.leb_le in Hlo. apply Z.ltb_lt in Hhi.
    pose proof (last_n_length 15 cps) as Hlen.
    destruct (lookup_lt_is_Some_2 cps
                (Z.to_nat (Z.of_nat (length cps) - Z.of_nat (length (Demo.last_n 15 cps))
                           + (number - 1)))) as [selected Hsel]; [lia |].
    rewrite Hsel. apply list_elem_of_lookup_2 in Hsel.
    destruct (Hall selected Hsel) as [[name p] ->]. eexists _, _; reflexivity.
Qed.

Lemma Forall_last_n {A : Type} (P : A -> Prop) (n : nat) (l : list A) :
  Forall P l -> Forall P (Demo.last_n n l).
Proof. unfold Demo.last_n. change (@List.skipn A) with (@drop A). apply Forall_drop. Qed.

(** The demo can read every index the manager writes.  When the directory
    exists and its index file holds a list of records that [save_checkpoint]
    built, [select_checkpoint] raises no exception, whatever the user types:
    it returns [None] or a path. *)
Theorem select_checkpoint_reads_a_written_index
    (dir : Demo.Directory) (fs : gmap string text) (base typed : string)
    (content : text) (cps : list pyval) (rest : gmap string pyval) :
  Demo.present dir = true ->
  fs !! CM.index_file base = Some content ->
  json_load content = Some (PDict (<["checkpoints" := PList cps]> rest)) ->
  Forall written cps ->
  exists lines r, Demo.select_checkpoint dir fs base typed = (lines, Some r).
Proof.
  intros Hdir Hfile Hload Hall.
  unfold Demo.select_checkpoint. rewrite Hdir, Hfile, Hload. cbn [negb].
  replace (Py.get (<["checkpoints" := PList cps]> rest) "checkpoints" (PList []))
    with (PList cps) by (unfold Py.get; now rewrite lookup_insert_eq).
  destruct cps as [| cp cps]; [eexists _, _; reflexivity |].
  change (Py.truthy (PList (cp :: cps))) with true. cbn [negb]. cbv zeta.
  pose proof (show_all_ok fs base (Demo.last_n 15 (cp :: cps)) 1) as Hok.
  destruct (Demo.show_all fs base 1 (Demo.last_n 15 (cp :: cps))) as [shown ok].
  cbn [snd] in Hok.
  assert (Hok' : ok = true).
  { apply Hok, Forall_last_n. eapply Forall_impl; [exact Hall |].
    intros r Hr. now apply written_shows. }
  subst ok.
  destruct (choose_returns base (cp :: cps) typed) as (more & r & ->);
    [discriminate | | eexists _, _; reflexivity].
  eapply Forall_impl; [exact Hall |]. intros r (i & name & ts & m & ->).
  eexists. reflexivity.
Qed.

(** An empty line selects the manager's latest checkpoint.  When the index
    file exists, a [CheckpointManager] can be built on the directory, and
    [select_checkpoint] returns after the user typed an empty line, it returns
    what [get_latest_checkpoint] of that manager returns. *)
Theorem empty_line_selects_the_latest_checkpoint
    (dir : Demo.Directory) (w w1 : world text) (base typed : string) (content : text)
    (cm : CheckpointManager) (lines : list Demo.line) (r : option string) :
  Demo.present dir = true ->
  fs w !! CM.index_file base = Some content ->
  CM.init base w = (Ok cm, w1) ->
  Py.rstrip (Py.lstrip typed) = EmptyString ->
  Demo.select_checkpoint dir (fs w) base typed = (lines, Some r) ->
  get_latest_checkpoint cm = Some r.
Proof.
  intros Hdir Hfile Hinit Htyped Hsel.
  unfold CM.init, CM._load_checkpoint_index in Hinit.
  cbn [cm_checkpoint_dir checkpoint_history] in Hinit.
  unfold Demo.select_checkpoint in Hsel.
  rewrite Hdir, Hfile in Hsel. cbn [negb] in Hsel. rewrite Hfile in Hinit.
  destruct (json_load content) as [[| | | | | | data] |]; try discriminate Hinit.
  set (checkpoints := Py.get data "checkpoints" (PList [])) in *.
  destruct (Py.len checkpoints); [| discriminate Hinit].
  injection Hinit as <- _.
  unfold get_latest_checkpoint. cbn [cm_checkpoint_dir checkpoint_history].
  destruct (negb (Py.truthy checkpoints)); [now injection Hsel as _ <- |].
  destruct checkpoints as [| | | | | cps |]; try discriminate Hsel.
  cbv zeta in Hsel.
  destruct (Demo.show_all (fs w) base 1 (Demo.last_n 15 cps)) as [shown [|]];
    [| discriminate Hsel].
  destruct (Demo.choose base cps typed) as [more r'] eqn:Hchoose.
  injection Hsel as _ ->.
  unfold Demo.choose in Hchoose. cbv zeta in Hchoose. rewrite Htyped in Hchoose.
  cbn [Demo.is_quit String.eqb orb] in Hchoose.
  change (Demo.is_quit "") with false in Hchoose. cbv iota in Hchoose.
  change (String.eqb "" "") with true in Hchoose. cbv iota in Hchoose.
  destruct (subscript_last (PList cps)) as [latest |]; [| discriminate Hchoose].
  unfold Demo.checkpoint_path in Hchoose.
  destruct (subscript_key latest "path") as [[| | | | name | |] |];
    try discriminate Hchoose.
  now injection Hchoose as _ <-.
Qed.

(** The placeholder for a missing iteration cannot be shown.  When one of the
    last fifteen entries of the index is a dict without an ['iteration'] key,
    the line for it does not format (its iteration is the string ['?'], and
    the format is [:6d]): [select_checkpoint] raises before it asks anything. *)
Theorem missing_iteration_breaks_the_display
    (dir : Demo.Directory) (fs : gmap string text) (base typed : string)
    (content : text) (data d : gmap string pyval) (cps : list pyval) :
  Demo.present dir = true ->
  fs !! CM.index_file base = Some content ->
  json_load content = Some (PDict data) ->
  data !! "checkpoints" = Some (PList cps) ->
  PDict d ∈ Demo.last_n 15 cps ->
  d !! "iteration" = None ->
  exists lines, Demo.select_checkpoint dir fs base typed = (lines, None).
Proof.
  intros Hdir Hfile Hload Hdata Hin Hit.
  unfold Demo.select_checkpoint. rewrite Hdir, Hfile, Hload. cbn [negb].
  replace (Py.get data "checkpoints" (PList [])) with (PList cps)
    by (unfold Py.get; now rewrite Hdata).
  assert (Hne : Py.truthy (PList cps) = true).
  { destruct cps as [| cp cps]; [| reflexivity]. inversion Hin. }
  rewrite Hne. cbn [negb]. cbv zeta.
  pose proof (show_all_stops fs base (Demo.last_n 15 cps) 1 (PDict d) Hin) as Hstop.
  destruct (Demo.show_all fs base 1 (Demo.last_n 15 cps)) as [shown ok].
  cbn [snd] in Hstop.
  assert (Hok : ok = false); [apply Hstop | subst ok; eexists; reflexivity].
  intros k. unfold Demo.show_checkpoint, Py.get. rewrite Hit. cbn [default from_option id].
  now destruct (d !! "path") as [[| | | | name | |] |].
Qed.

End Select.

Lemma typed_number_selects_the_line_shown_witness :
  exists lines (k : nat) r l,
    Demo.select_checkpoint demo_directory (fs trained_world) "./checkpoints" " 2"
    = (lines, Some (Some "checkpoints/checkpoint_000004"))
    /\ PyInt.int_of_str (Py.rstrip (Py.lstrip " 2")) = Some (Z.of_nat k)
    /\ lines !! k = Some l
    /\ Demo.show_checkpoint (fs trained_world) "./checkpoints" k r = Some l
    /\ subscript_key r "path" = Some (PStr "checkpoint_000004").
Proof.
  remember (Demo.select_checkpoint demo_directory (fs trained_world) "./checkpoints" " 2")
    as X eqn:HX.
  assert (Hr : snd X = Some (Some "checkpoints/checkpoint_000004"))
    by (subst X; vm_compute; reflexivity).
  destruct X as [lines r0]. cbn [snd] in Hr. subst r0. symmetry in HX.
  destruct (typed_number_selects_the_line_shown _ _ _ _ _ _ HX ltac:(discriminate))
    as (k & r & name & l & Hk & Hl & Hs & Hkey & Hp & Hlast).
  assert (Hname : name = "checkpoint_000004").
  { assert (Hl0 : List.last (fst (Demo.select_checkpoint demo_directory (fs trained_world)
                                    "./checkpoints" " 2")) Demo.InvalidInput
                  = Demo.Selected "checkpoint_000004") by (vm_compute; reflexivity).
    rewrite HX in Hl0. cbn [fst] in Hl0. congruence. }
  subst name. exists lines, k, r, l. repeat split; assumption.
Defined.

Lemma select_checkpoint_reads_a_written_index_witness :
  exists lines r,
    Demo.select_checkpoint demo_directory
      (indexed [CM.index_record 2 "checkpoint_000002" (PStr "t") None]) "./checkpoints" "7"
    = (lines, Some r).
Proof.
  eapply (select_checkpoint_reads_a_written_index demo_directory _ "./checkpoints" "7").
  - reflexivity.
  - reflexivity.
  - reflexivity.
  - repeat constructor. now exists 2, "checkpoint_000002", (PStr "t"), None.
Defined.

Lemma empty_line_selects_the_latest_checkpoint_witness :
  exists cm,
    fst (CM.init "./checkpoints" trained_world) = Ok cm
    /\ get_latest_checkpoint cm = Some (Some "checkpoints/checkpoint_000004").
Proof.
  remember (CM.init "./checkpoints" trained_world) as I eqn:HI.
  assert (Hok : match fst I with Ok _ => True | _ => False end)
    by (subst I; vm_compute; exact I).
  destruct I as [[cm | e | c] w1]; cbn [fst] in Hok; try contradiction. symmetry in HI.
  remember (Demo.select_checkpoint demo_directory (fs trained_world) "./checkpoints" "")
    as X eqn:HX.
  assert (Hr : snd X = Some (Some "checkpoints/checkpoint_000004"))
    by (subst X; vm_compute; reflexivity).
  destruct X as [lines r0]. cbn [snd] in Hr. subst r0. symmetry in HX.
  exists cm. split; [reflexivity |].
  eapply (empty_line_selects_the_latest_checkpoint demo_directory trained_world w1
            "./checkpoints" "").
  - reflexivity.
  - vm_compute. reflexivity.
  - exact HI.
  - reflexivity.
  - exact HX.
Defined.

Lemma missing_iteration_breaks_the_display_witness :
  exists lines,
    Demo.select_checkpoint demo_directory (indexed [PDict entry_without_iteration])
      "./checkpoints" "1" = (lines, None).
Proof.
  eapply (missing_iteration_breaks_the_display demo_directory _ "./checkpoints" "1").
  - reflexivity.
  - reflexivity.
  - reflexivity.
  - reflexivity.
  - apply list_elem_of_here.
  - reflexivity.
Defined.

(** ** The terrain curriculum *)

Arguments Terrain.match_here : simpl never.
Arguments Terrain.key : simpl never.

Section Terrain.

(** The curriculum never steps back.  The terrain height range is between 1
    and 4, the values the script accepts by hand, and an iteration that is
    not earlier never gets a smaller range. *)
Theorem terrain_curriculum_is_monotone (i j : Z) :
  i <= j ->
  1 <= fst (Terrain.get_terrain_complexity_for_iteration i)
  /\ fst (Terrain.get_terrain_complexity_for_iteration i)
     <= fst (Terrain.get_terrain_complexity_for_iteration j)
  /\ fst (Terrain.get_terrain_complexity_for_iteration j) <= 4.
Proof.
  intros Hij. unfold Terrain.get_terrain_complexity_for_iteration.
  repeat match goal with
         | |- context [?a <? ?b] => destruct (Z.ltb_spec a b)
         end; cbn [fst]; lia.
Qed.

Lemma span_app (p : ascii -> bool) (s : string) :
  forall taken rest, Terrain.span p s = (taken, rest) ->
    s = (taken ++ rest)%string
    /\ Py.all_chars p taken = true
    /\ match rest with String a _ => p a = false | EmptyString => True end.
Proof.
  induction s as [| a s IH]; intros taken rest Hspan; simpl in Hspan.
  - injection Hspan as <- <-. repeat split.
  - destruct (p a) eqn:Ha.
    + destruct (Terrain.span p s) as [t r]. injection Hspan as <- <-.
      destruct (IH t r eq_refl) as (-> & Ht & Hr).
      split; [reflexivity |]. split; [simpl; now rewrite Ha | exact Hr].
    + injection Hspan as <- <-. repeat split. exact Ha.
Qed.

Lemma strip_prefix_app (pre s after : string) :
  Terrain.strip_prefix pre s = Some after -> s = (pre ++ after)%string.
Proof.
  revert s. induction pre as [| a pre IH]; intros s Hs; simpl in Hs.
  - now injection Hs as ->.
  - destruct s as [| b s]; [discriminate |].
    destruct (Ascii.eqb_spec a b) as [-> | _]; [| discriminate].
    change (String b s = String b (pre ++ after)). f_equal. now apply IH.
Qed.

(** A match is a prefix of the text: group 1, then digits, then the rest,
    which does not go on with a digit. *)
Lemma match_here_sound (s group1 digits rest : string) :
  Terrain.match_here s = Some (group1, digits, rest) ->
  s = (group1 ++ digits ++ rest)%string
  /\ Py.all_chars Py.is_digit digits = true
  /\ digits <> EmptyString
  /\ match rest with String a _ => Py.is_digit a = false | EmptyString => True end
  /\ (String.length rest < String.length s)%nat.
Proof.
  unfold Terrain.match_here. intros Hm.
  destruct (Terrain.strip_prefix Terrain.key s) as [after |] eqn:Hk; [| discriminate].
  destruct (Terrain.span Terrain.re_space after) as [spaces after_spaces] eqn:Hsp.
  destruct (Terrain.span Py.is_digit after_spaces) as [ds r] eqn:Hd.
  destruct (String.eqb_spec ds "") as [| Hne]; [discriminate |].
  injection Hm as <- <- <-.
  apply strip_prefix_app in Hk. destruct (span_app _ _ _ _ Hsp) as (Ha & _ & _).
  destruct (span_app _ _ _ _ Hd) as (Hb & Hds & Hr). subst s after after_spaces.
  split; [now rewrite !append_assoc |].
  split; [exact Hds |]. split; [exact Hne |]. split; [exact Hr |].
  rewrite !length_append. destruct ds; [contradiction |]. simpl. lia.
Qed.

(** Substitution keeps the class of the first character: what does not start
    with a digit does not after substitution. *)
Lemma sub_from_head (repl : string) (fuel : nat) (s : string) :
  match s with String a _ => Py.is_digit a = false | EmptyString => True end ->
  match Terrain.sub_from fuel repl s with
  | String a _ => Py.is_digit a = false
  | EmptyString => True
  end.
Proof.
  intros Hs. destruct fuel as [| fuel]; [exact Hs |]. cbn [Terrain.sub_from].
  destruct (Terrain.match_here s) as [[[g d] r] |] eqn:Hm.
  - unfold Terrain.match_here in Hm.
    destruct (Terrain.strip_prefix Terrain.key s) as [after |]; [| discriminate].
    destruct (Terrain.span Terrain.re_space after) as [spaces after_spaces].
    destruct (Terrain.span Py.is_digit after_spaces) as [ds r'].
    destruct (String.eqb ds ""); [discriminate |]. injection Hm as <- _ _.
    unfold Terrain.key. reflexivity.
  - destruct s as [| a s]; [exact I | exact Hs].
Qed.

(** Two digit runs followed by something that is no digit: equal texts have
    equal runs. *)
Lemma digit_runs_agree (x y u v : string) :
  Py.all_chars Py.is_digit x = true ->
  Py.all_chars Py.is_digit y = true ->
  match u with String a _ => Py.is_digit a = false | EmptyString => True end ->
  match v with String a _ => Py.is_digit a = false | EmptyString => True end ->
  (x ++ u)%string = (y ++ v)%string ->
  x = y /\ u = v.
Proof.
  revert y. induction x as [| a x IH]; intros y Hx Hy Hu Hv Heq.
  - destruct y as [| b y]; [now split |].
    simpl in Hy. apply andb_true_iff in Hy as [Hb _].
    change (u = String b (y ++ v)) in Heq. subst u. congruence.
  - simpl in Hx. apply andb_true_iff in Hx as [Ha Hx].
    destruct y as [| b y].
    + change (String a (x ++ u) = v) in Heq. subst v. congruence.
    + simpl in Hy. apply andb_true_iff in Hy as [_ Hy].
      change (String a (x ++ u) = String b (y ++ v)) in Heq. injection Heq as -> Heq.
      destruct (IH y Hx Hy Hu Hv Heq) as [-> ->]. now split.
Qed.

(** Substitution leaves the text as it is exactly when every number found is
    the replacement already. *)
Lemma sub_from_fixed (repl : string) :
  Py.all_chars Py.is_digit repl = true ->
  forall (fuel : nat) (s : string),
    (String.length s < fuel)%nat ->
    Terrain.sub_from fuel repl s = s
    <-> Forall (fun digits => digits = repl) (Terrain.found_from fuel s).
Proof.
  intros Hrepl. induction fuel as [| fuel IH]; intros s Hlen; [lia |].
  cbn [Terrain.sub_from Terrain.found_from].
  destruct (Terrain.match_here s) as [[[g d] r] |] eqn:Hm.
  - destruct (match_here_sound _ _ _ _ Hm) as (Hs & Hd & _ & Hr & Hshort).
    specialize (IH r ltac:(lia)).
    rewrite Forall_cons_iff, <- IH. rewrite Hs. split.
    + intros Heq. apply append_cancel_l in Heq.
      destruct (digit_runs_agree _ _ _ _ Hrepl Hd (sub_from_head repl fuel r Hr) Hr Heq)
        as [-> Hsub].
      now split.
    + intros [-> ->]. reflexivity.
  - destruct s as [| a s]; [split; [constructor | reflexivity] |].
    cbn [String.length] in Hlen. rewrite <- (IH s ltac:(lia)). split.
    + now intros [= ->].
    + now intros ->.
Qed.

Lemma str_of_int_digits (n : Z) :
  0 <= n -> Py.all_chars Py.is_digit (Terrain.str_of_int n) = true.
Proof.
  intros Hn. unfold Terrain.str_of_int.
  destruct (Z.ltb_spec n 0); [lia | apply str_of_nonneg_digits].
Qed.

(** *** Unfolding the scan *)

Lemma sub_from_enough (repl : string) :
  forall (f f' : nat) (s : string),
    (String.length s < f)%nat -> (String.length s < f')%nat ->
    Terrain.sub_from f repl s = Terrain.sub_from f' repl s.
Proof.
  induction f as [| f IH]; intros f' s Hf Hf'; [lia |].
  destruct f' as [| f']; [lia |]. cbn [Terrain.sub_from].
  destruct (Terrain.match_here s) as [[[g d] r] |] eqn:Hm.
  - destruct (match_here_sound _ _ _ _ Hm) as (_ & _ & _ & _ & Hshort).
    now rewrite (IH f' r) by lia.
  - destruct s as [| a s]; [reflexivity |]. cbn [String.length] in *.
    now rewrite (IH f' s) by lia.
Qed.

Lemma found_from_enough :
  forall (f f' : nat) (s : string),
    (String.length s < f)%nat -> (String.length s < f')%nat ->
    Terrain.found_from f s = Terrain.found_from f' s.
Proof.
  induction f as [| f IH]; intros f' s Hf Hf'; [lia |].
  destruct f' as [| f']; [lia |]. cbn [Terrain.found_from].
  destruct (Terrain.match_here s) as [[[g d] r] |] eqn:Hm.
  - destruct (match_here_sound _ _ _ _ Hm) as (_ & _ & _ & _ & Hshort).
    now rewrite (IH f' r) by lia.
  - destruct s as [| a s]; [reflexivity |]. cbn [String.length] in *.
    now rewrite (IH f' s) by lia.
Qed.

Lemma sub_match (repl s g d r : string) :
  Terrain.match_here s = Some (g, d, r) ->
  Terrain.sub repl s = (g ++ repl ++ Terrain.sub repl r)%string.
Proof.
  intros Hm. unfold Terrain.sub. cbn [Terrain.sub_from]. rewrite Hm.
  destruct (match_here_sound _ _ _ _ Hm) as (_ & _ & _ & _ & Hshort).
  now rewrite (sub_from_enough repl (String.length s) (S (String.length r)) r) by lia.
Qed.

Lemma sub_skip (repl : string) (a : ascii) (s : string) :
  Terrain.match_here (String a s) = None ->
  Terrain.sub repl (String a s) = String a (Terrain.sub repl s).
Proof. intros Hm. unfold Terrain.sub. cbn [Terrain.sub_from]. now rewrite Hm. Qed.

Lemma found_match (s g d r : string) :
  Terrain.match_here s = Some (g, d, r) ->
  Terrain.found s = d :: Terrain.found r.
Proof.
  intros Hm. unfold Terrain.found. cbn [Terrain.found_from]. rewrite Hm.
  destruct (match_here_sound _ _ _ _ Hm) as (_ & _ & _ & _ & Hshort).
  now rewrite (found_from_enough (String.length s) (S (String.length r)) r) by lia.
Qed.

Lemma found_skip (a : ascii) (s : string) :
  Terrain.match_here (String a s) = None ->
  Terrain.found (String a s) = Terrain.found s.
Proof. intros Hm. unfold Terrain.found. cbn [Terrain.found_from]. now rewrite Hm. Qed.

(** *** What the scan does to the text around a match *)

Lemma match_here_first (s g d r : string) :
  Terrain.match_here s = Some (g, d, r) -> first_char s = Some "T"%char.
Proof.
  unfold Terrain.match_here. intros Hm.
  destruct (Terrain.strip_prefix Terrain.key s) as [after |] eqn:Hk; [| discriminate].
  apply strip_prefix_app in Hk. subst s. reflexivity.
Qed.

(** Substitution keeps the first character. *)
Lemma sub_first_char (repl s : string) : first_char (Terrain.sub repl s) = first_char s.
Proof.
  destruct (Terrain.match_here s) as [[[g d] r] |] eqn:Hm.
  - rewrite (sub_match _ _ _ _ _ Hm), (match_here_first _ _ _ _ Hm).
    unfold Terrain.match_here in Hm.
    destruct (Terrain.strip_prefix Terrain.key s) as [after |]; [| discriminate].
    destruct (Terrain.span Terrain.re_space after) as [spaces after_spaces].
    destruct (Terrain.span Py.is_digit after_spaces) as [ds r'].
    destruct (String.eqb ds ""); [discriminate |]. injection Hm as <- _ _.
    reflexivity.
  - destruct s as [| a s]; [reflexivity |]. now rewrite (sub_skip _ _ _ Hm).
Qed.

Lemma no_match_unless_T (a : ascii) (s : string) :
  a <> "T"%char -> Terrain.match_here (String a s) = None.
Proof.
  intros Ha. unfold Terrain.match_here, Terrain.key. cbn [Terrain.strip_prefix].
  destruct (Ascii.eqb_spec "T" a) as [<- | _]; [contradiction | reflexivity].
Qed.

Lemma space_not_T (a : ascii) : Terrain.re_space a = true -> a <> "T"%char.
Proof. intros Ha ->. discriminate Ha. Qed.

Lemma space_not_digit (a : ascii) : Terrain.re_space a = true -> Py.is_digit a = false.
Proof.
  unfold Terrain.re_space, Py.is_digit. intros Ha.
  destruct (Nat.leb_spec 48 (nat_of_ascii a)); destruct (Nat.leb_spec (nat_of_ascii a) 57);
    try reflexivity.
  exfalso. rewrite !orb_true_iff, !andb_true_iff, !Nat.leb_le, !Nat.eqb_eq in Ha. lia.
Qed.

Lemma sub_through_spaces (repl spaces t : string) :
  Py.all_chars Terrain.re_space spaces = true ->
  Terrain.sub repl (spaces ++ t) = (spaces ++ Terrain.sub repl t)%string.
Proof.
  induction spaces as [| a spaces IH]; intros Hs; [reflexivity |].
  simpl in Hs. apply andb_true_iff in Hs as [Ha Hs].
  change (String a spaces ++ t)%string with (String a (spaces ++ t)).
  rewrite sub_skip by (apply no_match_unless_T, space_not_T, Ha).
  now rewrite IH.
Qed.

(** No match starts inside the key. *)
Lemma sub_through_key (repl x : string) :
  Terrain.match_here (Terrain.key ++ x) = None ->
  Terrain.sub repl (Terrain.key ++ x) = (Terrain.key ++ Terrain.sub repl x)%string.
Proof.
  intros Hm. unfold Terrain.key in *.
  change ("TERRAIN_HEIGHT_RANGE:" ++ x)%string
    with (String "T" ("ERRAIN_HEIGHT_RANGE:" ++ x)) in *.
  rewrite (sub_skip _ _ _ Hm).
  repeat (match goal with
          | |- context [Terrain.sub repl (String ?c ?rest ++ x)] =>
              change (String c rest ++ x)%string with (String c (rest ++ x));
              rewrite (sub_skip repl c (rest ++ x)) by reflexivity
          end).
  reflexivity.
Qed.

Lemma span_exact (p : ascii -> bool) (taken rest : string) :
  Py.all_chars p taken = true ->
  match first_char rest with Some a => p a = false | None => True end ->
  Terrain.span p (taken ++ rest) = (taken, rest).
Proof.
  induction taken as [| a taken IH]; intros Ht Hr.
  - destruct rest as [| b rest]; [reflexivity |]. simpl in *. now rewrite Hr.
  - simpl in Ht. apply andb_true_iff in Ht as [Ha Ht].
    change (String a taken ++ rest)%string with (String a (taken ++ rest)).
    cbn [Terrain.span]. now rewrite Ha, IH.
Qed.

Lemma strip_prefix_key (x : string) :
  Terrain.strip_prefix Terrain.key (Terrain.key ++ x) = Some x.
Proof. reflexivity. Qed.

(** A match with other digits in the place of its digits is a match. *)
Lemma match_here_rebuild (s g d r digits r' : string) :
  Terrain.match_here s = Some (g, d, r) ->
  Py.all_chars Py.is_digit digits = true ->
  digits <> EmptyString ->
  match first_char r' with Some a => Py.is_digit a = false | None => True end ->
  Terrain.match_here (g ++ digits ++ r') = Some (g, digits, r').
Proof.
  unfold Terrain.match_here. intros Hm Hd Hne Hr'.
  destruct (Terrain.strip_prefix Terrain.key s) as [after |] eqn:Hk; [| discriminate].
  destruct (Terrain.span Terrain.re_space after) as [spaces after_spaces] eqn:Hsp.
  destruct (Terrain.span Py.is_digit after_spaces) as [ds r0] eqn:Hds.
  destruct (String.eqb ds ""); [discriminate |]. injection Hm as <- _ _.
  destruct (span_app _ _ _ _ Hsp) as (_ & Hspaces & _).
  rewrite append_assoc, strip_prefix_key.
  rewrite span_exact; [| exact Hspaces |].
  - rewrite span_exact by assumption.
    destruct (String.eqb_spec digits "") as [| _]; [contradiction | reflexivity].
  - destruct digits as [| c digits]; [contradiction |]. simpl in *.
    apply andb_true_iff in Hd as [Hc _].
    destruct (Terrain.re_space c) eqn:Hsc; [| reflexivity].
    apply space_not_digit in Hsc. congruence.
Qed.

(** *** Prefixes *)

Lemma strip_prefix_short (q k x y : string) (rest : string) :
  (String.length q <= String.length k)%nat ->
  Terrain.strip_prefix q (k ++ x) = Some rest ->
  exists rest', Terrain.strip_prefix q (k ++ y) = Some rest'.
Proof.
  revert k rest. induction q as [| a q IH]; intros k rest Hlen Hq.
  - now eexists.
  - destruct k as [| b k]; [simpl in Hlen; lia |].
    change (String b k ++ x)%string with (String b (k ++ x)) in Hq.
    change (String b k ++ y)%string with (String b (k ++ y)).
    cbn [Terrain.strip_prefix] in *. destruct (Ascii.eqb a b); [| discriminate].
    apply (IH k rest); [simpl in Hlen; lia | exact Hq].
Qed.

(** What the text starts with after substitution, up to the length of the
    key, it started with before. *)
Lemma sub_keeps_prefix (repl : string) :
  forall (q s rest : string),
    (String.length q <= String.length Terrain.key)%nat ->
    Terrain.strip_prefix q (Terrain.sub repl s) = Some rest ->
    exists rest', Terrain.strip_prefix q s = Some rest'.
Proof.
  induction q as [| a q IH]; intros s rest Hlen Hq; [now eexists |].
  destruct (Terrain.match_here s) as [[[g d] r] |] eqn:Hm.
  - rewrite (sub_match _ _ _ _ _ Hm) in Hq.
    destruct (match_here_sound _ _ _ _ Hm) as (Hs & _).
    unfold Terrain.match_here in Hm.
    destruct (Terrain.strip_prefix Terrain.key s) as [after |]; [| discriminate].
    destruct (Terrain.span Terrain.re_space after) as [spaces after_spaces].
    destruct (Terrain.span Py.is_digit after_spaces) as [ds r'].
    destruct (String.eqb ds ""); [discriminate |]. injection Hm as <- <- <-.
    rewrite Hs. rewrite append_assoc in *.
    eapply strip_prefix_short; [exact Hlen | exact Hq].
  - destruct s as [| b s]; [discriminate Hq |].
    rewrite (sub_skip _ _ _ Hm) in Hq. cbn [Terrain.strip_prefix] in *.
    destruct (Ascii.eqb a b); [| discriminate].
    apply (IH s rest); [cbn [String.length] in Hlen; lia | exact Hq].
Qed.

(** Where there was no match there is none after substitution. *)
Lemma no_match_after_sub (repl : string) (a : ascii) (s : string) :
  Terrain.match_here (String a s) = None ->
  Terrain.match_here (String a (Terrain.sub repl s)) = None.
Proof.
  intros Hm.
  destruct (Terrain.strip_prefix Terrain.key (String a (Terrain.sub repl s)))
    as [after' |] eqn:Hk'; [| unfold Terrain.match_here; now rewrite Hk'].
  rewrite <- (sub_skip _ _ _ Hm) in Hk' |- *.
  destruct (sub_keeps_prefix repl Terrain.key (String a s) after' (Nat.le_refl _) Hk')
    as [after Hk].
  pose proof (strip_prefix_app _ _ _ Hk) as Hs. rewrite Hs in *.
  rewrite (sub_through_key _ _ Hm).
  unfold Terrain.match_here in Hm |- *. rewrite strip_prefix_key in *.
  destruct (Terrain.span Terrain.re_space after) as [spaces t] eqn:Hsp.
  destruct (span_app _ _ _ _ Hsp) as (-> & Hspaces & Ht).
  destruct (Terrain.span Py.is_digit t) as [ds r] eqn:Hds.
  destruct (String.eqb_spec ds "") as [-> | _]; [| discriminate Hm].
  rewrite sub_through_spaces by exact Hspaces.
  rewrite span_exact; [| exact Hspaces |].
  - assert (Hnone : Terrain.span Py.is_digit (Terrain.sub repl t)
                    = (EmptyString, Terrain.sub repl t)).
    { pose proof (sub_first_char repl t) as Hfc.
      destruct t as [| c t].
      - destruct (Terrain.sub repl "") as [| c' u]; [reflexivity | discriminate Hfc].
      - destruct (Terrain.sub repl (String c t)) as [| c' u]; [discriminate Hfc |].
        injection Hfc as ->. cbn [Terrain.span] in *.
        destruct (Py.is_digit c); [| reflexivity].
        destruct (Terrain.span Py.is_digit t). discriminate Hds. }
    now rewrite Hnone.
  - rewrite sub_first_char. destruct t as [| c t]; [exact I | exact Ht].
Qed.

(** After substitution every number found is the replacement. *)
Lemma found_after_sub (repl : string) :
  Py.all_chars Py.is_digit repl = true ->
  repl <> EmptyString ->
  forall (n : nat) (s : string),
    (String.length s < n)%nat ->
    Terrain.found (Terrain.sub repl s) = List.map (fun _ => repl) (Terrain.found s).
Proof.
  intros Hrepl Hne. induction n as [| n IH]; intros s Hlen; [lia |].
  destruct (Terrain.match_here s) as [[[g d] r] |] eqn:Hm.
  - destruct (match_here_sound _ _ _ _ Hm) as (_ & _ & _ & Hr & Hshort).
    rewrite (sub_match _ _ _ _ _ Hm), (found_match _ _ _ _ Hm).
    erewrite found_match; [| eapply match_here_rebuild; eauto].
    + cbn [List.map]. f_equal. apply IH. lia.
    + rewrite sub_first_char. destruct r; [exact I | exact Hr].
  - destruct s as [| a s]; [reflexivity |].
    rewrite (sub_skip _ _ _ Hm), (found_skip _ _ Hm).
    rewrite (found_skip _ _ (no_match_after_sub repl a s Hm)).
    apply IH. simpl in Hlen. lia.
Qed.

Lemma str_of_int_nonempty (n : Z) : Terrain.str_of_int n <> EmptyString.
Proof.
  unfold Terrain.str_of_int. destruct (n <? 0); [discriminate |].
  apply str_of_nonneg_nonempty.
Qed.

(** An update sets every occurrence.  When [update_config_file] returns
    [True] for a range that is not negative, the file held at least one number
    after [TERRAIN_HEIGHT_RANGE:]; the new file holds as many, each of them the
    new range; and the same update run again changes nothing and returns
    [False]. *)
Theorem update_sets_every_occurrence (n : Z) (content new_content : string) :
  0 <= n ->
  Terrain.update_config_file n (Some content) = (true, Some new_content) ->
  Terrain.found content <> []
  /\ Terrain.found new_content
     = List.map (fun _ => Terrain.str_of_int n) (Terrain.found content)
  /\ Terrain.update_config_file n (Some new_content) = (false, Some new_content).
Proof.
  intros Hn Hup. unfold Terrain.update_config_file in Hup. cbv zeta in Hup.
  destruct (String.eqb_spec (Terrain.sub (Terrain.str_of_int n) content) content)
    as [| Hchanged]; [discriminate Hup |].
  injection Hup as <-.
  pose proof (str_of_int_digits n Hn) as Hd.
  pose proof (found_after_sub _ Hd (str_of_int_nonempty n) (S (String.length content))
                content ltac:(lia)) as Hfound.
  split.
  - intros Hnone. apply Hchanged.
    apply (sub_from_fixed _ Hd (S (String.length content)) content ltac:(lia)).
    fold (Terrain.found content). rewrite Hnone. constructor.
  - split; [exact Hfound |].
    unfold Terrain.update_config_file. cbv zeta.
    set (new_content := Terrain.sub (Terrain.str_of_int n) content) in *.
    assert (Hfix : Terrain.sub (Terrain.str_of_int n) new_content = new_content).
    { apply (sub_from_fixed _ Hd (S (String.length new_content)) new_content ltac:(lia)).
      fold (Terrain.found new_content). rewrite Hfound.
      clear. induction (Terrain.found content) as [| x l IH]; cbn [List.map];
        constructor; [reflexivity | exact IH]. }
    rewrite Hfix. now rewrite String.eqb_refl.
Qed.

(** An update that changes nothing is reported as a failure.  For a range
    that is not negative, [update_config_file] returns [True] exactly when
    one of the numbers that follow [TERRAIN_HEIGHT_RANGE:] in the file is not
    the range already; when every one is (or there is none), it returns
    [False], the answer it gives when the key is not found, and the file is as
    it was. *)
Theorem update_reports_no_change_as_failure (n : Z) (content : string) :
  0 <= n ->
  (fst (Terrain.update_config_file n (Some content)) = false
   <-> Forall (fun digits => digits = Terrain.str_of_int n) (Terrain.found content))
  /\ (fst (Terrain.update_config_file n (Some content)) = false ->
      snd (Terrain.update_config_file n (Some content)) = Some content).
Proof.
  intros Hn. unfold Terrain.update_config_file. cbv zeta.
  pose proof (sub_from_fixed _ (str_of_int_digits n Hn) (S (String.length content)) content
                ltac:(lia)) as Hfix.
  fold (Terrain.sub (Terrain.str_of_int n) content) in Hfix.
  fold (Terrain.found content) in Hfix.
  destruct (String.eqb_spec (Terrain.sub (Terrain.str_of_int n) content) content)
    as [Heq | Hne]; cbn [fst snd].
  - split; [| reflexivity]. split; [intros _; now apply Hfix | reflexivity].
  - split; [| discriminate]. split; [discriminate |].
    intros Hall. apply Hfix in Hall. contradiction.
Qed.

End Terrain.

Lemma terrain_curriculum_is_monotone_witness :
  1 <= fst (Terrain.get_terrain_complexity_for_iteration 49)
  /\ fst (Terrain.get_terrain_complexity_for_iteration 49)
     <= fst (Terrain.get_terrain_complexity_for_iteration 150)
  /\ fst (Terrain.get_terrain_complexity_for_iteration 150) <= 4.
Proof. apply (terrain_curriculum_is_monotone 49 150). lia. Defined.

(** The file already holds the range 2: the update is refused. *)
Lemma update_reports_no_change_as_failure_witness :
  Terrain.found "  TERRAIN_HEIGHT_RANGE: 2,  // blocks" = ["2"]
  /\ Terrain.update_config_file 2 (Some "  TERRAIN_HEIGHT_RANGE: 2,  // blocks")
     = (false, Some "  TERRAIN_HEIGHT_RANGE: 2,  // blocks").
Proof.
  split; [reflexivity |].
  destruct (update_reports_no_change_as_failure 2 "  TERRAIN_HEIGHT_RANGE: 2,  // blocks"
              ltac:(lia)) as [[_ Hfalse] Hsame].
  assert (Hf : fst (Terrain.update_config_file 2
                      (Some "  TERRAIN_HEIGHT_RANGE: 2,  // blocks")) = false)
    by (apply Hfalse; vm_compute; constructor; [reflexivity | constructor]).
  specialize (Hsame Hf).
  destruct (Terrain.update_config_file 2 (Some "  TERRAIN_HEIGHT_RANGE: 2,  // blocks"))
    as [b c]. cbn [fst snd] in *. now subst.
Defined.

(** *** The command line *)

Lemma recommended_range (iteration : Z) :
  1 <= fst (Terrain.get_terrain_complexity_for_iteration iteration) <= 4.
Proof.
  unfold Terrain.get_terrain_complexity_for_iteration.
  repeat (match goal with |- context [if ?b then _ else _] => destruct b end); simpl; lia.
Qed.

Lemma decide_range (auto_mode : bool) (iteration : Z) (typed : option string)
    (shown : list Terrain.message) (height_range : Z) :
  Terrain.decide auto_mode iteration typed = (shown, inr height_range) ->
  1 <= height_range <= 4.
Proof.
  unfold Terrain.decide. pose proof (recommended_range iteration) as Hrec.
  destruct (Terrain.get_terrain_complexity_for_iteration iteration) as [recommended description].
  simpl in Hrec. intros Hd.
  destruct auto_mode, typed as [line |]; try discriminate Hd.
  - destruct (negb _); [discriminate Hd |]. now injection Hd as _ <-.
  - destruct (String.eqb _ ""); [now injection Hd as _ <- |].
    destruct (PyInt.int_of_str _) as [chosen |]; [| discriminate Hd].
    destruct (chosen <? 1) eqn:Hlow; [discriminate Hd |].
    destruct (4 <? chosen) eqn:Hhigh; [discriminate Hd |].
    injection Hd as _ <-. lia.
Qed.

(** The script changes the configuration file only when it succeeds, and only
    to a range from 1 to 4.  If [main] leaves the file with another content
    than it found, then it returned without [sys.exit] or exception, its last
    message reports the update to a range between 1 and 4, the new content is
    the old one with that range substituted, and every
    [TERRAIN_HEIGHT_RANGE] number in it is that range. *)
Theorem main_writes_only_a_valid_range
    (argv : list string) (typed : option string) (content content' : option string)
    (shown : list Terrain.message) (out : Terrain.outcome) :
  Terrain.main argv typed content = (shown, out, content') ->
  content' <> content ->
  out = Terrain.Returned
  /\ exists (height_range : Z) (old : string),
       1 <= height_range <= 4
       /\ content = Some old
       /\ content' = Some (Terrain.sub (Terrain.str_of_int height_range) old)
       /\ Forall (fun digits => digits = Terrain.str_of_int height_range)
            (Terrain.found (Terrain.sub (Terrain.str_of_int height_range) old))
       /\ List.last shown Terrain.Usage = Terrain.Updated height_range.
Proof.
  unfold Terrain.main. intros Hmain Hchanged.
  destruct argv as [| script [| argument rest]];
    try (injection Hmain as _ _ <-; contradiction).
  destruct (PyInt.int_of_str argument) as [iteration |];
    [| injection Hmain as _ _ <-; contradiction].
  destruct (Terrain.decide _ iteration typed) as [said [stop | height_range]] eqn:Hd;
    [injection Hmain as _ _ <-; contradiction |].
  apply decide_range in Hd.
  destruct content as [old |]; cbn [Terrain.update_config_file] in Hmain;
    [| injection Hmain as _ _ <-; contradiction].
  cbv zeta in Hmain.
  destruct (String.eqb _ old); [injection Hmain as _ _ <-; contradiction |].
  injection Hmain as <- <- <-. split; [reflexivity |].
  exists height_range, old. split; [exact Hd |]. split; [reflexivity |].
  split; [reflexivity |]. split.
  - rewrite (found_after_sub _ (str_of_int_digits height_range ltac:(lia))
               (str_of_int_nonempty height_range) (S (String.length old)) old ltac:(lia)).
    induction (Terrain.found old) as [| x l IH]; cbn [List.map];
      constructor; [reflexivity | exact IH].
  - change [Terrain.Updating; Terrain.Updated height_range]
      with ([Terrain.Updating] ++ [Terrain.Updated height_range]).
    rewrite app_comm_cons, app_assoc. apply List.last_last.
Qed.

(** Iteration 120 in automatic mode, confirmed with a capital Y. *)
Lemma main_writes_only_a_valid_range_witness :
  exists shown,
    Terrain.main ["update_terrain_complexity.py"; "120"; "--auto"] (Some "Y ")
      (Some "  TERRAIN_HEIGHT_RANGE: 1,")
    = (shown, Terrain.Returned, Some "  TERRAIN_HEIGHT_RANGE: 3,")
    /\ List.last shown Terrain.Usage = Terrain.Updated 3.
Proof.
  remember (Terrain.main ["update_terrain_complexity.py"; "120"; "--auto"] (Some "Y ")
              (Some "  TERRAIN_HEIGHT_RANGE: 1,")) as run eqn:Hrun.
  assert (Hnew : snd run = Some "  TERRAIN_HEIGHT_RANGE: 3,")
    by (subst run; vm_compute; reflexivity).
  destruct run as [[shown out] content']. simpl in Hnew. subst content'.
  destruct (main_writes_only_a_valid_range _ _ _ _ _ _ (eq_sym Hrun) ltac:(discriminate))
    as (-> & height_range & old & _ & _ & _ & _ & Hlast).
  exists shown. split; [reflexivity |].
  rewrite Hlast. f_equal.
  assert (Hshown : List.last shown Terrain.Usage = Terrain.Updated 3).
  { change shown with (fst (fst (shown, Terrain.Returned, Some "  TERRAIN_HEIGHT_RANGE: 3,"))).
    rewrite Hrun. vm_compute. reflexivity. }
  rewrite Hlast in Hshown. now injection Hshown.
Defined.

(** The file names the range twice, once in a comment; both are set to 3. *)
Lemma update_sets_every_occurrence_witness :
  let content := "TERRAIN_HEIGHT_RANGE:   1, // was TERRAIN_HEIGHT_RANGE:12" in
  let new_content := "TERRAIN_HEIGHT_RANGE:   3, // was TERRAIN_HEIGHT_RANGE:3" in
  Terrain.update_config_file 3 (Some content) = (true, Some new_content)
  /\ Terrain.found new_content = ["3"; "3"]
  /\ Terrain.update_config_file 3 (Some new_content) = (false, Some new_content).
Proof.
  cbv zeta.
  assert (Hup : Terrain.update_config_file 3
                  (Some "TERRAIN_HEIGHT_RANGE:   1, // was TERRAIN_HEIGHT_RANGE:12")
                = (true, Some "TERRAIN_HEIGHT_RANGE:   3, // was TERRAIN_HEIGHT_RANGE:3"))
    by (vm_compute; reflexivity).
  destruct (update_sets_every_occurrence 3 _ _ ltac:(lia) Hup) as (_ & Hfound & Hagain).
  split; [exact Hup |]. split; [| exact Hagain].
  rewrite Hfound. vm_compute. reflexivity.
Defined.

(** ** The training summary *)

Section SummaryFacts.
Context {text : Type} `{!JsonCodec text}.
Variable np_mean : list pyval -> option pyval.

Lemma tracked_key (entry : IterationResult * Z * string * Z * pyval * Z) (k : string) :
  List.In k ["total_episodes"; "episode_len_mean"; "episode_reward_mean";
             "seeker_kl"; "hider_kl"; "seeker_entropy"; "hider_entropy"] ->
  forall m, tracked [entry] = [m] -> subscript_key m k = Some (field k m).
Proof.
  destruct entry as [[[[[r i] ts] e] t] ms]. intros Hk m [= <-].
  simpl in Hk.
  repeat (destruct Hk as [<- | Hk]; [reflexivity |]). contradiction.
Qed.

Lemma column_tracked (k : string) (entries : list (IterationResult * Z * string * Z * pyval * Z)) :
  List.In k ["total_episodes"; "episode_len_mean"; "episode_reward_mean";
             "seeker_kl"; "hider_kl"; "seeker_entropy"; "hider_entropy"] ->
  Summary.column k (tracked entries) = Some (List.map (field k) (tracked entries)).
Proof.
  intros Hk. induction entries as [| entry entries IH]; [reflexivity |].
  change (tracked (entry :: entries)) with (tracked [entry] ++ tracked entries).
  destruct (tracked [entry]) as [| m [| ? ?]] eqn:Hm; try discriminate.
  cbn [app Summary.column List.map].
  now rewrite (tracked_key entry k Hk m Hm), IH.
Qed.

Lemma last_n_tracked (n : nat) (entries : list (IterationResult * Z * string * Z * pyval * Z)) :
  Demo.last_n n (tracked entries) = tracked (Demo.last_n n entries).
Proof.
  unfold Demo.last_n, tracked. now rewrite List.length_map, List.skipn_map.
Qed.

Lemma last_n_min {A : Type} (n : nat) (l : list A) :
  Demo.last_n (Nat.min n (length l)) l = Demo.last_n n l.
Proof.
  unfold Demo.last_n. f_equal. lia.
Qed.

(** The summary of a history the tracker itself has built.  When every record
    of a non-empty history comes from [extract_metrics], [generate_summary]
    finds every key it reads: it raises only if [np.mean] does, and then
    writes nothing.  Otherwise it writes [training_summary.json] and returns
    the summary in it: the number of records, the totals and the final values
    of the latest record, and the two means [np.mean] returns on the columns
    of the last twenty records (of all of them when there are fewer). *)
Theorem summary_of_a_tracked_history
    (dir : string) (earlier : list (IterationResult * Z * string * Z * pyval * Z))
    (last : IterationResult * Z * string * Z * pyval * Z) (w : world text) :
  let history := tracked (earlier ++ [last]) in
  let latest := List.last history PNone in
  let recent := Demo.last_n 20 history in
  let self := {| mt_checkpoint_dir := dir; metrics_history := PList history |} in
  length recent = Nat.min 20 (length history)
  /\ match np_mean (List.map (field "episode_len_mean") recent),
           np_mean (List.map (field "episode_reward_mean") recent) with
     | Some avg_length, Some avg_reward =>
         exists summary,
           Summary.generate_summary np_mean self w
           = (Some summary,
              write_file (Summary.summary_file dir) (json_dump (PDict summary)) w)
           /\ summary !! "total_iterations" = Some (PInt (Z.of_nat (length history)))
           /\ summary !! "total_episodes" = Some (field "total_episodes" latest)
           /\ summary !! "final_episode_length" = Some (field "episode_len_mean" latest)
           /\ summary !! "final_episode_reward" = Some (field "episode_reward_mean" latest)
           /\ summary !! "avg_episode_length_recent" = Some avg_length
           /\ summary !! "avg_episode_reward_recent" = Some avg_reward
           /\ summary !! "seeker_final_kl" = Some (field "seeker_kl" latest)
           /\ summary !! "hider_final_kl" = Some (field "hider_kl" latest)
           /\ summary !! "seeker_final_entropy" = Some (field "seeker_entropy" latest)
           /\ summary !! "hider_final_entropy" = Some (field "hider_entropy" latest)
     | _, _ => Summary.generate_summary np_mean self w = (None, w)
     end.
Proof.
  cbv zeta. split.
  { unfold Demo.last_n. rewrite List.length_skipn. lia. }
  assert (Hlast : List.last (tracked (earlier ++ [last])) PNone
                  = List.last (tracked [last]) PNone).
  { unfold tracked. rewrite List.map_app. cbn [List.map]. now rewrite !List.last_last. }
  assert (Hsub : subscript_last (PList (tracked (earlier ++ [last])))
                 = Some (List.last (tracked [last]) PNone)).
  { unfold subscript_last, tracked. rewrite List.map_app, List.map_app.
    cbn [List.map]. now rewrite List.last_last. }
  assert (Htruthy : Py.truthy (PList (tracked (earlier ++ [last]))) = true).
  { unfold Py.truthy, tracked. rewrite List.length_map, List.length_app. simpl.
    destruct (Nat.eqb_spec (length earlier + 1) 0); [lia | reflexivity]. }
  unfold Summary.generate_summary. cbn [metrics_history mt_checkpoint_dir].
  rewrite Htruthy, Hsub, last_n_min, Hlast. cbn [negb].
  destruct (tracked [last]) as [| latest [| ? ?]] eqn:Hm; try discriminate.
  cbn [List.last].
  unfold Summary.summary_of.
  rewrite (tracked_key last "total_episodes" ltac:(simpl; tauto) latest Hm),
          (tracked_key last "episode_len_mean" ltac:(simpl; tauto) latest Hm),
          (tracked_key last "episode_reward_mean" ltac:(simpl; tauto) latest Hm),
          (tracked_key last "seeker_kl" ltac:(simpl; tauto) latest Hm),
          (tracked_key last "hider_kl" ltac:(simpl; tauto) latest Hm),
          (tracked_key last "seeker_entropy" ltac:(simpl; tauto) latest Hm),
          (tracked_key last "hider_entropy" ltac:(simpl; tauto) latest Hm).
  rewrite last_n_tracked.
  rewrite (column_tracked "episode_len_mean" _ ltac:(simpl; tauto)),
          (column_tracked "episode_reward_mean" _ ltac:(simpl; tauto)).
  cbn [mbind option_bind].
  destruct (np_mean (List.map (field "episode_len_mean") _)) as [avg_length |];
    [| now destruct (np_mean _)].
  cbn [mbind option_bind].
  destruct (np_mean (List.map (field "episode_reward_mean") _)) as [avg_reward |];
    [| reflexivity].
  cbn [mbind option_bind].
  eexists. split; [reflexivity |].
  repeat split; reflexivity.
Qed.

End SummaryFacts.

(** ** Which policy acts for an agent *)

Section PolicyFacts.
Variable Observation : Type.

Lemma policy_id_inj (role other : string) :
  (role ++ "_policy")%string = (other ++ "_policy")%string -> role = other.
Proof. apply append_cancel_r. Qed.

(** The demo acts with the policy the agent was trained with.  For an agent
    whose role the browser does not send, or sends as the identifier implies
    (['seeker'] when the identifier contains it, ['hider'] otherwise), every
    action [get_action] takes from the learner is the answer of the policy
    that [policy_mapping_fn] gave the agent in training, converted to the
    format of the browser, or the zero action when that policy raises or
    answers with fewer than seven values.  For any other role the controller
    asks for a policy that is not the agent's. *)
Theorem demo_acts_with_the_policy_trained
    (mode : string) (trainer : Controller.Trainer Observation) (sample : list float)
    (observation : Observation) (agent_id : string) (sent : option string) :
  let role := Controller.role_of sent agent_id in
  let implied := if Py.contains "seeker" agent_id then "seeker" else "hider" in
  Controller._should_use_trained_policy mode role = true ->
  ((sent = None \/ sent = Some implied) ->
   Controller.get_action Observation mode (Some trainer) sample observation role
   = Some (match trainer (Controller.policy_mapping_fn agent_id) observation with
           | Some action =>
               default (Controller._get_zero_action) (Controller.browser_action action)
           | None => Controller._get_zero_action
           end))
  /\ ((role ++ "_policy")%string = Controller.policy_mapping_fn agent_id
      <-> (sent = None \/ sent = Some implied)).
Proof.
  cbv zeta. intros Huse.
  assert (Hiff : (Controller.role_of sent agent_id ++ "_policy")%string
                 = Controller.policy_mapping_fn agent_id
                 <-> (sent = None \/
                      sent = Some (if Py.contains "seeker" agent_id then "seeker" else "hider"))).
  { unfold Controller.role_of, Controller.policy_mapping_fn.
    destruct sent as [role |]; simpl.
    - split.
      + intros Hp. right. f_equal.
        destruct (Py.contains "seeker" agent_id);
          [apply (policy_id_inj role "seeker") | apply (policy_id_inj role "hider")];
          exact Hp.
      + intros [Hn | [= ->]]; [discriminate |].
        now destruct (Py.contains "seeker" agent_id).
    - split; [now left |]. intros _. now destruct (Py.contains "seeker" agent_id). }
  split; [| exact Hiff].
  intros Hsent. apply Hiff in Hsent.
  unfold Controller.get_action. rewrite Huse.
  unfold Controller._get_trained_action. now rewrite Hsent.
Qed.

End PolicyFacts.

(** In the mode that trains the seeker only, an agent named [seeker_0] whose
    role is not sent acts with the seeker's policy. *)
Lemma demo_acts_with_the_policy_trained_witness :
  Controller._should_use_trained_policy Controller.MODE_SEEKER_TRAINED
    (Controller.role_of None "seeker_0") = true
  /\ Controller.get_action unit Controller.MODE_SEEKER_TRAINED (Some two_policies)
       [0; 0; 0; 0; 0; 0; 0]%float tt (Controller.role_of None "seeker_0")
     = Some {| Controller.movement_forward := 1%float;
               Controller.movement_strafe := 0%float;
               Controller.rotation := 0%float;
               Controller.look := 0%float;
               Controller.jump := true;
               Controller.place_block := false;
               Controller.remove_block := false |}.
Proof.
  split; [reflexivity |].
  destruct (demo_acts_with_the_policy_trained unit Controller.MODE_SEEKER_TRAINED two_policies
              [0; 0; 0; 0; 0; 0; 0]%float tt "seeker_0" None eq_refl) as [Hact _].
  rewrite (Hact (or_introl eq_refl)). vm_compute. reflexivity.
Defined.
Example split_ex1 : Py.split "_" "checkpoint_000005" = ["checkpoint"; "000005"].
Proof. reflexivity. Qed.
Example split_ex2 : Py.split "_" "my_checkpoint_5" = ["my"; "checkpoint"; "5"].
Proof. reflexivity. Qed.
Example split_ex3 : Py.split "_" "" = [""].
Proof. reflexivity. Qed.
Example int_ex1 : Py.int_of_string "000005" = Some 5.
Proof. reflexivity. Qed.
Example int_ex2 : Py.int_of_string " -12 " = Some (-12).
Proof. reflexivity. Qed.
Example int_ex3 : Py.int_of_string "final" = None.
Proof. reflexivity. Qed.
Example int_ex4 : Py.int_of_string "" = None.
Proof. reflexivity. Qed.
Example fmt_ex1 : Py.format_06d 5 = "000005".
Proof. reflexivity. Qed.
Example fmt_ex2 : Py.format_06d 1234567 = "1234567".
Proof. reflexivity. Qed.
Example fmt_ex3 : Py.format_06d (-4) = "-00004".
Proof. reflexivity. Qed.
Example fmt_ex4 : Py.format_06d 0 = "000000".
Proof. reflexivity. Qed.
Example name_ex1 : Py.path_name "./checkpoints/checkpoint_000005/" = "checkpoint_000005".
Proof. reflexivity. Qed.
Example name_ex2 : Py.path_name "runs/./best/." = "best".
Proof. reflexivity. Qed.
Example float_ex1 : Py.eq_int (PFloat 64%float) 64 = true.
Proof. reflexivity. Qed.
Example float_ex2 : Py.eq_int (PFloat 0.5%float) 0 = false.
Proof. reflexivity. Qed.
Example float_ex3 : Py.add_int (PFloat 1.5%float) 2 = Ok (PFloat 3.5%float).
Proof. reflexivity. Qed.
Example truthy_ex1 : Py.truthy (PDict ∅) = false /\ Py.truthy (PFloat (-0)%float) = false
                     /\ Py.truthy (PFloat nan) = true.
Proof. repeat split; reflexivity. Qed.

